(** * ProactEd: the model lifecycle manager

    A shallow embedding of the retraining pipeline ([auto_retrain.py],
    class [AutoModelRetrainer]), of the ensemble weighting of
    [enhanced_ml_pipeline.py] (class [AdvancedModelPipeline]) and of the part
    of [database_integration.py] they call, with the properties of the
    design document stated against them.

    Conventions.
    - Scores (R², cross-validated means) are IEEE doubles in the program.
      Where the program computes with them (the ensemble weights) they are
      the binary64 numbers themselves ([float], with IEEE addition and
      division, rounding to nearest even); [to_Q] gives the rational a
      finite double stands for.  Where the program only reads, stores and
      compares them (the retrainer, the monitor, the model report) they are
      modelled by the value they stand for ([pyfloat]: a rational, one of
      the two infinities, or NaN), on which the comparisons of doubles are
      exact.
    - Python dictionaries that are iterated are association lists in
      insertion order ([PyDict]); the file system is a finite map from
      paths to file contents.
    - What the program obtains from the outside (the clock, scikit-learn,
      the CSV importer, I/O failures) is read from an environment record
      [Env]; every statement quantifies over it. *)

From Stdlib Require Import QArith Qcanon Qpower Lqa Floats.
From stdpp Require Import base option numbers list strings gmap pretty.

Local Open Scope Z_scope.

(* ===================================================================== *)
(** ** Scores that are read and compared *)
(* ===================================================================== *)

Module PyFloat.

Inductive pyfloat : Type :=
| Finite (q : Qc)
| PosInf
| NegInf
| NaN.

#[global] Instance pyfloat_eq_dec : EqDecision pyfloat.
Proof. solve_decision. Defined.

Definition Qc_ltb (a b : Qc) : bool := bool_decide (a < b)%Qc.
Definition Qc_eqb (a b : Qc) : bool := bool_decide (a = b).

Definition is_finite (x : pyfloat) : bool :=
  match x with Finite _ => true | _ => false end.

(** [x < y]; any comparison with NaN is false. *)
Definition flt (x y : pyfloat) : bool :=
  match x, y with
  | NaN, _ | _, NaN => false
  | Finite a, Finite b => Qc_ltb a b
  | NegInf, (Finite _ | PosInf) => true
  | Finite _, PosInf => true
  | _, _ => false
  end.

(** [x > y] *)
Definition fgt (x y : pyfloat) : bool := flt y x.

(** [bool(x)]: a float is falsy exactly when it is zero. *)
Definition truthy (x : pyfloat) : bool :=
  match x with
  | Finite a => negb (Qc_eqb a 0)
  | _ => true
  end.

(** A literal. *)
Definition of_Q (q : Q) : pyfloat := Finite (Q2Qc q).

(** [x >= y]; any comparison with NaN is false. *)
Definition fge (x y : pyfloat) : bool :=
  match x, y with
  | NaN, _ | _, NaN => false
  | Finite a, Finite b => negb (Qc_ltb a b)
  | PosInf, _ => true
  | _, NegInf => true
  | _, _ => false
  end.

(** [math.isnan(x)] *)
Definition is_nan (x : pyfloat) : bool :=
  match x with NaN => true | _ => false end.

(** The value of a finite score. *)
Definition rational (x : pyfloat) : Qc :=
  match x with Finite q => q | _ => Q2Qc 0 end.

End PyFloat.
Export PyFloat.

(* ===================================================================== *)
(** ** Scores that are computed with: IEEE doubles *)
(* ===================================================================== *)

(** A numpy [float64] is a [float]: the kernel's binary64 numbers, whose
    [+] and [/] are the IEEE operations rounding to nearest, ties to even,
    with signed zeros, infinities and NaN (a division by zero gives an
    infinity or NaN, as numpy does with a warning, never an exception).
    Decimal literals denote the nearest double, as in Python. *)
Set Warnings "-inexact-float".

Module Double.
Local Open Scope Q_scope.

(** [sum(xs)]: left to right, starting from 0. *)
Definition fsum (xs : list float) : float := fold_left PrimFloat.add xs 0%float.

(** [0 <= x < inf] *)
Definition nonneg_finite (x : float) : bool :=
  (0 <=? x)%float && (x <? infinity)%float.

(** [2^e] *)
Definition pow2 (e : Z) : Q := 2 ^ e.

(** The rational a finite double stands for (0 for the others), read off
    its sign, mantissa and exponent. *)
Definition SF2Q (x : spec_float) : Q :=
  match x with
  | S754_finite s m e =>
      (if s then - inject_Z (Zpos m) else inject_Z (Zpos m)) * pow2 e
  | _ => 0
  end.

Definition to_Q (x : float) : Q := SF2Q (Prim2SF x).

(** The sum of the numbers themselves, without rounding. *)
Definition exact_sum (xs : list float) : Q :=
  fold_right (fun x acc => to_Q x + acc) 0 xs.

Definition Qlength (xs : list float) : Q := inject_Z (Z.of_nat (length xs)).

(** [2^-52], the distance from 1 to the next double, and [2^-1074], the
    smallest positive double. *)
Definition u52 : Q := 1 # 4503599627370496.
Definition eta : Q := pow2 (-1074).

(** [n * 2^-49]: eight units in the last place for each of [n] numbers. *)
Definition tolerance (n : nat) : Q :=
  inject_Z (Z.of_nat n) * (1 # 562949953421312).

Fixpoint pow_n (q : Q) (n : nat) : Q :=
  match n with O => 1 | S n => q * pow_n q n end.

(** The pieces of the binary64 format the proofs name: the exponent of the
    last place of a number of magnitude [2^e], what the rounding returns
    for a mantissa of at most 53 bits or [2^53], and the doubles that are
    zero or positive and finite. *)
Definition fexp64 (e : Z) : Z := Z.max (e - 53) (-1074).

Definition pack (s : bool) (m E : Z) : spec_float :=
  if (m =? 0)%Z then S754_zero s
  else if (m <? 2 ^ 53)%Z then
    if (E <=? 971)%Z then S754_finite s (Z.to_pos m) E else S754_infinity s
  else
    if (E + 1 <=? 971)%Z then S754_finite s (Z.to_pos (m / 2)) (E + 1)
    else S754_infinity s.

Definition nnf (x : spec_float) : bool :=
  match x with
  | S754_zero _ | S754_finite false _ _ => true
  | _ => false
  end.

End Double.


(* ===================================================================== *)
(** ** Insertion-ordered dictionaries *)
(* ===================================================================== *)

Module PyDict.

Definition dict (V : Type) : Type := list (string * V).

Definition keys {V} (d : dict V) : list string := d.*1.
Definition values {V} (d : dict V) : list V := d.*2.

(** [d.get(k)] *)
Fixpoint get {V} (k : string) (d : dict V) : option V :=
  match d with
  | [] => None
  | (k', v) :: d' => if decide (k' = k) then Some v else get k d'
  end.

(** [d[k] = v]: an existing key keeps its position, a new one goes last. *)
Fixpoint set {V} (k : string) (v : V) (d : dict V) : dict V :=
  match d with
  | [] => [(k, v)]
  | (k', v') :: d' =>
      if decide (k' = k) then (k, v) :: d' else (k', v') :: set k v d'
  end.

End PyDict.

(* ===================================================================== *)
(** ** enhanced_ml_pipeline.py: the ensemble weights *)
(* ===================================================================== *)

Module Pipeline.
Import Double.

(** An entry of [self.model_performance]. The cross-validated mean, with
    which [create_ensemble_model] computes, is the double; the other three
    are only stored and compared. *)
Record Performance : Type := mkPerformance {
  mse : pyfloat;
  r2 : pyfloat;
  cv_mean : float;
  cv_std : pyfloat
}.

(** The fields of [AdvancedModelPipeline] that the ensemble step reads and
    writes. *)
Record AdvancedModelPipeline : Type := mkPipeline {
  model_performance : PyDict.dict Performance;
  ensemble_weights : PyDict.dict float
}.

(** [sum([perf['cv_mean'] for perf in self.model_performance.values()])]:
    the means are numpy doubles ([cv_scores.mean()], line 137), which [sum]
    adds with their own [+], one after the other, starting from 0. *)
Definition total_cv_score (p : AdvancedModelPipeline) : float :=
  fsum (map cv_mean (PyDict.values (model_performance p))).

(** [create_ensemble_model]: one store into [self.ensemble_weights] per
    entry of [self.model_performance]; the arguments [X] and [y] are not
    used by the method. *)
Definition create_ensemble_model (p : AdvancedModelPipeline)
  : AdvancedModelPipeline :=
  let total := total_cv_score p in
  {| model_performance := model_performance p;
     ensemble_weights :=
       fold_left
         (fun w '(name, perf) => PyDict.set name (cv_mean perf / total)%float w)
         (model_performance p) (ensemble_weights p) |}.

(** The pipeline as [train_individual_models] leaves it when the candidates
    it scored have the given cross-validated means: no weights yet. (The
    other three metrics play no role in the weights.) *)
Definition scored (cvs : list (string * float)) : AdvancedModelPipeline :=
  {| model_performance :=
       map (fun '(name, c) =>
              (name, mkPerformance (Finite 0) (Finite 0) c (Finite 0))) cvs;
     ensemble_weights := [] |}.

(** [sum(self.ensemble_weights.values())] *)
Definition weight_sum (p : AdvancedModelPipeline) : float :=
  fsum (PyDict.values (ensemble_weights p)).

(** The keys of [self.models], in the order [__init__] (lines 19-31) inserts
    them. *)
Definition model_names : list string :=
  ["random_forest"; "gradient_boosting"; "xgboost"; "neural_network";
   "linear_regression"].

(** [max(xs, key=key)]: the first of the largest; [None] stands for the
    [ValueError] on an empty sequence. *)
Definition py_max {A} (key : A -> pyfloat) (xs : list A) : option A :=
  match xs with
  | [] => None
  | x :: rest =>
      Some (fold_left (fun best y => if fgt (key y) (key best) then y else best)
              rest x)
  end.

(** The entry [best_individual_model] of [generate_model_report] (lines
    203-204): [max(self.model_performance.keys(), key=lambda x:
    self.model_performance[x]['r2'])]. The report is built, and this entry
    evaluated, before the report file is opened. *)
Definition best_individual_model (p : AdvancedModelPipeline) : option string :=
  py_max
    (fun x => match PyDict.get x (model_performance p) with
              | Some perf => r2 perf
              | None => NaN
              end)
    (PyDict.keys (model_performance p)).

(** The pipeline as [train_individual_models] leaves it after the five
    models were scored: each with its test R² and cross-validated mean. *)
Definition trained (scores : list (pyfloat * float)) : AdvancedModelPipeline :=
  {| model_performance :=
       zip_with (fun name '(test_r2, cv) =>
                   (name, mkPerformance (Finite 0) test_r2 cv (Finite 0)))
         model_names scores;
     ensemble_weights := [] |}.

(** Five models, the third the best on both scores. *)
Definition five_models : AdvancedModelPipeline :=
  trained [(of_Q (80 # 100), 0.6%float); (of_Q (78 # 100), 0.5%float);
           (of_Q (85 # 100), 0.7%float); (of_Q (85 # 100), 0.4%float);
           (of_Q (60 # 100), 0.3%float)].

(** Result sets the design document tries the composer on. *)
Definition three_candidates : AdvancedModelPipeline :=
  scored [("random_forest", 0.6%float); ("xgboost", 0.7%float);
          ("linear_regression", (-0.3)%float)].

Definition four_candidates : AdvancedModelPipeline :=
  scored [("random_forest", 0.6%float); ("gradient_boosting", 0.5%float);
          ("xgboost", 0.7%float); ("neural_network", 0.4%float)].

(** Means that nearly cancel: -0.99 + 0.91 + 0.08. *)
Definition cancelling_candidates : AdvancedModelPipeline :=
  scored [("random_forest", (-0.99)%float); ("xgboost", 0.91%float);
          ("linear_regression", 0.08%float)].

End Pipeline.

(* ===================================================================== *)
(** ** auto_retrain.py: data, files and the outside world *)
(* ===================================================================== *)

Module Retrain.

(** *** Time *)

(** A [datetime] is a number of seconds (local time, since 1970-01-01);
    microseconds are dropped. *)
Definition datetime : Type := Z.

Definition digit (n : Z) : string :=
  String (Ascii.ascii_of_nat (48 + Z.to_nat (n mod 10))) EmptyString.

Fixpoint zero_padded (width : nat) (n : Z) : string :=
  match width with
  | O => EmptyString
  | S k => zero_padded k (n / 10) +:+ digit n
  end.

(** Day number to (year, month, day) of the proleptic Gregorian calendar. *)
Definition civil_from_days (days : Z) : Z * Z * Z :=
  let z := days + 719468 in
  let era := z / 146097 in
  let doe := z - era * 146097 in
  let yoe := (doe - doe / 1460 + doe / 36524 - doe / 146096) / 365 in
  let doy := doe - (365 * yoe + yoe / 4 - yoe / 100) in
  let mp := (5 * doy + 2) / 153 in
  let d := doy - (153 * mp + 2) / 5 + 1 in
  let m := if mp <? 10 then mp + 3 else mp - 9 in
  let y := yoe + era * 400 + (if m <=? 2 then 1 else 0) in
  (y, m, d).

(** [t.strftime("%Y%m%d_%H%M%S")] *)
Definition strftime (t : datetime) : string :=
  let '(y, m, d) := civil_from_days (t / 86400) in
  let s := t mod 86400 in
  zero_padded 4 y +:+ zero_padded 2 m +:+ zero_padded 2 d +:+ "_"
  +:+ zero_padded 2 (s / 3600) +:+ zero_padded 2 (s / 60 mod 60)
  +:+ zero_padded 2 (s mod 60).

(** [(a - b).days]: whole days, rounded towards minus infinity. *)
Definition days_between (a b : datetime) : Z := (a - b) / 86400.

(** *** Paths *)

Definition PRODUCTION_MODEL : string :=
  "complete_equipment_failure_prediction_system.pkl".
Definition TRAINING_LOG : string := "model_training_log.json".
Definition TEMP_EVAL_DATA : string := "temp_eval_data.csv".
Definition RETRAINING_DATA : string := "retraining_data.csv".
Definition KNUST_DATASET : string := "knust_classroom_equipment_dataset.csv".
Definition CLEANED_DATA : string := "cleaned_equipment_data.csv".
Definition CLEAN_DATA : string := "clean_equipment_data.csv".

(** [f'retrained_model_{t.strftime("%Y%m%d_%H%M%S")}.pkl'] and its two
    siblings. *)
Definition retrained_filename (t : datetime) : string :=
  "retrained_model_" +:+ strftime t +:+ ".pkl".
Definition backup_name (t : datetime) : string :=
  "model_backup_" +:+ strftime t +:+ ".pkl".
Definition report_filename (t : datetime) : string :=
  "retraining_report_" +:+ strftime t +:+ ".json".

(** *** Tables *)

(** A pandas [DataFrame], as far as the pipeline looks into it: the column
    names with whether the dtype is numeric, and the number of rows. The
    cells only reach scikit-learn, which is part of the environment. *)
Record Column : Type := mkColumn {
  col_name : string;
  col_numeric : bool
}.

#[global] Instance Column_eq_dec : EqDecision Column.
Proof. solve_decision. Defined.

Record DataFrame : Type := mkDataFrame {
  columns : list Column;
  nrows : nat
}.

#[global] Instance DataFrame_eq_dec : EqDecision DataFrame.
Proof. solve_decision. Defined.


(** [pd.DataFrame()] *)
Definition empty_frame : DataFrame := mkDataFrame [] 0.

(** [df.empty]: some axis has length 0. *)
Definition df_empty (df : DataFrame) : bool :=
  (nrows df =? 0)%nat || (length (columns df) =? 0)%nat.

(** [name in df.columns] *)
Definition has_column (name : string) (df : DataFrame) : bool :=
  bool_decide (name ∈ map col_name (columns df)).

(** [df[name] = values]: an existing column is replaced where it stands, a
    new one goes last. *)
Definition assign_column (name : string) (numeric : bool) (df : DataFrame)
  : DataFrame :=
  if has_column name df then
    mkDataFrame
      (map (fun c => if decide (col_name c = name) then mkColumn name numeric else c)
         (columns df))
      (nrows df)
  else mkDataFrame (columns df ++ [mkColumn name numeric]) (nrows df).

(** The dtype of [df[name]] is numeric. *)
Definition column_is_numeric (name : string) (df : DataFrame) : bool :=
  bool_decide (mkColumn name true ∈ columns df).

(** [df.select_dtypes(include=[np.number]).columns.tolist()] *)
Definition numeric_columns (df : DataFrame) : list string :=
  map col_name (filter (fun c => col_numeric c = true) (columns df)).

(** The SQLite database, seen through the three queries the retrainer
    issues: the joins of [get_equipment_data] and [export_data_for_ml] are
    not interpreted, the database carries their current answers; of
    [equipment_readings] it carries the timestamp of every row. *)
Record Database : Type := mkDatabase {
  equipment_data : DataFrame;
  reading_timestamps : list datetime;
  ml_export : DataFrame
}.

#[global] Instance Database_eq_dec : EqDecision Database.
Proof. solve_decision. Defined.


(** *** Model artifacts, training log, report *)

(** A fitted estimator; what it predicts is the environment's business. *)
Definition Model : Type := nat.

Record PerformanceMetrics : Type := mkMetrics {
  r2_score : pyfloat;
  mse : pyfloat;
  train_r2 : pyfloat;
  roi : pyfloat
}.

#[global] Instance PerformanceMetrics_eq_dec : EqDecision PerformanceMetrics.
Proof. solve_decision. Defined.


Record ModelInfo : Type := mkModelInfo {
  model_name : string;
  model_object : Model;
  features : list string;
  optimal_threshold : pyfloat;
  performance_metrics : PerformanceMetrics
}.

#[global] Instance ModelInfo_eq_dec : EqDecision ModelInfo.
Proof. solve_decision. Defined.


Record TrainingInfo : Type := mkTrainingInfo {
  training_date : datetime;
  training_samples : nat;
  test_samples : nat;
  feature_count : nat;
  retraining_version : string
}.

#[global] Instance TrainingInfo_eq_dec : EqDecision TrainingInfo.
Proof. solve_decision. Defined.


(** The dictionary pickled as a model file. *)
Record ModelSystem : Type := mkModelSystem {
  model_info : ModelInfo;
  training_info : TrainingInfo
}.

#[global] Instance ModelSystem_eq_dec : EqDecision ModelSystem.
Proof. solve_decision. Defined.


(** [model_training_log.json] *)
Record TrainingLogEntry : Type := mkLogEntry {
  last_training_date : datetime;
  performance : pyfloat;
  sample_count : nat;
  training_type : string
}.

#[global] Instance TrainingLogEntry_eq_dec : EqDecision TrainingLogEntry.
Proof. solve_decision. Defined.


(** [report['model_performance']] *)
Record ReportPerformance : Type := mkReportPerformance {
  report_r2_score : pyfloat;
  report_sample_count : nat;
  report_feature_count : nat
}.

#[global] Instance ReportPerformance_eq_dec : EqDecision ReportPerformance.
Proof. solve_decision. Defined.


(** [retraining_report_<timestamp>.json] *)
Record Report : Type := mkReport {
  retraining_timestamp : datetime;
  report_model_performance : ReportPerformance;
  report_training_info : TrainingInfo;
  status : string
}.

#[global] Instance Report_eq_dec : EqDecision Report.
Proof. solve_decision. Defined.


(** What a file holds. [Unreadable] stands for every other content: an
    empty or truncated file, a pickle of another shape, a log without its
    date; reading it as one of the four formats raises. *)
Inductive File : Type :=
| Pickled (model_system : ModelSystem)
| Csv (df : DataFrame)
| TrainingLogJson (entry : TrainingLogEntry)
| ReportJson (report : Report)
| Unreadable (bytes : string).

#[global] Instance File_eq_dec : EqDecision File.
Proof. solve_decision. Defined.


(** *** Exceptions and the environment *)

Inductive Query : Type :=
| GetEquipmentData
| CountNewReadings
| ExportForML.

(** The operations on the outside world that can fail whatever the program
    does. *)
Inductive Step : Type :=
| OpenRead (path : string)
| OpenWrite (path : string)
| Dump (path : string)
| Rename (src dst : string)
| Remove (path : string)
| Sql (q : Query).

Inductive Exn : Type :=
| IOFailure (s : Step)           (* OSError, sqlite3.Error *)
| FileNotFound (path : string)   (* FileNotFoundError *)
| BadContent (path : string)     (* UnpicklingError, JSONDecodeError, KeyError, ParserError *)
| SklearnError.                  (* ValueError and the like from fit or predict *)

#[global] Instance Query_eq_dec : EqDecision Query.
Proof. solve_decision. Defined.
#[global] Instance Step_eq_dec : EqDecision Step.
Proof. solve_decision. Defined.
#[global] Instance Exn_eq_dec : EqDecision Exn.
Proof. solve_decision. Defined.

(** What [train_test_split], [fit], [predict], [r2_score] and
    [mean_squared_error] give on lines 250-262 of [retrain_model]. *)
Record Fitted : Type := mkFitted {
  fit_model : Model;
  fit_train_r2 : pyfloat;
  fit_test_r2 : pyfloat;
  fit_test_mse : pyfloat;
  fit_train_samples : nat;
  fit_test_samples : nat
}.

#[global] Instance Fitted_eq_dec : EqDecision Fitted.
Proof. solve_decision. Defined.


(** The environment of a run. [clock] and [fails] are indexed by the number
    of interactions with the outside the run has had so far, so the same
    operation may succeed once and fail later. *)
Record Env : Type := mkEnv {
  (** the value of the next [datetime.now()] *)
  clock : nat -> datetime;
  (** does this operation, attempted now, raise? *)
  fails : Step -> nat -> bool;
  (** scikit-learn on the feature columns of a table; [None]: it raises *)
  fit : list string -> DataFrame -> option Fitted;
  (** [r2_score(y, model.predict(X))]; [None]: it raises *)
  predict_r2 : Model -> list string -> DataFrame -> option pyfloat;
  (** the database after [import_csv_data] read the given file *)
  csv_import : option File -> datetime -> Database -> Database
}.

Record World : Type := mkWorld {
  fs : gmap string File;
  db : Database;
  ticks : nat
}.

#[global] Instance World_eq_dec : EqDecision World.
Proof. solve_decision. Defined.


(** *** What the run logs *)

(** One constructor per [logging] call of [auto_retrain.py] (the text of the
    message is in the comment), and the one [logger.info] of
    [export_data_for_ml]. *)
Inductive Reason : Type :=
| ScheduledRetraining (days : Z)   (* "Scheduled retraining ({days} days since last training)" *)
| NoPreviousTraining               (* "No previous training record found" *)
| SufficientNewData (n : nat)      (* "Sufficient new data points ({n})" *)
| PerformanceDegraded (r2 : pyfloat) (* "Performance degraded (R² = {r2:.3f})" *)
| CriteriaError (e : Exn).         (* "Error in criteria check: {e}" *)

Inductive Msg : Type :=
| ErrCriteria (e : Exn)            (* error "Error checking retraining criteria: {e}" *)
| ErrEvaluate (e : Exn)            (* error "Error evaluating current model: {e}" *)
| DatabaseEmpty                    (* info "Database is empty, importing data from CSV..." *)
| DataImported (csv : string)      (* info "Data imported from {csv}" *)
| NoCsvToImport                    (* warning "No CSV data file found to import" *)
| ErrEnsure (e : Exn)              (* error "Error ensuring database has data: {e}" *)
| LoadingCsv (csv : string)        (* info "Loading training data from {csv}" *)
| LoadedCsv (n : nat) (csv : string) (* info "Loaded {n} samples from {csv}" *)
| CsvWithoutTarget (csv : string)  (* warning "{csv} doesn't contain failure_probability column" *)
| NoSuitableCsv                    (* error "No suitable CSV file found with failure_probability data" *)
| ErrLoadCsv (e : Exn)             (* error "Error loading training data from CSV: {e}" *)
| StartRetraining                  (* info "Starting model retraining..." *)
| ExportEmpty                      (* warning "Database export empty, trying CSV files..." *)
| NoTrainingData                   (* error "No training data available from any source" *)
| TrainingSamples (n : nat)        (* info "Training data: {n} samples" *)
| TargetMissing                    (* error "Target column 'failure_probability' not found" *)
| FeatureCount (n : nat)           (* info "Features: {n}" *)
| FeatureNames (names : list string) (* info "Feature names: {names[:10]}..." *)
| ModelPerformance (train test : pyfloat) (* info "Model performance - Train R²: .., Test R²: .." *)
| RetrainedSaved (file : string)   (* info "Retrained model saved: {file}" *)
| BackedUp (file : string)         (* info "Backed up current model: {file}" *)
| Promoted                         (* info "Retrained model promoted to production" *)
| KeptCurrent                      (* info "Retrained model performance not better than current, keeping current model" *)
| ErrRetraining (e : Exn)          (* error "Error during model retraining: {e}" *)
| ReportSaved (file : string)      (* info "Retraining report saved: {file}" *)
| Exported (file : string)         (* info "ML training data exported to {file}" *)
| RunningCheck                     (* info "Running automated retraining check..." *)
| RetrainingNeeded (b : bool)      (* info "Retraining needed: {b}" *)
| Reasons (rs : list Reason)       (* info "Reasons: {', '.join(reasons)}" *)
| StartingAutomated                (* info "Starting automated retraining..." *)
| AutomatedSucceeded               (* info "[SUCCESS] Automated retraining completed successfully" *)
| AutomatedFailed                  (* error "[FAILED] Automated retraining failed" *)
| NothingToDo.                     (* info "[SUCCESS] No retraining needed at this time" *)

#[global] Instance Reason_eq_dec : EqDecision Reason.
Proof. solve_decision. Defined.
#[global] Instance Msg_eq_dec : EqDecision Msg.
Proof. solve_decision. Defined.

(** *** Computations *)

Inductive Res (A : Type) : Type :=
| Ok (a : A)
| Raise (e : Exn).
Arguments Ok {A} a.
Arguments Raise {A} e.

#[global] Instance Res_eq_dec {A} `{EqDecision A} : EqDecision (Res A).
Proof. solve_decision. Defined.

(** The outcome of running a piece of the program: what it returned or
    raised, the world it left, the messages it logged (oldest first). What
    was done before an exception stays done. *)
Record Outcome (A : Type) : Type := mkOutcome {
  result : Res A;
  final : World;
  log : list Msg
}.
Arguments mkOutcome {A} result final log.
Arguments result {A} o.
Arguments final {A} o.
Arguments log {A} o.

Definition M (A : Type) : Type := World -> Outcome A.

Definition ret {A} (a : A) : M A := fun w => mkOutcome (Ok a) w [].

Definition raise {A} (e : Exn) : M A := fun w => mkOutcome (Raise e) w [].

(** [o], then the outcome [o'] of what ran from [final o]. *)
Definition and_then {A B} (o : Outcome A) (o' : Outcome B) : Outcome B :=
  mkOutcome (result o') (final o') (log o ++ log o').

Definition bind {A B} (m : M A) (k : A -> M B) : M B := fun w =>
  let o := m w in
  match result o with
  | Ok a => and_then o (k a (final o))
  | Raise e => mkOutcome (Raise e) (final o) (log o)
  end.

(** [try: m  except Exception as e: h e] *)
Definition try_except {A} (m : M A) (h : Exn -> M A) : M A := fun w =>
  let o := m w in
  match result o with
  | Ok a => o
  | Raise e => and_then o (h e (final o))
  end.

(** [try: x = m; k x  except Exception as e: h e], for a body whose handler
    reads what the body has assigned so far: [k] carries its own guards. *)
Definition try_bind {A B} (m : M A) (h : Exn -> M B) (k : A -> M B) : M B :=
  fun w =>
  let o := m w in
  match result o with
  | Ok a => and_then o (k a (final o))
  | Raise e => and_then o (h e (final o))
  end.

Notation "x <- m ;; k" := (bind m (fun x => k))
  (at level 100, m at next level, right associativity, only parsing).
Notation "m ;;; k" := (bind m (fun _ => k))
  (at level 100, right associativity, only parsing).

(** [logging.info], [logging.warning], [logging.error]: the root logger has
    the console handler [database_integration] installed when it was
    imported, so the later [basicConfig] of [auto_retrain] adds no file
    handler and a message changes no file. *)
Definition logging (msg : Msg) : M unit := fun w => mkOutcome (Ok tt) w [msg].

Definition tick (w : World) : World :=
  {| fs := fs w; db := db w; ticks := S (ticks w) |}.

Definition with_fs (f : gmap string File) (w : World) : World :=
  {| fs := f; db := db w; ticks := ticks w |}.

Definition with_db (d : Database) (w : World) : World :=
  {| fs := fs w; db := d; ticks := ticks w |}.

Definition get_fs : M (gmap string File) := fun w => mkOutcome (Ok (fs w)) w [].
Definition put_fs (f : gmap string File) : M unit :=
  fun w => mkOutcome (Ok tt) (with_fs f w) [].
Definition get_db : M Database := fun w => mkOutcome (Ok (db w)) w [].

Section Program.
Context (env : Env).

(** [datetime.now()] *)
Definition now : M datetime := fun w =>
  mkOutcome (Ok (clock env (ticks w))) (tick w) [].

(** An interaction with the outside that the environment may fail. *)
Definition attempt (s : Step) : M unit := fun w =>
  mkOutcome (if fails env s (ticks w) then Raise (IOFailure s) else Ok tt)
    (tick w) [].

(** [os.path.exists(path)] *)
Definition os_path_exists (path : string) : M bool :=
  f <- get_fs ;; ret (bool_decide (is_Some (f !! path))).

(** [os.rename(src, dst)]: an existing [dst] is replaced. *)
Definition os_rename (src dst : string) : M unit :=
  attempt (Rename src dst) ;;;
  f <- get_fs ;;
  match f !! src with
  | Some content => put_fs (<[dst := content]> (delete src f))
  | None => raise (FileNotFound src)
  end.

(** [os.remove(path)] *)
Definition os_remove (path : string) : M unit :=
  attempt (Remove path) ;;;
  f <- get_fs ;;
  match f !! path with
  | Some _ => put_fs (delete path f)
  | None => raise (FileNotFound path)
  end.

(** [with open(path, 'w') as f: dump(content, f)], also [df.to_csv(path)]:
    opening creates or truncates the file, the dump fills it. *)
Definition write_file (path : string) (content : File) : M unit :=
  attempt (OpenWrite path) ;;;
  f <- get_fs ;;
  put_fs (<[path := Unreadable ""]> f) ;;;
  attempt (Dump path) ;;;
  f <- get_fs ;;
  put_fs (<[path := content]> f).

(** [with open(path) as f: ...]: the content of an existing file. *)
Definition read_file (path : string) : M File :=
  attempt (OpenRead path) ;;;
  f <- get_fs ;;
  match f !! path with
  | Some content => ret content
  | None => raise (FileNotFound path)
  end.

(** [pickle.load] of a model file, followed by the subscripts
    [['model_info']['model_object']] and [['model_info']['features']]. *)
Definition pickle_load (path : string) : M ModelSystem :=
  content <- read_file path ;;
  match content with
  | Pickled model_system => ret model_system
  | _ => raise (BadContent path)
  end.

(** [datetime.fromisoformat(json.load(f)['last_training_date'])] *)
Definition json_load_log (path : string) : M TrainingLogEntry :=
  content <- read_file path ;;
  match content with
  | TrainingLogJson entry => ret entry
  | _ => raise (BadContent path)
  end.

(** [pd.read_csv(path)] *)
Definition read_csv (path : string) : M DataFrame :=
  content <- read_file path ;;
  match content with
  | Csv df => ret df
  | _ => raise (BadContent path)
  end.

(** *** database_integration.py *)

(** [EquipmentDatabase.get_equipment_data()] *)
Definition get_equipment_data : M DataFrame :=
  attempt (Sql GetEquipmentData) ;;;
  d <- get_db ;;
  ret (equipment_data d).

(** [EquipmentDatabase.export_data_for_ml(output_file)] *)
Definition export_data_for_ml (output_file : string) : M DataFrame :=
  attempt (Sql ExportForML) ;;;
  d <- get_db ;;
  let df := ml_export d in
  write_file output_file (Csv df) ;;;
  logging (Exported output_file) ;;;
  ret df.

(** [EquipmentDatabase.import_csv_data(csv_file)]: reads the file and
    replaces tables of the database; whatever goes wrong is caught inside.
    Which rows end up in the tables is left to the environment. *)
Definition import_csv_data (csv_file : string) : M unit := fun w =>
  mkOutcome (Ok tt)
    (tick (with_db (csv_import env (fs w !! csv_file) (clock env (ticks w)) (db w)) w))
    [].


(* ===================================================================== *)
(** ** auto_retrain.py: class AutoModelRetrainer *)
(* ===================================================================== *)

(** [__init__] *)
Definition performance_threshold : pyfloat := of_Q (80 # 100).
Definition min_new_data_points : nat := 100.
Definition retraining_schedule_days : Z := 7.

Definition target_col : string := "failure_probability".
Definition clean_target_col : string := "failure_probability_clean".

(** The dictionary [criteria] of [check_retraining_criteria]. *)
Record Criteria : Type := mkCriteria {
  needs_retraining : bool;
  reasons : list Reason;
  new_data_points : nat;
  days_since_last_training : Z;
  current_performance : option pyfloat
}.

#[global] Instance Criteria_eq_dec : EqDecision Criteria.
Proof. solve_decision. Defined.

(** [criteria['needs_retraining'] = True; criteria['reasons'].append(r)] *)
Definition flag (r : Reason) (c : Criteria) : Criteria :=
  {| needs_retraining := true;
     reasons := reasons c ++ [r];
     new_data_points := new_data_points c;
     days_since_last_training := days_since_last_training c;
     current_performance := current_performance c |}.

Definition set_days_since_last_training (d : Z) (c : Criteria) : Criteria :=
  {| needs_retraining := needs_retraining c;
     reasons := reasons c;
     new_data_points := new_data_points c;
     days_since_last_training := d;
     current_performance := current_performance c |}.

Definition set_new_data_points (n : nat) (c : Criteria) : Criteria :=
  {| needs_retraining := needs_retraining c;
     reasons := reasons c;
     new_data_points := n;
     days_since_last_training := days_since_last_training c;
     current_performance := current_performance c |}.

Definition set_current_performance (p : option pyfloat) (c : Criteria)
  : Criteria :=
  {| needs_retraining := needs_retraining c;
     reasons := reasons c;
     new_data_points := new_data_points c;
     days_since_last_training := days_since_last_training c;
     current_performance := p |}.

(** [_get_last_training_date] (lines 84-94) *)
Definition _get_last_training_date : M (option datetime) :=
  try_except
    (present <- os_path_exists TRAINING_LOG ;;
     if present then
       entry <- json_load_log TRAINING_LOG ;;
       ret (Some (last_training_date entry))
     else ret None)
    (fun _ => ret None).

(** [_count_new_data_points] (lines 96-114) *)
Definition _count_new_data_points (since_date : option datetime) : M nat :=
  match since_date with
  | None =>
      equipment_data <- get_equipment_data ;;
      ret (nrows equipment_data)
  | Some since =>
      try_except
        (attempt (Sql CountNewReadings) ;;;
         d <- get_db ;;
         ret (length (filter (fun t => since < t) (reading_timestamps d))))
        (fun _ => ret 0%nat)
  end.

(** [_evaluate_current_model] (lines 116-155) *)
Definition _evaluate_current_model : M (option pyfloat) :=
  try_except
    (present <- os_path_exists PRODUCTION_MODEL ;;
     if negb present then ret None else
     model_system <- pickle_load PRODUCTION_MODEL ;;
     let model := model_object (model_info model_system) in
     let features := features (model_info model_system) in
     ml_data <- export_data_for_ml TEMP_EVAL_DATA ;;
     if df_empty ml_data || negb (has_column target_col ml_data) then ret None else
     let ml_data :=
       fold_left
         (fun df feature =>
            if has_column feature df then df else assign_column feature true df)
         features ml_data in
     r2 <- match predict_r2 env model features ml_data with
           | Some r2 => ret r2
           | None => raise SklearnError
           end ;;
     leftover <- os_path_exists TEMP_EVAL_DATA ;;
     (if leftover then os_remove TEMP_EVAL_DATA else ret tt) ;;;
     ret (Some r2))
    (fun e => logging (ErrEvaluate e) ;;; ret None).

(** The [except] clause of [check_retraining_criteria] (lines 78-82), on
    the dictionary as the [try] block has left it. *)
Definition criteria_check_failed (criteria : Criteria) (e : Exn) : M Criteria :=
  logging (ErrCriteria e) ;;;
  ret (flag (CriteriaError e) criteria).

(** [check_retraining_criteria] (lines 34-82). Each call of the [try] block
    is guarded by the [except] clause, which sees the assignments made
    before the call. *)
Definition check_retraining_criteria : M Criteria :=
  let criteria := mkCriteria false [] 0 0 None in
  try_bind _get_last_training_date (criteria_check_failed criteria)
    (fun last_training_date =>
  try_bind
    (match last_training_date with
     | Some last =>
         t <- now ;;
         let days_since := days_between t last in
         let criteria := set_days_since_last_training days_since criteria in
         ret (if retraining_schedule_days <=? days_since
              then flag (ScheduledRetraining days_since) criteria
              else criteria)
     | None => ret (flag NoPreviousTraining criteria)
     end)
    (criteria_check_failed criteria)
    (fun criteria =>
  try_bind (_count_new_data_points last_training_date)
    (criteria_check_failed criteria)
    (fun new_data_count =>
  let criteria := set_new_data_points new_data_count criteria in
  let criteria :=
    if (min_new_data_points <=? new_data_count)%nat
    then flag (SufficientNewData new_data_count) criteria
    else criteria in
  try_bind _evaluate_current_model (criteria_check_failed criteria)
    (fun current_performance =>
  let criteria := set_current_performance current_performance criteria in
  ret (match current_performance with
       | Some r2 =>
           if truthy r2 && flt r2 performance_threshold
           then flag (PerformanceDegraded r2) criteria
           else criteria
       | None => criteria
       end))))).

(** [_ensure_database_has_data] (lines 157-176) *)
Definition _ensure_database_has_data : M unit :=
  try_except
    (equipment_data <- get_equipment_data ;;
     if (nrows equipment_data =? 0)%nat then
       logging DatabaseEmpty ;;;
       main_present <- os_path_exists KNUST_DATASET ;;
       if main_present then
         import_csv_data KNUST_DATASET ;;;
         logging (DataImported KNUST_DATASET)
       else
         cleaned_present <- os_path_exists CLEANED_DATA ;;
         if cleaned_present then
           import_csv_data CLEANED_DATA ;;;
           logging (DataImported CLEANED_DATA)
         else logging NoCsvToImport
     else ret tt)
    (fun e => logging (ErrEnsure e)).

(** The [for] loop of [_load_training_data_from_csv] (lines 188-205). *)
Fixpoint load_first_suitable (csv_files : list string) : M DataFrame :=
  match csv_files with
  | [] => logging NoSuitableCsv ;;; ret empty_frame
  | csv_file :: rest =>
      present <- os_path_exists csv_file ;;
      if present then
        logging (LoadingCsv csv_file) ;;;
        df <- read_csv csv_file ;;
        if has_column target_col df || has_column clean_target_col df then
          let df :=
            if has_column clean_target_col df && negb (has_column target_col df)
            then assign_column target_col (column_is_numeric clean_target_col df) df
            else df in
          logging (LoadedCsv (nrows df) csv_file) ;;;
          ret df
        else
          logging (CsvWithoutTarget csv_file) ;;;
          load_first_suitable rest
      else load_first_suitable rest
  end.

(** [_load_training_data_from_csv] (lines 178-209) *)
Definition _load_training_data_from_csv : M DataFrame :=
  try_except
    (load_first_suitable [KNUST_DATASET; CLEANED_DATA; CLEAN_DATA])
    (fun e => logging (ErrLoadCsv e) ;;; ret empty_frame).

(** [_update_training_log] (lines 327-337) *)
Definition _update_training_log (performance : pyfloat) (sample_count : nat)
  : M unit :=
  t <- now ;;
  let log_entry := mkLogEntry t performance sample_count "automated_retraining" in
  write_file TRAINING_LOG (TrainingLogJson log_entry).

(** [_generate_retraining_report] (lines 339-356) *)
Definition _generate_retraining_report (model_system : ModelSystem)
    (sample_count : nat) (performance : pyfloat) : M unit :=
  t <- now ;;
  let report :=
    {| retraining_timestamp := t;
       report_model_performance :=
         {| report_r2_score := performance;
            report_sample_count := sample_count;
            report_feature_count := length (features (model_info model_system)) |};
       report_training_info := training_info model_system;
       status := "completed_successfully" |} in
  t' <- now ;;
  let report_filename := report_filename t' in
  write_file report_filename (ReportJson report) ;;;
  logging (ReportSaved report_filename).

(** What lines 214-294 of [retrain_model] hand to the rest of the method. *)
Record Candidate : Type := mkCandidate {
  model_system : ModelSystem;
  retrained_file : string;
  test_r2 : pyfloat;
  training_rows : nat
}.

(** [retrain_model], lines 214-294: resolve the training data, fit, save the
    candidate under its own name. [None] is one of the two [return False]
    of lines 229 and 237. *)
Definition train_candidate : M (option Candidate) :=
  logging StartRetraining ;;;
  _ensure_database_has_data ;;;
  training_data <- export_data_for_ml RETRAINING_DATA ;;
  training_data <-
    (if df_empty training_data then
       logging ExportEmpty ;;;
       _load_training_data_from_csv
     else ret training_data) ;;
  if df_empty training_data then
    logging NoTrainingData ;;;
    ret None
  else
  logging (TrainingSamples (nrows training_data)) ;;;
  if negb (has_column target_col training_data) then
    logging TargetMissing ;;;
    ret None
  else
  let numeric_cols := numeric_columns training_data in
  let feature_cols := filter (fun col => col <> target_col) numeric_cols in
  logging (FeatureCount (length feature_cols)) ;;;
  logging (FeatureNames (take 10 feature_cols)) ;;;
  fitted <- match fit env feature_cols training_data with
            | Some fitted => ret fitted
            | None => raise SklearnError
            end ;;
  logging (ModelPerformance (fit_train_r2 fitted) (fit_test_r2 fitted)) ;;;
  t <- now ;;
  let model_system :=
    {| model_info :=
         {| model_name := "Random Forest (Retrained)";
            model_object := fit_model fitted;
            features := feature_cols;
            optimal_threshold := of_Q (5 # 10);
            performance_metrics :=
              {| r2_score := fit_test_r2 fitted;
                 mse := fit_test_mse fitted;
                 train_r2 := fit_train_r2 fitted;
                 roi := of_Q 250 |} |};
       training_info :=
         {| training_date := t;
            training_samples := fit_train_samples fitted;
            test_samples := fit_test_samples fitted;
            feature_count := length feature_cols;
            retraining_version := "auto_v1.0" |} |} in
  t' <- now ;;
  let retrained_filename := retrained_filename t' in
  write_file retrained_filename (Pickled model_system) ;;;
  logging (RetrainedSaved retrained_filename) ;;;
  ret (Some (mkCandidate model_system retrained_filename (fit_test_r2 fitted)
               (nrows training_data))).

(** [retrain_model], lines 296-309: "Update main model if performance is
    better". *)
Definition promote_if_better (retrained_filename : string) (test_r2 : pyfloat)
  : M unit :=
  current_performance <- _evaluate_current_model ;;
  if match current_performance with
     | None => true
     | Some current => fgt test_r2 current
     end
  then
    present <- os_path_exists PRODUCTION_MODEL ;;
    (if present then
       t <- now ;;
       let backup_name := backup_name t in
       os_rename PRODUCTION_MODEL backup_name ;;;
       logging (BackedUp backup_name)
     else ret tt) ;;;
    os_rename retrained_filename PRODUCTION_MODEL ;;;
    logging Promoted
  else logging KeptCurrent.

(** [retrain_model], lines 311-321: training log, report, clean-up. *)
Definition record_cycle (c : Candidate) : M unit :=
  _update_training_log (test_r2 c) (training_rows c) ;;;
  _generate_retraining_report (model_system c) (training_rows c) (test_r2 c) ;;;
  present <- os_path_exists RETRAINING_DATA ;;
  if present then os_remove RETRAINING_DATA else ret tt.

(** [retrain_model] (lines 211-325) *)
Definition retrain_model : M bool :=
  try_except
    (candidate <- train_candidate ;;
     match candidate with
     | None => ret false
     | Some c =>
         promote_if_better (retrained_file c) (test_r2 c) ;;;
         record_cycle c ;;;
         ret true
     end)
    (fun e => logging (ErrRetraining e) ;;; ret false).

(** [run_automated_check] (lines 358-380) *)
Definition run_automated_check : M bool :=
  logging RunningCheck ;;;
  criteria <- check_retraining_criteria ;;
  logging (RetrainingNeeded (needs_retraining criteria)) ;;;
  (match reasons criteria with
   | [] => ret tt
   | rs => logging (Reasons rs)
   end) ;;;
  if needs_retraining criteria then
    logging StartingAutomated ;;;
    success <- retrain_model ;;
    (if success then logging AutomatedSucceeded else logging AutomatedFailed) ;;;
    ret success
  else
    logging NothingToDo ;;;
    ret true.

End Program.

(** *** Reading a run *)

(** Every path outside [P] holds in [w'] what it held in [w]. *)
Definition unchanged_outside (P : string -> Prop) (w w' : World) : Prop :=
  forall p, ~ P p -> fs w' !! p = fs w !! p.

(** Whatever the world it starts in, [m] creates, changes and deletes files
    only at paths of [P], and logs only messages of [Q]. *)
Definition confined {A} (P : string -> Prop) (Q : Msg -> Prop) (m : M A)
  : Prop :=
  forall w, unchanged_outside P w (final (m w)) /\ Forall Q (log (m w)).

(** [m] returns: no exception leaves it. *)
Definition never_raises {A} (m : M A) : Prop :=
  forall w, exists a, result (m w) = Ok a.

(** The working files of a retraining run: the two exports, the training
    log, the candidate and the report. The production model and the backups
    are not among them. *)
Definition working_file (p : string) : Prop :=
  p = RETRAINING_DATA \/ p = TEMP_EVAL_DATA \/ p = TRAINING_LOG
  \/ (exists t, p = retrained_filename t) \/ (exists t, p = report_filename t).

(** The messages that tell how a retraining run went: the three of the
    promotion, the three that go with a [False] result, the report. *)
Definition verdict (msg : Msg) : Prop :=
  match msg with
  | BackedUp _ | Promoted | KeptCurrent
  | NoTrainingData | TargetMissing | ErrRetraining _
  | ReportSaved _ => True
  | _ => False
  end.

(** Running [m] from [w] ends with a result, a world and a log in [Φ]. *)
Definition ends {A} (m : M A) (w : World)
    (Φ : Res A -> World -> list Msg -> Prop) : Prop :=
  Φ (result (m w)) (final (m w)) (log (m w)).

(** The files lines 214-294 write: the export and the candidate. *)
Definition candidate_file (p : string) : Prop :=
  p = RETRAINING_DATA \/ exists t, p = retrained_filename t.

(** The files lines 311-321 write or remove: the training log, the report,
    the export. *)
Definition record_file (p : string) : Prop :=
  p = TRAINING_LOG \/ (exists t, p = report_filename t) \/ p = RETRAINING_DATA.

(** Of the verdicts, lines 214-294 log only their two [return False]
    messages, the promotion only its own three, and the end of the run only
    the report. *)
Definition candidate_only (msg : Msg) : Prop :=
  match msg with
  | BackedUp _ | Promoted | KeptCurrent | ErrRetraining _ | ReportSaved _ => False
  | _ => True
  end.

Definition promotion_only (msg : Msg) : Prop :=
  match msg with
  | NoTrainingData | TargetMissing | ErrRetraining _ | ReportSaved _ => False
  | _ => True
  end.

Definition report_only (msg : Msg) : Prop :=
  match msg with
  | BackedUp _ | Promoted | KeptCurrent
  | NoTrainingData | TargetMissing | ErrRetraining _ => False
  | _ => True
  end.

(** A log with no [verdict] in it. *)
Definition quiet (l : list Msg) : Prop := Forall (fun msg => ~ verdict msg) l.

(** What the log of lines 214-294 says about their result: one of the two
    [return False] messages when they return early, no [verdict] at all
    otherwise; a candidate is saved under a [retrained_model_] name. *)
Definition candidate_outcome (o : Outcome (option Candidate)) : Prop :=
  match result o with
  | Ok None => NoTrainingData ∈ log o \/ TargetMissing ∈ log o
  | Ok (Some c) => quiet (log o) /\ exists t, retrained_file c = retrained_filename t
  | Raise _ => quiet (log o)
  end.

End Retrain.

(* ===================================================================== *)
(** ** Risk levels: database_integration.py and equipment_monitor.py *)
(* ===================================================================== *)

Module Risk.
Import Retrain.

(** [f"{idx:03d}"] for an index that is not negative: at least three
    digits. *)
Definition format_03d (idx : nat) : string :=
  if (idx <? 1000)%nat then zero_padded 3 (Z.of_nat idx) else pretty idx.

(** [import_csv_data], lines 179-181: the lambda that fills the column
    [risk_level] from [failure_probability]. *)
Definition risk_level (x : pyfloat) : string :=
  if fge x (of_Q (7 # 10)) then "Critical"
  else if fge x (of_Q (5 # 10)) then "High"
  else if fge x (of_Q (3 # 10)) then "Medium"
  else "Low".

(** [EquipmentMonitor.__init__], lines 27-31: [self.alert_thresholds]. *)
Definition alert_thresholds : PyDict.dict pyfloat :=
  [("critical", of_Q (7 # 10)); ("high", of_Q (5 # 10));
   ("medium", of_Q (3 # 10))].

(** [self.alert_thresholds[level]]; the three keys are there. *)
Definition threshold (level : string) : pyfloat :=
  default NaN (PyDict.get level alert_thresholds).

(** [check_alerts], lines 106-112: the level of the alert a failure
    probability calls for, [None] when it calls for none. *)
Definition alert_level_for (failure_prob : pyfloat) : option string :=
  if fge failure_prob (threshold "critical") then Some "critical"
  else if fge failure_prob (threshold "high") then Some "high"
  else if fge failure_prob (threshold "medium") then Some "medium"
  else None.

(** [_get_recommended_action] *)
Definition _get_recommended_action (alert_level : string)
    (failure_prob : pyfloat) : string :=
  if decide (alert_level = "critical") then
    "IMMEDIATE MAINTENANCE REQUIRED - Stop operation and schedule emergency repair"
  else if decide (alert_level = "high") then
    "Schedule maintenance within 7 days - Monitor closely"
  else if decide (alert_level = "medium") then
    "Schedule preventive maintenance within 30 days"
  else "Continue normal operation".

(** A row of the equipment table, as far as [check_alerts] reads it: the
    failure probability, and the text of the cells [equipment_type] and
    [room_id] where the table has these columns. *)
Record Row : Type := mkRow {
  row_failure_probability : pyfloat;
  row_equipment_type : option string;
  row_room_id : option string
}.

(** The dictionary [alert] of [check_alerts]. *)
Record Alert : Type := mkAlert {
  alert_timestamp : datetime;
  alert_equipment_id : string;
  alert_equipment_type : string;
  alert_failure_probability : pyfloat;
  alert_level : string;
  alert_location : string;
  alert_recommended_action : string
}.

Section Monitor.
Context (env : Env).

(** The loop of [check_alerts] from the row of index [idx] on. *)
Fixpoint check_alerts_from (idx : nat) (rows : list Row) : M (list Alert) :=
  match rows with
  | [] => ret []
  | row :: rest =>
      let equipment_id := "EQ-" +:+ format_03d idx in
      let failure_prob := row_failure_probability row in
      match alert_level_for failure_prob with
      | Some level =>
          t <- now env ;;
          let alert :=
            {| alert_timestamp := t;
               alert_equipment_id := equipment_id;
               alert_equipment_type := default "Unknown" (row_equipment_type row);
               alert_failure_probability := failure_prob;
               alert_level := level;
               alert_location := "Room-" +:+ default "Unknown" (row_room_id row);
               alert_recommended_action :=
                 _get_recommended_action level failure_prob |} in
          alerts <- check_alerts_from (S idx) rest ;;
          ret (alert :: alerts)
      | None => check_alerts_from (S idx) rest
      end
  end.

(** [check_alerts] (lines 98-126), on a table with the default index. *)
Definition check_alerts (equipment_data : list Row) : M (list Alert) :=
  check_alerts_from 0 equipment_data.

End Monitor.

(** The entry [equipment_by_risk] of [generate_monitoring_report] (lines
    233-238), from the column [failure_probability]. *)
Record RiskCounts : Type := mkRiskCounts {
  critical : nat;
  high : nat;
  medium : nat;
  low : nat
}.

Definition count_where (test : pyfloat -> bool) (column : list pyfloat) : nat :=
  length (filter (fun x => test x = true) column).

Definition equipment_by_risk (failure_probability : list pyfloat) : RiskCounts :=
  {| critical := count_where (fun x => fge x (of_Q (7 # 10))) failure_probability;
     high := count_where (fun x => fge x (of_Q (5 # 10))) failure_probability;
     medium := count_where (fun x => fge x (of_Q (3 # 10))) failure_probability;
     low := count_where (fun x => flt x (of_Q (3 # 10))) failure_probability |}.

(** [import_csv_data], line 139: the column [equipment_id] generated for a
    table of [n] rows that has none. *)
Definition generated_equipment_ids (n : nat) : list string :=
  map (fun i => "EQ-" +:+ format_03d i) (seq 0 n).

(** The identifier [check_alerts] gives the row of index [idx]. *)
Definition equipment_id_of (idx : nat) : string := "EQ-" +:+ format_03d idx.

(** What [check_alerts] reports of a row, if it reports it: the identifier,
    the probability and the level. *)
Definition at_risk (indexed : nat * Row) : option (string * pyfloat * string) :=
  let '(idx, row) := indexed in
  level ← alert_level_for (row_failure_probability row);
  Some ("EQ-" +:+ format_03d idx, row_failure_probability row, level).

(** Four rows: one critical, one with no reading, one healthy, one medium. *)
Definition four_rows : list Row :=
  [mkRow (of_Q (82 # 100)) (Some "Projector") (Some "LH-101");
   mkRow NaN (Some "Air Conditioner") None;
   mkRow (of_Q (12 # 100)) None (Some "LH-102");
   mkRow (of_Q (3 # 10)) (Some "Podium") (Some "LH-103")].

End Risk.

(* ===================================================================== *)
(** ** Scenarios *)
(* ===================================================================== *)

(** Concrete worlds and environments, after the test cases the design
    document lists, on which the properties below are exercised. *)
Module Scenarios.
Import Retrain.

(** The export of the database: identifiers, two sensor columns, the
    target. *)
Definition sensor_table (rows : nat) : DataFrame :=
  mkDataFrame
    [mkColumn "equipment_id" false; mkColumn "equipment_type" false;
     mkColumn "age_months" true; mkColumn "operating_temperature" true;
     mkColumn "failure_probability" true]
    rows.

Definition database (rows : nat) : Database :=
  mkDatabase (sensor_table rows) [] (sensor_table rows).

(** The model in production. *)
Definition in_service : ModelSystem :=
  {| model_info :=
       {| model_name := "Random Forest";
          model_object := 0%nat;
          features := ["age_months"; "operating_temperature"];
          optimal_threshold := of_Q (5 # 10);
          performance_metrics :=
            mkMetrics (of_Q (85 # 100)) (of_Q (1 # 100)) (of_Q (95 # 100))
              (of_Q 250) |};
     training_info := mkTrainingInfo 1699000000 96 24 2 "v1" |}.

(** 2023-11-14 22:13:20, and one second per interaction with the outside. *)
Definition wall_clock (n : nat) : datetime := 1700000000 + Z.of_nat n.

Definition three_days_before : datetime := 1700000000 - 3 * 86400.

(** An environment in which a freshly fitted candidate scores
    [candidate_r2] on its held-out rows, the production model scores
    [production_r2] on the current export ([None]: scoring raises), and
    the steps of [faulty] fail. *)
Definition environment (candidate_r2 : pyfloat)
    (production_r2 : option pyfloat) (faulty : Step -> bool) : Env :=
  {| clock := wall_clock;
     fails := fun s _ => faulty s;
     fit := fun _ df =>
       Some (mkFitted 1%nat (of_Q (95 # 100)) candidate_r2 (of_Q (1 # 100))
               (nrows df - nrows df / 5) (nrows df / 5));
     predict_r2 := fun _ _ _ => production_r2;
     csv_import := fun _ _ d => d |}.

Definition no_fault (s : Step) : bool := false.

(** Every rename onto the production path fails. *)
Definition final_rename_fails (s : Step) : bool :=
  match s with
  | Rename _ dst => bool_decide (dst = PRODUCTION_MODEL)
  | _ => false
  end.

(** The query that counts the new readings fails. *)
Definition count_fails (s : Step) : bool :=
  bool_decide (s = Sql CountNewReadings).

(** The training log cannot be opened. *)
Definition log_unreadable (s : Step) : bool :=
  bool_decide (s = OpenRead TRAINING_LOG).

(** A production model in service, 120 rows in the database. *)
Definition serving : World :=
  {| fs := {[ PRODUCTION_MODEL := Pickled in_service ]};
     db := database 120;
     ticks := 0 |}.

(** The same, trained three days ago. *)
Definition recent_log : File :=
  TrainingLogJson (mkLogEntry three_days_before (of_Q (85 # 100)) 120
                     "automated_retraining").

Definition trained_recently : World :=
  {| fs := {[ PRODUCTION_MODEL := Pickled in_service;
              TRAINING_LOG := recent_log ]};
     db := database 120;
     ticks := 0 |}.

(** Trained three days ago, but the production model is gone. *)
Definition model_missing : World :=
  {| fs := {[ TRAINING_LOG := recent_log ]};
     db := database 120;
     ticks := 0 |}.

(** Trained three days ago, and an evaluation export left behind. *)
Definition stale_export : World :=
  {| fs := {[ PRODUCTION_MODEL := Pickled in_service;
              TRAINING_LOG := recent_log;
              TEMP_EVAL_DATA := Csv (sensor_table 7) ]};
     db := database 120;
     ticks := 0 |}.

(** No provider has data: an empty database and no CSV file. *)
Definition no_data : World :=
  {| fs := {[ PRODUCTION_MODEL := Pickled in_service ]};
     db := database 0;
     ticks := 0 |}.

(** A candidate saved next to the model in service. *)
Definition candidate : ModelSystem :=
  {| model_info :=
       {| model_name := "Random Forest";
          model_object := 1%nat;
          features := ["age_months"; "operating_temperature"];
          optimal_threshold := of_Q (5 # 10);
          performance_metrics :=
            mkMetrics (of_Q (82 # 100)) (of_Q (1 # 100)) (of_Q (95 # 100))
              (of_Q 250) |};
     training_info := mkTrainingInfo 1700000000 96 24 2 "v2" |}.


(** The production model scores 0.78 on the current data in all four runs.
    The candidate scores 0.82 and is promoted; it scores 0.70 and is
    rejected; it scores 0.82 and the rename that would promote it fails;
    there is nothing to train on. *)
Definition production_at_78 (faulty : Step -> bool) (candidate_r2 : Q) : Env :=
  environment (of_Q candidate_r2) (Some (of_Q (78 # 100))) faulty.

Definition promoted_run : Outcome bool :=
  retrain_model (production_at_78 no_fault (82 # 100)) serving.

Definition rejected_run : Outcome bool :=
  retrain_model (production_at_78 no_fault (70 # 100)) serving.

Definition interrupted_run : Outcome bool :=
  retrain_model (production_at_78 final_rename_fails (82 # 100)) serving.

Definition no_data_run : Outcome bool :=
  retrain_model (production_at_78 no_fault (82 # 100)) no_data.

(** The production model scores [r2] ([None]: scoring raises) when the
    criteria are checked. *)
Definition scoring (r2 : option Q) (faulty : Step -> bool) : Env :=
  environment (of_Q (82 # 100)) (of_Q <$> r2) faulty.

(** The [status] of the report stored in a file, if it is one. *)
Definition report_status (f : option File) : option string :=
  match f with
  | Some (ReportJson report) => Some (status report)
  | _ => None
  end.

End Scenarios.

(* ===================================================================== *)
(** ** Binary64 arithmetic: what rounding does to a sum and a quotient *)
(* ===================================================================== *)

(** The operations on [float] are specified by the functions of
    [SpecFloat] on sign, mantissa and exponent.  This module follows a
    sum and a quotient of non-negative doubles through them: the result is
    within one unit in the last place of the exact value. *)
Module Binary64Facts.
Import Double.

Lemma fexp_fexp64 (e : Z) : SpecFloat.fexp prec emax e = fexp64 e.
Proof. reflexivity. Qed.

(** The number of binary digits of a mantissa. *)
Lemma digits2_pos_bounds (p : positive) :
  2 ^ (Zpos (digits2_pos p) - 1) <= Zpos p < 2 ^ Zpos (digits2_pos p).
Proof.
  induction p as [p IH|p IH|]; cbn [digits2_pos]; rewrite ?Pos2Z.inj_succ.
  - replace (Z.succ (Z.pos (digits2_pos p)) - 1)
      with (Z.succ (Z.pos (digits2_pos p) - 1)) by lia.
    rewrite !Z.pow_succ_r by lia. lia.
  - replace (Z.succ (Z.pos (digits2_pos p)) - 1)
      with (Z.succ (Z.pos (digits2_pos p) - 1)) by lia.
    rewrite !Z.pow_succ_r by lia. lia.
  - simpl. lia.
Qed.

Lemma Zdigits2_bounds (m : Z) :
  0 < m -> 2 ^ (Zdigits2 m - 1) <= m < 2 ^ Zdigits2 m.
Proof. destruct m as [|p|p]; try lia. intros _. apply digits2_pos_bounds. Qed.

Lemma Zdigits2_pos (m : Z) : 0 < m -> 0 < Zdigits2 m.
Proof. destruct m; simpl; lia. Qed.

Lemma Zdigits2_le (m : Z) (d : Z) : 0 <= m -> 0 <= d -> m < 2 ^ d -> Zdigits2 m <= d.
Proof.
  intros Hm Hd Hlt. destruct (Z.eq_dec m 0) as [->|Hne]; [simpl; lia|].
  destruct (Zdigits2_bounds m) as [Hlo _]; [lia|].
  destruct (Z.le_gt_cases (Zdigits2 m) d) as [|Hgt]; [done|].
  assert (2 ^ d <= 2 ^ (Zdigits2 m - 1)) by (apply Z.pow_le_mono_r; lia). lia.
Qed.

Lemma Zdigits2_shift (m j : Z) :
  0 < m -> 0 <= j -> Zdigits2 (m * 2 ^ j) = Zdigits2 m + j.
Proof.
  intros Hm Hj.
  assert (Hp : 0 < 2 ^ j) by (apply Z.pow_pos_nonneg; lia).
  destruct (Zdigits2_bounds m Hm) as [Hlo Hhi].
  assert (Hd := Zdigits2_pos m Hm).
  assert (Hmj : 0 < m * 2 ^ j) by lia.
  destruct (Zdigits2_bounds _ Hmj) as [Hlo' Hhi'].
  assert (Hd' := Zdigits2_pos _ Hmj).
  apply Z.le_antisymm.
  - apply Zdigits2_le; [lia|lia|]. rewrite Z.pow_add_r by lia. nia.
  - destruct (Z.le_gt_cases (Zdigits2 m + j) (Zdigits2 (m * 2 ^ j))) as [|Hgt]; [done|].
    assert (2 ^ Zdigits2 (m * 2 ^ j) <= 2 ^ (Zdigits2 m - 1 + j))
      by (apply Z.pow_le_mono_r; lia).
    rewrite Z.pow_add_r in H by lia. nia.
Qed.

(** Shifting right. *)
Lemma shr_1_m (mrs : shr_record) :
  0 <= shr_m mrs -> shr_m (shr_1 mrs) = shr_m mrs / 2.
Proof.
  destruct mrs as [m r s]. cbn [shr_m]. intros Hm.
  destruct m as [|[p|p|]|p]; cbn [shr_1 shr_m]; try lia; try reflexivity.
  - apply (Z.div_unique _ 2 _ 1); lia.
  - apply (Z.div_unique _ 2 _ 0); lia.
Qed.

Lemma iter_shr_1_m (p : positive) (mrs : shr_record) :
  0 <= shr_m mrs ->
  shr_m (SpecFloat.iter_pos shr_1 p mrs) = shr_m mrs / 2 ^ Zpos p.
Proof.
  revert mrs. induction p as [p IH|p IH|]; intros mrs Hm; cbn [SpecFloat.iter_pos].
  - assert (H1 : 0 <= shr_m (shr_1 mrs)) by (rewrite shr_1_m by done; apply Z.div_pos; lia).
    assert (H2 : 0 <= shr_m (SpecFloat.iter_pos shr_1 p (shr_1 mrs)))
      by (rewrite IH by done; apply Z.div_pos; [lia|apply Z.pow_pos_nonneg; lia]).
    rewrite IH, IH, shr_1_m by done.
    rewrite !Z.div_div by (try apply Z.pow_pos_nonneg; lia).
    f_equal. rewrite (Pos2Z.inj_xI p).
    replace (2 * Z.pos p + 1) with (1 + Z.pos p + Z.pos p) by lia.
    rewrite !Z.pow_add_r by lia. lia.
  - assert (H2 : 0 <= shr_m (SpecFloat.iter_pos shr_1 p mrs))
      by (rewrite IH by done; apply Z.div_pos; [lia|apply Z.pow_pos_nonneg; lia]).
    rewrite IH, IH by done.
    rewrite !Z.div_div by (try apply Z.pow_pos_nonneg; lia).
    f_equal. rewrite (Pos2Z.inj_xO p).
    replace (2 * Z.pos p) with (Z.pos p + Z.pos p) by lia.
    rewrite !Z.pow_add_r by lia. lia.
  - rewrite shr_1_m by done. reflexivity.
Qed.

Lemma shr_record_of_loc_m (m : Z) (l : location) : shr_m (shr_record_of_loc m l) = m.
Proof. destruct l as [|[]]; reflexivity. Qed.

Lemma shr_m_shift (mrs : shr_record) (e n : Z) :
  0 <= shr_m mrs ->
  shr_m (fst (shr mrs e n)) = shr_m mrs / 2 ^ Z.max 0 n
  /\ snd (shr mrs e n) = e + Z.max 0 n.
Proof.
  intros Hm. destruct n as [|p|p]; cbn [shr fst snd].
  - rewrite Z.max_id. simpl. rewrite Z.div_1_r. lia.
  - rewrite Z.max_r by lia. split; [by apply iter_shr_1_m|done].
  - rewrite Z.max_l by lia. simpl. rewrite Z.div_1_r. lia.
Qed.

Lemma round_nearest_even_cases (m : Z) (l : location) :
  round_nearest_even m l = m \/ round_nearest_even m l = m + 1.
Proof. destruct l as [|[]]; simpl; auto. destruct (Z.even m); auto. Qed.

Lemma shr_nonpos (mrs : shr_record) (e n : Z) : n <= 0 -> shr mrs e n = (mrs, e).
Proof. destruct n; [done|lia|done]. Qed.

Lemma fexp64_ge (e : Z) : -1074 <= fexp64 e /\ e - 53 <= fexp64 e.
Proof. unfold fexp64. lia. Qed.

(** The second shift of the rounding, after a mantissa of at most [2^53]. *)
Lemma second_shift (s : bool) (m1 E : Z) :
  0 <= m1 <= 2 ^ 53 -> -1074 <= E ->
  (let '(mrs, e) := shr_fexp prec emax m1 E loc_Exact in
   match shr_m mrs with
   | Z0 => S754_zero s
   | Zpos m => if Z.leb e (Z.sub emax prec) then S754_finite s m e else S754_infinity s
   | _ => S754_nan
   end) = pack s m1 E.
Proof.
  intros [Hlo Hhi] HE. unfold shr_fexp. rewrite fexp_fexp64. cbn [shr_record_of_loc].
  unfold pack.
  destruct (Z.eqb_spec m1 0) as [->|Hne].
  { rewrite shr_nonpos; [done|]. simpl Zdigits2. unfold fexp64. lia. }
  destruct (Z.ltb_spec m1 (2 ^ 53)) as [Hlt|Hge].
  - rewrite shr_nonpos.
    + cbn [shr_m]. destruct m1 as [|p|p]; [done| |lia]. reflexivity.
    + assert (Zdigits2 m1 <= 53) by (apply Zdigits2_le; lia).
      unfold fexp64. lia.
  - assert (m1 = 2 ^ 53) as -> by lia.
    replace (Zdigits2 (2 ^ 53)) with 54 by reflexivity.
    replace (fexp64 (54 + E) - E) with 1 by (unfold fexp64; lia).
    reflexivity.
Qed.

(** Rounding a mantissa that has too many digits: the quotient by the
    power of two that is dropped, or the next integer. *)
Lemma round_aux_shift (s : bool) (mx ex : Z) (lx : location) :
  0 <= mx -> ex <= fexp64 (Zdigits2 mx + ex) ->
  exists m1,
    (m1 = mx / 2 ^ (fexp64 (Zdigits2 mx + ex) - ex)
     \/ m1 = mx / 2 ^ (fexp64 (Zdigits2 mx + ex) - ex) + 1)
    /\ 0 <= m1 <= 2 ^ 53
    /\ binary_round_aux prec emax s mx ex lx
       = pack s m1 (fexp64 (Zdigits2 mx + ex)).
Proof.
  intros Hmx Hk. unfold binary_round_aux.
  set (E := fexp64 (Zdigits2 mx + ex)) in *.
  assert (HE := fexp64_ge (Zdigits2 mx + ex)). fold E in HE.
  unfold shr_fexp at 1. rewrite fexp_fexp64. fold E.
  destruct (shr_m_shift (shr_record_of_loc mx lx) ex (E - ex)) as [Hm He].
  { by rewrite shr_record_of_loc_m. }
  destruct (shr (shr_record_of_loc mx lx) ex (E - ex)) as [mrs' e'].
  cbn [fst snd] in Hm, He. rewrite shr_record_of_loc_m in Hm.
  rewrite Z.max_r in Hm, He by lia.
  replace (ex + (E - ex)) with E in He by lia. subst e'.
  set (q := mx / 2 ^ (E - ex)) in *.
  assert (Hp : 0 < 2 ^ (E - ex)) by (apply Z.pow_pos_nonneg; lia).
  assert (Hq : 0 <= q < 2 ^ 53).
  { split; [apply Z.div_pos; lia|].
    apply Z.div_lt_upper_bound; [done|].
    destruct (Z.eq_dec mx 0) as [->|Hne]; [lia|].
    destruct (Zdigits2_bounds mx) as [_ Hhi]; [lia|].
    assert (2 ^ Zdigits2 mx <= 2 ^ (E - ex + 53)) by (apply Z.pow_le_mono_r; lia).
    rewrite Z.pow_add_r in H by lia. lia. }
  exists (round_nearest_even (shr_m mrs') (loc_of_shr_record mrs')).
  rewrite Hm.
  destruct (round_nearest_even_cases q (loc_of_shr_record mrs')) as [Hr|Hr];
    rewrite Hr; (split; [auto|]); (split; [lia|]); apply second_shift; lia.
Qed.

(** A mantissa that fits is kept as it is. *)
Lemma round_aux_exact (s : bool) (mx ex : Z) :
  0 < mx -> fexp64 (Zdigits2 mx + ex) <= ex ->
  binary_round_aux prec emax s mx ex loc_Exact
  = if ex <=? 971 then S754_finite s (Z.to_pos mx) ex else S754_infinity s.
Proof.
  intros Hmx Hk. unfold binary_round_aux, shr_fexp. rewrite !fexp_fexp64.
  cbn [shr_record_of_loc]. rewrite shr_nonpos by lia.
  cbn [shr_m loc_of_shr_record round_nearest_even shr_record_of_loc].
  rewrite fexp_fexp64, shr_nonpos by lia. cbn [shr_m].
  destruct mx; [lia| |lia]. reflexivity.
Qed.

Lemma Pos_iter_xO (m d : positive) :
  Zpos (Pos.iter xO m d) = Zpos m * 2 ^ Zpos d.
Proof.
  induction d as [|d IH] using Pos.peano_ind.
  - simpl. lia.
  - rewrite Pos.iter_succ, Pos2Z.inj_xO, IH, Pos2Z.inj_succ, Z.pow_succ_r by lia. lia.
Qed.

Lemma shl_align_low (m : positive) (e e' : Z) :
  e' < e ->
  exists mz, shl_align m e e' = (mz, e') /\ Zpos mz = Zpos m * 2 ^ (e - e').
Proof.
  intros Hlt. unfold shl_align. destruct (e' - e) as [|d|d] eqn:Hd; try lia.
  eexists. split; [reflexivity|]. rewrite Pos_iter_xO. f_equal. f_equal. lia.
Qed.

Lemma shl_align_high (m : positive) (e e' : Z) :
  e <= e' -> shl_align m e e' = (m, e).
Proof. intros Hle. unfold shl_align. destruct (e' - e) eqn:Hd; try done. lia. Qed.

Local Open Scope Q_scope.

(** Powers of two as rationals. *)
Lemma pow2_pos (e : Z) : 0 < pow2 e.
Proof. apply Qpower_0_lt. reflexivity. Qed.

Lemma pow2_add (a b : Z) : pow2 (a + b) == pow2 a * pow2 b.
Proof. apply Qpower_plus. discriminate. Qed.

Lemma pow2_Z (n : Z) : (0 <= n)%Z -> pow2 n == inject_Z (2 ^ n).
Proof. intros Hn. symmetry. apply (Zpower_Qpower 2 n Hn). Qed.

Lemma pow2_le (a b : Z) : (a <= b)%Z -> pow2 a <= pow2 b.
Proof. intros Hab. apply Qpower_le_compat_l; [done|]. discriminate. Qed.

Lemma scaled_bounds (M V T P : Q) :
  0 < P -> M - T <= V -> V <= M + T -> T * 4503599627370496 <= M ->
  (M * P) * (1 - u52) <= V * P /\ V * P <= (M * P) * (1 + u52).
Proof.
  intros HP H1 H2 H3. unfold u52.
  assert (M * (1 - (1 # 4503599627370496)) <= V) by lra.
  assert (V <= M * (1 + (1 # 4503599627370496))) by lra.
  split; nra.
Qed.

Lemma pack_not_nan (s : bool) (m E : Z) : pack s m E <> S754_nan.
Proof.
  unfold pack. destruct (m =? 0)%Z; [done|].
  destruct (m <? 2 ^ 53)%Z; [destruct (E <=? 971)%Z|destruct (E + 1 <=? 971)%Z]; done.
Qed.

Lemma pack_value (m E : Z) :
  (0 <= m <= 2 ^ 53)%Z ->
  (pack false m E = S754_infinity false /\ (971 <= E)%Z /\ (0 < m)%Z)
  \/ (pack false m E = S754_zero false /\ m = 0%Z)
  \/ exists p e, pack false m E = S754_finite false p e
       /\ inject_Z (Zpos p) * pow2 e == inject_Z m * pow2 E.
Proof.
  intros Hm. unfold pack.
  destruct (Z.eqb_spec m 0) as [->|Hne]; [auto|].
  destruct (Z.ltb_spec m (2 ^ 53)) as [Hlt|Hge].
  - destruct (Z.leb_spec E 971) as [Hle|Hgt].
    + right. right. eexists _, _. split; [reflexivity|].
      rewrite Z2Pos.id by lia. reflexivity.
    + left. split; [done|]. lia.
  - assert (m = (2 ^ 53)%Z) as -> by lia.
    destruct (Z.leb_spec (E + 1) 971) as [Hle|Hgt].
    + right. right. eexists _, _. split; [reflexivity|].
      rewrite (Z.add_comm E 1), pow2_add, Qmult_assoc.
      apply Qmult_comp; reflexivity.
    + left. split; [done|]. split; [lia|]. reflexivity.
Qed.

(** Rounding an exact positive value [m * 2^e]. *)
Lemma binary_round_bounds (m : positive) (e : Z) :
  (-1074 <= e <= 971)%Z ->
  let X := inject_Z (Zpos m) * pow2 e in
  (binary_round prec emax false m e = S754_infinity false /\ pow2 1023 <= X)
  \/ exists p e',
       binary_round prec emax false m e = S754_finite false p e'
       /\ X * (1 - u52) <= inject_Z (Zpos p) * pow2 e'
       /\ inject_Z (Zpos p) * pow2 e' <= X * (1 + u52).
Proof.
  intros He X. unfold binary_round. rewrite fexp_fexp64.
  change (Z.pos (digits2_pos m)) with (Zdigits2 (Zpos m)).
  set (F := fexp64 (Zdigits2 (Zpos m) + e)).
  assert (HX : 0 < X).
  { unfold X. apply Qmult_lt_0_compat; [|apply pow2_pos]. reflexivity. }
  assert (Hexact : forall V, V == X -> X * (1 - u52) <= V /\ V <= X * (1 + u52)).
  { intros V ->. unfold u52. split; nra. }
  destruct (Z.lt_ge_cases F e) as [Hlt|Hge].
  - destruct (shl_align_low m e F Hlt) as (mz & -> & Hmz).
    rewrite round_aux_exact.
    + destruct (Z.leb_spec F 971); [|lia]. right. exists mz, F.
      split; [reflexivity|]. apply Hexact. unfold X.
      rewrite Hmz, inject_Z_mult, <- pow2_Z by lia.
      replace e with ((e - F) + F)%Z at 2 by lia. rewrite pow2_add. ring.
    + lia.
    + rewrite Hmz, Zdigits2_shift by lia. fold F.
      replace (Zdigits2 (Z.pos m) + (e - F) + F)%Z with (Zdigits2 (Z.pos m) + e)%Z by lia.
      fold F. lia.
  - rewrite shl_align_high by done.
    destruct (Z.eq_dec F e) as [Heq|Hne].
    + rewrite round_aux_exact; [|lia|fold F; lia].
      destruct (Z.leb_spec e 971); [|lia]. right. exists m, e.
      split; [reflexivity|]. by apply Hexact.
    + destruct (round_aux_shift false (Zpos m) e loc_Exact) as (m1 & Hm1 & Hrange & ->);
        [lia|fold F; lia|]. fold F in Hm1 |- *.
      set (k := (F - e)%Z) in *.
      assert (Hk : (0 < k)%Z) by lia.
      assert (HF : F = (Zdigits2 (Zpos m) + e - 53)%Z) by (unfold F, fexp64 in *; lia).
      assert (Hp : (0 < 2 ^ k)%Z) by (apply Z.pow_pos_nonneg; lia).
      assert (Hdiv : (Zpos m - 2 ^ k <= m1 * 2 ^ k <= Zpos m + 2 ^ k)%Z).
      { pose proof (Z.mul_div_le (Zpos m) (2 ^ k) Hp).
        pose proof (Z.mul_succ_div_gt (Zpos m) (2 ^ k) Hp).
        destruct Hm1 as [-> | ->]; nia. }
      assert (Hbig : (2 ^ k * 2 ^ 52 <= Zpos m)%Z).
      { destruct (Zdigits2_bounds (Zpos m)) as [Hlo _]; [lia|].
        rewrite <- Z.pow_add_r by lia.
        replace (k + 52)%Z with (Zdigits2 (Z.pos m) - 1)%Z by lia. done. }
      assert (HV : inject_Z m1 * pow2 F == inject_Z (m1 * 2 ^ k) * pow2 e).
      { replace F with (k + e)%Z by lia.
        rewrite pow2_add, inject_Z_mult, pow2_Z by lia. ring. }
      assert (Hbounds : X * (1 - u52) <= inject_Z m1 * pow2 F
                        /\ inject_Z m1 * pow2 F <= X * (1 + u52)).
      { rewrite HV. unfold X.
        apply (scaled_bounds _ _ (inject_Z (2 ^ k))); [apply pow2_pos| | |].
        - unfold Qminus. rewrite <- inject_Z_opp, <- inject_Z_plus, <- Zle_Qle. lia.
        - rewrite <- inject_Z_plus, <- Zle_Qle. lia.
        - change 4503599627370496 with (inject_Z (2 ^ 52)).
          rewrite <- inject_Z_mult, <- Zle_Qle. lia. }
      destruct (pack_value m1 F Hrange) as [(-> & HF971 & _)|[(_ & ->)|(p & e' & -> & Hv)]].
      * left. split; [done|]. unfold X.
        apply Qle_trans with (inject_Z (2 ^ (k + 52)) * pow2 e).
        -- rewrite <- pow2_Z, <- pow2_add by lia. apply pow2_le. lia.
        -- apply Qmult_le_compat_r; [|apply Qlt_le_weak, pow2_pos].
           rewrite <- Zle_Qle, Z.pow_add_r by lia. done.
      * exfalso.
        assert ((2 ^ 52 <= Zpos m / 2 ^ k)%Z)
          by (apply Z.div_le_lower_bound; lia).
        lia.
      * right. exists p, e'. split; [reflexivity|]. by rewrite Hv.
Qed.

Lemma valid_finite (s : bool) (m : positive) (e : Z) :
  valid_binary (S754_finite s m e) = true ->
  (-1074 <= e <= 971)%Z /\ (Zdigits2 (Zpos m) <= 53)%Z.
Proof.
  cbn [SpecFloat.valid_binary]. unfold bounded, canonical_mantissa.
  rewrite fexp_fexp64. intros [Hc He]%andb_prop.
  apply Z.eqb_eq in Hc. apply Z.leb_le in He. change (emax - prec)%Z with 971%Z in He.
  cbn [Zdigits2]. unfold fexp64 in Hc. lia.
Qed.

Lemma shl_align_value (m : positive) (e e' : Z) :
  (e' <= e)%Z -> Zpos (fst (shl_align m e e')) = (Zpos m * 2 ^ (e - e'))%Z.
Proof.
  intros Hle. destruct (Z.eq_dec e' e) as [->|Hne].
  - rewrite shl_align_high by lia. rewrite Z.sub_diag. simpl. lia.
  - destruct (shl_align_low m e e') as (mz & Heq & Hmz); [lia|].
    by rewrite Heq.
Qed.

Lemma nnf_nonneg (x : spec_float) : nnf x = true -> 0 <= SF2Q x.
Proof.
  destruct x as [| | |[] m e]; try done. intros _. cbn [SF2Q].
  apply Qmult_le_0_compat; [done|]. apply Qlt_le_weak, pow2_pos.
Qed.

(** The sum of two non-negative doubles: an overflow, or within a relative
    [2^-52] of the exact sum. *)
Lemma SFadd_bounds (x y : spec_float) :
  valid_binary x = true -> valid_binary y = true ->
  nnf x = true -> nnf y = true ->
  let X := SF2Q x + SF2Q y in
  let r := SF64add x y in
  (r = S754_infinity false /\ pow2 1023 <= X)
  \/ (nnf r = true /\ X * (1 - u52) <= SF2Q r /\ SF2Q r <= X * (1 + u52)).
Proof.
  intros Hvx Hvy Hx Hy X r.
  assert (Hexact : SF2Q r == X -> nnf r = true ->
            nnf r = true /\ X * (1 - u52) <= SF2Q r /\ SF2Q r <= X * (1 + u52)).
  { intros Heq Hr. split; [done|]. rewrite Heq.
    assert (0 <= X) by (rewrite <- Heq; by apply nnf_nonneg).
    unfold u52. split; nra. }
  destruct x as [sx| | |[] mx ex]; try done; destruct y as [sy| | |[] my ey]; try done.
  - right. apply Hexact; [|by destruct sx, sy]. unfold X. by destruct sx, sy.
  - right. apply Hexact; [|done]. unfold X, r. cbn. ring.
  - right. apply Hexact; [|done]. unfold X, r. cbn. ring.
  - apply valid_finite in Hvx as [Hex _], Hvy as [Hey _].
    unfold r, SF64add, SFadd. cbn [cond_Zopp].
    set (ez := Z.min ex ey).
    set (a := fst (shl_align mx ex ez)). set (b := fst (shl_align my ey ez)).
    change (Z.pos a + Z.pos b)%Z with (Z.pos (a + b)).
    cbn [binary_normalize].
    assert (HX : inject_Z (Z.pos (a + b)) * pow2 ez == X).
    { unfold X, a, b. rewrite Pos2Z.inj_add, !shl_align_value by lia.
      rewrite inject_Z_plus, !inject_Z_mult, <- !pow2_Z by lia. cbn [SF2Q].
      replace ex with ((ex - ez) + ez)%Z at 2 by lia.
      replace ey with ((ey - ez) + ez)%Z at 2 by lia.
      rewrite !pow2_add. ring. }
    destruct (binary_round_bounds (a + b) ez) as [[-> Hbig]|(p & e' & -> & Hlo & Hhi)];
      [lia| |].
    + left. split; [done|]. by rewrite <- HX.
    + right. split; [done|]. cbn [SF2Q]. rewrite <- HX. done.
Qed.

Lemma Zdigits2_ge (m d : Z) : (0 <= d)%Z -> (2 ^ d <= m)%Z -> (d < Zdigits2 m)%Z.
Proof.
  intros Hd Hm.
  assert (0 < 2 ^ d)%Z by (apply Z.pow_pos_nonneg; lia).
  destruct (Zdigits2_bounds m) as [_ Hhi]; [lia|].
  apply (Z.pow_lt_mono_r_iff 2); [lia| |lia].
  assert (0 < Zdigits2 m)%Z by (apply Zdigits2_pos; lia). lia.
Qed.

(** The quotient and exponent the division hands to the rounding. *)
Lemma div_core (mx my : positive) (ex ey : Z) :
  (Zdigits2 (Zpos mx) <= 53)%Z ->
  exists q e' l,
    SFdiv_core_binary prec emax (Zpos mx) ex (Zpos my) ey = (q, e', l)
    /\ (e' <= ex - ey)%Z
    /\ q = (Zpos mx * 2 ^ (ex - ey - e') / Zpos my)%Z
    /\ (e' <= fexp64 (Zdigits2 q + e'))%Z.
Proof.
  intros Hd1. unfold SFdiv_core_binary. rewrite fexp_fexp64.
  set (d1 := Zdigits2 (Zpos mx)) in *. set (d2 := Zdigits2 (Zpos my)).
  set (e' := Z.min (fexp64 (d1 + ex - (d2 + ey))) (ex - ey)).
  set (s := (ex - ey - e')%Z).
  assert (Hs : (0 <= s)%Z) by lia.
  set (m' := match s with
             | 0%Z => Z.pos mx
             | Z.pos _ => Z.shiftl (Z.pos mx) s
             | Z.neg _ => 0%Z
             end).
  assert (Hm' : m' = (Zpos mx * 2 ^ s)%Z).
  { unfold m'. destruct s as [|p|p] eqn:Es; [simpl; lia| |lia].
    by rewrite Z.shiftl_mul_pow2. }
  destruct (Z.div_eucl m' (Z.pos my)) as [q r] eqn:Hqr.
  assert (Hq : q = (m' / Zpos my)%Z) by (unfold Z.div; by rewrite Hqr).
  eexists _, _, _. split; [reflexivity|]. split; [lia|]. split; [rewrite Hq, Hm'; reflexivity|].
  destruct (Z.le_gt_cases e' (-1074)) as [Hlow|Hhigh].
  { pose proof (fexp64_ge (Zdigits2 q + e')). lia. }
  assert (He' : (e' <= d1 + ex - (d2 + ey) - 53)%Z) by (unfold e', fexp64 in *; lia).
  assert (Hd2 := Zdigits2_bounds (Zpos my) ltac:(lia)). fold d2 in Hd2.
  assert (Hd1' := Zdigits2_bounds (Zpos mx) ltac:(lia)). fold d1 in Hd1'.
  assert (0 < d2)%Z by (apply Zdigits2_pos; lia).
  assert (0 < d1)%Z by (apply Zdigits2_pos; lia).
  assert (Hbig : (2 ^ 52 <= q)%Z).
  { rewrite Hq. apply Z.div_le_lower_bound; [lia|]. rewrite Hm'.
    assert (2 ^ (52 + d2) <= 2 ^ (d1 - 1 + s))%Z by (apply Z.pow_le_mono_r; lia).
    rewrite !Z.pow_add_r in H1 by lia.
    assert (0 < 2 ^ s)%Z by (apply Z.pow_pos_nonneg; lia).
    assert (0 < 2 ^ 52)%Z by done. nia. }
  pose proof (Zdigits2_ge q 52 ltac:(lia) Hbig).
  pose proof (fexp64_ge (Zdigits2 q + e')). lia.
Qed.

(** The quotient of a non-negative double by a positive one: an overflow,
    or within a relative [2^-52] plus [2^-1074] of the exact quotient. *)
Lemma SFdiv_bounds (x y : spec_float) (my : positive) (ey : Z) :
  valid_binary x = true -> valid_binary y = true ->
  nnf x = true -> y = S754_finite false my ey ->
  let X := SF2Q x / SF2Q y in
  let r := SF64div x y in
  (r = S754_infinity false /\ pow2 1023 <= X)
  \/ (nnf r = true /\ X - (X * u52 + eta) <= SF2Q r
      /\ SF2Q r <= X + (X * u52 + eta)).
Proof.
  intros Hvx Hvy Hx -> X r.
  assert (Heta : 0 < eta) by apply pow2_pos.
  destruct x as [sx| | |[] mx ex]; try done.
  { right. unfold r, X. cbn [SF2Q SF64div SFdiv xorb nnf]. split; [done|].
    assert (H0 : 0 / (inject_Z (Z.pos my) * pow2 ey) == 0) by (unfold Qdiv; ring).
    rewrite H0. unfold u52. split; lra. }
  apply valid_finite in Hvx as [Hex Hd1], Hvy as [Hey Hd2].
  destruct (div_core mx my ex ey Hd1) as (q & e' & l & Hcore & Hs & Hq & Hk).
  unfold r, SF64div, SFdiv. rewrite Hcore. cbn [xorb].
  set (Y := inject_Z (Zpos mx * 2 ^ (ex - ey - e')) / inject_Z (Zpos my)).
  assert (Hmy : 0 < inject_Z (Zpos my)) by done.
  assert (HX : X == Y * pow2 e').
  { unfold X, Y. cbn [SF2Q]. rewrite inject_Z_mult, <- pow2_Z by lia.
    replace ex with ((ex - ey - e') + e' + ey)%Z at 1 by lia.
    rewrite !pow2_add. field. split.
    - intros H. rewrite H in Hmy. by apply Qlt_irrefl in Hmy.
    - intros H. pose proof (pow2_pos ey) as Hp. rewrite H in Hp.
      by apply Qlt_irrefl in Hp. }
  assert (Hq0 : (0 <= q)%Z).
  { rewrite Hq. apply Z.div_pos; [|lia].
    assert (0 < 2 ^ (ex - ey - e'))%Z by (apply Z.pow_pos_nonneg; lia). lia. }
  destruct (round_aux_shift false q e' l Hq0 Hk) as (m1 & Hm1 & Hrange & ->).
  set (E := fexp64 (Zdigits2 q + e')) in *.
  set (k := (E - e')%Z) in *.
  assert (Hk0 : (0 <= k)%Z) by lia.
  assert (Hp : (0 < 2 ^ k)%Z) by (apply Z.pow_pos_nonneg; lia).
  set (m' := (Zpos mx * 2 ^ (ex - ey - e'))%Z) in *.
  assert (Hm'q : (Zpos my * q <= m' < Zpos my * (q + 1))%Z).
  { pose proof (Z.mul_div_le m' (Zpos my) ltac:(lia)).
    pose proof (Z.mul_succ_div_gt m' (Zpos my) ltac:(lia)). rewrite <- Hq in *. lia. }
  assert (Hqk : (q / 2 ^ k * 2 ^ k <= q < (q / 2 ^ k + 1) * 2 ^ k)%Z).
  { pose proof (Z.mul_div_le q (2 ^ k) Hp).
    pose proof (Z.mul_succ_div_gt q (2 ^ k) Hp). lia. }
  set (N := (m1 * 2 ^ k)%Z).
  assert (HN : (Zpos my * (N - 2 ^ k) <= m' <= Zpos my * (N + 2 ^ k))%Z).
  { unfold N. destruct Hm1 as [-> | ->]; nia. }
  assert (HY : inject_Z N - inject_Z (2 ^ k) <= Y /\ Y <= inject_Z N + inject_Z (2 ^ k)).
  { unfold Y. split.
    - apply Qle_shift_div_l; [done|].
      unfold Qminus. rewrite <- inject_Z_opp, <- inject_Z_plus, <- inject_Z_mult, <- Zle_Qle. lia.
    - apply Qle_shift_div_r; [done|].
      rewrite <- inject_Z_plus, <- inject_Z_mult, <- Zle_Qle. lia. }
  assert (HV : inject_Z m1 * pow2 E == inject_Z N * pow2 e').
  { unfold N. replace E with (k + e')%Z by lia.
    rewrite pow2_add, inject_Z_mult, pow2_Z by lia. ring. }
  assert (HE : pow2 E == inject_Z (2 ^ k) * pow2 e').
  { replace E with (k + e')%Z by lia. by rewrite pow2_add, pow2_Z by lia. }
  assert (HY0 : 0 <= Y).
  { unfold Y. apply Qle_shift_div_l; [done|]. rewrite Qmult_0_l.
    change 0 with (inject_Z 0). rewrite <- Zle_Qle. unfold m'.
    assert (0 < 2 ^ (ex - ey - e'))%Z by (apply Z.pow_pos_nonneg; lia). lia. }
  assert (Hpe : 0 < pow2 e') by apply pow2_pos.
  assert (Hnormal : (-1074 < E)%Z -> inject_Z (2 ^ k) * 4503599627370496 <= Y).
  { intros HEn.
    assert (HEd : E = (Zdigits2 q + e' - 53)%Z) by (unfold E, fexp64 in *; lia).
    assert (Hqpos : (0 < q)%Z).
    { destruct (Z.eq_dec q 0%Z) as [Hz|]; [|lia]. rewrite Hz in HEd. simpl in HEd. lia. }
    destruct (Zdigits2_bounds q Hqpos) as [Hlo _].
    assert (Hkq : (2 ^ k * 2 ^ 52 <= q)%Z).
    { rewrite <- Z.pow_add_r by lia.
      replace (k + 52)%Z with (Zdigits2 q - 1)%Z by lia. done. }
    unfold Y. apply Qle_shift_div_l; [done|].
    change 4503599627370496 with (inject_Z (2 ^ 52)).
    rewrite <- !inject_Z_mult, <- Zle_Qle. nia. }
  assert (Hbounds : X - (X * u52 + eta) <= inject_Z m1 * pow2 E
                    /\ inject_Z m1 * pow2 E <= X + (X * u52 + eta)).
  { rewrite HV, HX. destruct HY as [HY1 HY2].
    destruct (Z.eq_dec E (-1074)%Z) as [HEz|HEn].
    - assert (Heq : eta == inject_Z (2 ^ k) * pow2 e') by (unfold eta; by rewrite <- HEz).
      rewrite Heq. unfold u52. split; nra.
    - specialize (Hnormal ltac:(pose proof (fexp64_ge (Zdigits2 q + e')); fold E in H; lia)).
      destruct (scaled_bounds Y (inject_Z N) (inject_Z (2 ^ k)) (pow2 e')) as [H1 H2];
        [done|lra|lra|done|].
      unfold u52 in *. split; nra. }
  destruct (pack_value m1 E Hrange) as [(-> & HE971 & _)|[(-> & ->)|(p & e'' & -> & Hv)]].
  - left. split; [done|]. rewrite HX.
    specialize (Hnormal ltac:(lia)).
    apply Qle_trans with (inject_Z (2 ^ k) * 4503599627370496 * pow2 e').
    + change 4503599627370496 with (pow2 52).
      rewrite <- pow2_Z, <- !pow2_add by lia. apply pow2_le. lia.
    + apply Qmult_le_compat_r; [done|by apply Qlt_le_weak].
  - right. split; [done|]. cbn [SF2Q]. 
    assert (H0 : inject_Z 0 * pow2 E == 0) by ring.
    rewrite H0 in Hbounds. exact Hbounds.
  - right. split; [done|]. cbn [SF2Q]. rewrite Hv. exact Hbounds.
Qed.

(** ** From the specification to the primitive doubles *)

Lemma nonneg_finite_nnf (x : float) :
  nonneg_finite x = nnf (Prim2SF x).
Proof.
  unfold nonneg_finite. rewrite FloatAxioms.leb_spec, FloatAxioms.ltb_spec.
  change (Prim2SF 0) with (S754_zero false).
  change (Prim2SF infinity) with (S754_infinity false).
  by destruct (Prim2SF x) as [[]|[]| |[] m e].
Qed.

Lemma Prim2SF_infinity (x : float) :
  Prim2SF x = S754_infinity false -> x = infinity.
Proof. intros H. apply Prim2SF_inj. by rewrite H. Qed.

Lemma add_bounds (a b : float) :
  nonneg_finite a = true -> nonneg_finite b = true ->
  let X := to_Q a + to_Q b in
  ((a + b)%float = infinity /\ pow2 1023 <= X)
  \/ (nonneg_finite (a + b) = true
      /\ X * (1 - u52) <= to_Q (a + b) /\ to_Q (a + b) <= X * (1 + u52)).
Proof.
  rewrite !nonneg_finite_nnf. intros Ha Hb X.
  destruct (SFadd_bounds (Prim2SF a) (Prim2SF b)) as [[Hinf Hbig]|H];
    try apply Prim2SF_valid; try done.
  - left. split; [|done]. apply Prim2SF_infinity. by rewrite add_spec.
  - right. unfold to_Q. by rewrite add_spec.
Qed.

Lemma div_bounds (c t : float) :
  nonneg_finite c = true -> nonneg_finite t = true -> 0 < to_Q t ->
  let X := to_Q c / to_Q t in
  ((c / t)%float = infinity /\ pow2 1023 <= X)
  \/ (nonneg_finite (c / t) = true
      /\ X - (X * u52 + eta) <= to_Q (c / t)
      /\ to_Q (c / t) <= X + (X * u52 + eta)).
Proof.
  rewrite !nonneg_finite_nnf. intros Hc Ht Hpos X. unfold to_Q in *.
  destruct (Prim2SF t) as [|[]| |[] my ey] eqn:Et; try done;
    try (by apply Qlt_irrefl in Hpos).
  destruct (SFdiv_bounds (Prim2SF c) (Prim2SF t) my ey) as [[Hinf Hbig]|H];
    try apply Prim2SF_valid; try done.
  - left. rewrite Et in Hbig. split; [|done]. apply Prim2SF_infinity.
    by rewrite div_spec.
  - right. rewrite div_spec. rewrite Et in H |- *. exact H.
Qed.

Lemma add_infinity (x : float) :
  nonneg_finite x = true -> (infinity + x)%float = infinity.
Proof.
  rewrite nonneg_finite_nnf. intros Hx. apply Prim2SF_infinity.
  rewrite add_spec. change (Prim2SF infinity) with (S754_infinity false).
  by destruct (Prim2SF x) as [[]|[]| |[] m e].
Qed.

(** ** Sums of doubles *)

Lemma exact_nonneg (x : float) : nonneg_finite x = true -> 0 <= to_Q x.
Proof. rewrite nonneg_finite_nnf. apply nnf_nonneg. Qed.

Lemma exact_sum_nonneg (xs : list float) :
  Forall (fun x => nonneg_finite x = true) xs -> 0 <= exact_sum xs.
Proof.
  induction 1 as [|x xs Hx _ IH]; cbn [exact_sum fold_right]; [done|].
  fold (exact_sum xs). pose proof (exact_nonneg x Hx). lra.
Qed.

Lemma pow_up_ge (n : nat) : 1 <= pow_n (1 + u52) n.
Proof. induction n as [|n IH]; cbn [pow_n]; [done|]. unfold u52 in *. nra. Qed.

Lemma pow_down_range (n : nat) : 0 <= pow_n (1 - u52) n <= 1.
Proof. induction n as [|n IH]; cbn [pow_n]; [done|]. unfold u52 in *. split; nra. Qed.

Lemma fold_add_infinity (xs : list float) :
  Forall (fun x => nonneg_finite x = true) xs ->
  fold_left PrimFloat.add xs infinity = infinity.
Proof.
  induction 1 as [|x xs Hx _ IH]; cbn [fold_left]; [done|].
  by rewrite add_infinity.
Qed.

(** Adding [n] non-negative doubles to an accumulator, one after the
    other: an overflow, or within a factor [(1 ± 2^-52)^n] of the exact
    sum. *)
Lemma fold_add_cases (xs : list float) :
  Forall (fun x => nonneg_finite x = true) xs ->
  forall acc, nonneg_finite acc = true ->
  let S := to_Q acc + exact_sum xs in
  let r := fold_left PrimFloat.add xs acc in
  (r = infinity /\ pow2 1023 <= S * pow_n (1 + u52) (length xs))
  \/ (nonneg_finite r = true
      /\ S * pow_n (1 - u52) (length xs) <= to_Q r
      /\ to_Q r <= S * pow_n (1 + u52) (length xs)).
Proof.
  induction 1 as [|x xs Hx Hxs IH]; intros acc Hacc; cbn [fold_left length pow_n exact_sum fold_right].
  - right. split; [done|]. split; lra.
  - fold (exact_sum xs).
    pose proof (exact_nonneg x Hx) as Hx0.
    pose proof (exact_nonneg acc Hacc) as Ha0.
    pose proof (exact_sum_nonneg xs Hxs) as Hs0.
    pose proof (pow_up_ge (length xs)) as Hup.
    pose proof (pow_down_range (length xs)) as [Hd0 Hd1].
    set (P := pow_n (1 + u52) (length xs)) in *.
    set (L := pow_n (1 - u52) (length xs)) in *.
    destruct (add_bounds acc x Hacc Hx) as [[Hinf Hbig]|(Hfin & Hlo & Hhi)].
    + left. rewrite Hinf. split; [by apply fold_add_infinity|].
      unfold u52 in *. nra.
    + destruct (IH _ Hfin) as [[Hr Hbig]|(Hr & Hlo' & Hhi')].
      * left. split; [done|]. fold P in Hbig.
        eapply Qle_trans; [exact Hbig|]. unfold u52 in *. nra.
      * right. split; [done|]. fold P L in Hlo', Hhi'.
        unfold u52 in *. split; nra.
Qed.

Lemma Qlength_cons (x : float) (xs : list float) : Qlength (x :: xs) == 1 + Qlength xs.
Proof.
  unfold Qlength. cbn [length]. rewrite Nat2Z.inj_succ, <- Z.add_1_l, inject_Z_plus.
  reflexivity.
Qed.

Lemma Qlength_nonneg (xs : list float) : 0 <= Qlength xs.
Proof. unfold Qlength. change 0 with (inject_Z 0). rewrite <- Zle_Qle. lia. Qed.

Lemma pow_up_le (xs : list float) :
  Qlength xs * u52 <= 1 # 2 ->
  pow_n (1 + u52) (length xs) <= 1 + 2 * (Qlength xs * u52).
Proof.
  induction xs as [|x xs IH]; cbn [length pow_n].
  - intros _. vm_compute. discriminate.
  - rewrite Qlength_cons. pose proof (Qlength_nonneg xs). intros Hn.
    assert (Hn' : Qlength xs * u52 <= 1 # 2) by (unfold u52 in *; lra).
    specialize (IH Hn'). unfold u52 in *. nra.
Qed.

Lemma pow_down_ge (xs : list float) :
  Qlength xs * u52 <= 1 ->
  1 - Qlength xs * u52 <= pow_n (1 - u52) (length xs).
Proof.
  induction xs as [|x xs IH]; cbn [length pow_n].
  - intros _. vm_compute. discriminate.
  - rewrite Qlength_cons. pose proof (Qlength_nonneg xs). intros Hn.
    assert (Hn' : Qlength xs * u52 <= 1) by (unfold u52 in *; lra).
    specialize (IH Hn'). unfold u52 in *. nra.
Qed.

Lemma exact_le_sum (c : float) (cs : list float) :
  Forall (fun x => nonneg_finite x = true) cs -> c ∈ cs -> to_Q c <= exact_sum cs.
Proof.
  induction 1 as [|x xs Hx Hxs IH]; [by intros ?%elem_of_nil|].
  cbn [exact_sum fold_right]. fold (exact_sum xs).
  pose proof (exact_nonneg x Hx). pose proof (exact_sum_nonneg xs Hxs).
  intros [->|Hin]%elem_of_cons; [lra|]. specialize (IH Hin). lra.
Qed.

Lemma eta_le_u52 : eta <= u52.
Proof.
  unfold eta. change u52 with (pow2 (-52)). apply pow2_le. lia.
Qed.

(** The quotients of the means by their total. *)
Lemma weights_bounds (t : float) (cs : list float) :
  nonneg_finite t = true -> 0 < to_Q t ->
  Forall (fun c => nonneg_finite c = true) cs ->
  Forall (fun c => to_Q c <= 2 * to_Q t) cs ->
  let ws := map (fun c => (c / t)%float) cs in
  Forall (fun w => nonneg_finite w = true) ws
  /\ exact_sum cs / to_Q t * (1 - u52) - Qlength cs * eta <= exact_sum ws
  /\ exact_sum ws <= exact_sum cs / to_Q t * (1 + u52) + Qlength cs * eta.
Proof.
  intros Ht Hpos Hcs Hsmall.
  induction Hcs as [|c cs Hc Hcs IH]; cbn [map exact_sum fold_right].
  - split; [constructor|]. unfold Qlength, Qdiv. cbn [length]. split; ring_simplify; done.
  - apply Forall_cons in Hsmall as [Hc2 Hsmall].
    destruct (IH Hsmall) as (Hws & Hlo & Hhi). fold (exact_sum cs).
    fold (exact_sum (map (fun c => (c / t)%float) cs)).
    set (W := exact_sum (map (fun c => (c / t)%float) cs)) in *.
    assert (Hx : 0 <= to_Q c / to_Q t <= 2).
    { pose proof (exact_nonneg c Hc). split.
      - apply Qle_shift_div_l; [done|]. lra.
      - apply Qle_shift_div_r; [done|]. lra. }
    assert (Hsplit : (to_Q c + exact_sum cs) / to_Q t
                     == to_Q c / to_Q t + exact_sum cs / to_Q t)
      by (unfold Qdiv; ring).
    rewrite Hsplit, Qlength_cons.
    destruct (div_bounds c t Hc Ht Hpos) as [[_ Hbig]|(Hw & Hwlo & Hwhi)].
    + exfalso. assert (pow2 1023 <= 2) by lra.
      assert (pow2 2 <= pow2 1023) by (apply pow2_le; lia).
      change (pow2 2) with 4 in *. lra.
    + split; [by constructor|]. split; lra.
Qed.

Lemma positive_exact (c : float) :
  nonneg_finite c = true -> (0 <? c)%float = true -> 0 < to_Q c.
Proof.
  rewrite nonneg_finite_nnf, FloatAxioms.ltb_spec. unfold to_Q.
  change (Prim2SF 0) with (S754_zero false).
  destruct (Prim2SF c) as [[]|[]| |[] m e]; try done. intros _ _. cbn [SF2Q].
  apply Qmult_lt_0_compat; [done|apply pow2_pos].
Qed.

Lemma exact_sum_pos (cs : list float) :
  Forall (fun c => nonneg_finite c = true) cs ->
  Exists (fun c => (0 <? c)%float = true) cs -> 0 < exact_sum cs.
Proof.
  induction 1 as [|c cs Hc Hcs IH]; intros Hex; [by apply Exists_nil in Hex|].
  cbn [exact_sum fold_right]. fold (exact_sum cs).
  pose proof (exact_nonneg c Hc). pose proof (exact_sum_nonneg cs Hcs).
  apply Exists_cons in Hex as [Hpos|Hex].
  - pose proof (positive_exact c Hc Hpos). lra.
  - specialize (IH Hex). lra.
Qed.

Lemma exact_zero : to_Q 0 == 0.
Proof. reflexivity. Qed.

(** Non-negative doubles divided by their sum add up to 1 within
    [8 n 2^-52]. *)
Lemma normalised_weights (cs : list float) :
  Forall (fun c => nonneg_finite c = true) cs ->
  Exists (fun c => (0 <? c)%float = true) cs ->
  (fsum cs <? infinity)%float = true ->
  Qlength cs * u52 <= 1 # 16 ->
  let ws := map (fun c => (c / fsum cs)%float) cs in
  let tol := 8 * (Qlength cs * u52) in
  Forall (fun w => nonneg_finite w = true) ws
  /\ (1 - tol <= exact_sum ws /\ exact_sum ws <= 1 + tol)
  /\ nonneg_finite (fsum ws) = true
  /\ (1 - tol <= to_Q (fsum ws) /\ to_Q (fsum ws) <= 1 + tol).
Proof.
  intros Hcs Hex Hfin Hn ws tol.
  pose proof (exact_sum_pos cs Hcs Hex) as HS.
  pose proof (Qlength_nonneg cs) as Hc0.
  set (a := Qlength cs * u52) in *.
  assert (Ha0 : 0 <= a) by (unfold a, u52; nra).
  assert (Hua : u52 <= a).
  { unfold a. destruct cs as [|c cs']; [by apply Exists_nil in Hex|].
    rewrite Qlength_cons. pose proof (Qlength_nonneg cs'). unfold u52. nra. }
  assert (Hna : Qlength cs * eta <= a).
  { unfold a. pose proof eta_le_u52. nra. }
  (* the total *)
  destruct (fold_add_cases cs Hcs 0%float eq_refl) as [[Hinf _]|(Ht & Hlo & Hhi)].
  { unfold fsum in Hfin. by rewrite Hinf in Hfin. }
  fold (fsum cs) in Ht, Hlo, Hhi. rewrite exact_zero, Qplus_0_l in Hlo, Hhi.
  pose proof (pow_up_le cs ltac:(fold a; lra)) as HP. fold a in HP.
  pose proof (pow_down_ge cs ltac:(fold a; lra)) as HL. fold a in HL.
  pose proof (pow_up_ge (length cs)) as HP1.
  pose proof (pow_down_range (length cs)) as [HL0 HL1].
  set (P := pow_n (1 + u52) (length cs)) in *.
  set (L := pow_n (1 - u52) (length cs)) in *.
  set (S := exact_sum cs) in *. set (tau := to_Q (fsum cs)) in *.
  assert (Htau : 0 < tau) by nra.
  assert (Htau_hi : tau <= S * (1 + 2 * a)) by nra.
  assert (Htau_lo : S * (1 - a) <= tau) by nra.
  assert (Hrho : 1 - 2 * a <= S / tau /\ S / tau <= 1 + 2 * a).
  { split.
    - apply Qle_shift_div_l; [done|]. nra.
    - apply Qle_shift_div_r; [done|]. nra. }
  (* the weights *)
  destruct (weights_bounds (fsum cs) cs Ht Htau Hcs) as (Hws & Hwlo & Hwhi).
  { apply Forall_forall. intros c Hc.
    pose proof (exact_le_sum c cs Hcs Hc). fold S in H. fold tau. nra. }
  fold ws S tau in Hws, Hwlo, Hwhi.
  set (rho := S / tau) in *. destruct Hrho as [Hrho1 Hrho2].
  set (W := exact_sum ws) in *.
  assert (HW : 1 - 4 * a <= W /\ W <= 1 + 5 * a) by (unfold u52 in *; split; nra).
  split; [done|]. split; [unfold tol; fold a; split; lra|].
  (* their sum *)
  assert (Hlen : length ws = length cs) by apply length_map.
  destruct (fold_add_cases ws Hws 0%float eq_refl) as [[_ Hbig]|(Hs & Hslo & Hshi)].
  { exfalso. rewrite exact_zero, Qplus_0_l, Hlen in Hbig. fold W P in Hbig.
    assert (pow2 2 <= pow2 1023) by (apply pow2_le; lia).
    change (pow2 2) with 4 in *. nra. }
  fold (fsum ws) in Hs, Hslo, Hshi.
  rewrite exact_zero, Qplus_0_l, Hlen in Hslo, Hshi. fold W P L in Hslo, Hshi.
  split; [done|]. unfold tol. fold a. split; nra.
Qed.

(** ** Special values *)

Lemma is_nan_spec (x : float) :
  PrimFloat.is_nan x = match Prim2SF x with S754_nan => true | _ => false end.
Proof.
  unfold PrimFloat.is_nan. rewrite FloatAxioms.eqb_spec. unfold SFeqb.
  destruct (Prim2SF x) as [[]|[]| |[] m e]; try reflexivity;
    cbn [SFcompare]; by rewrite Z.compare_refl, Pos.compare_cont_refl.
Qed.

Lemma is_zero_spec (x : float) :
  PrimFloat.is_zero x = match Prim2SF x with S754_zero _ => true | _ => false end.
Proof.
  unfold PrimFloat.is_zero. rewrite FloatAxioms.eqb_spec.
  change (Prim2SF zero) with (S754_zero false).
  by destruct (Prim2SF x) as [[]|[]| |[] m e].
Qed.

Lemma is_finite_spec (x : float) :
  PrimFloat.is_finite x
  = match Prim2SF x with S754_zero _ | S754_finite _ _ _ => true | _ => false end.
Proof.
  unfold PrimFloat.is_finite, PrimFloat.is_infinity. rewrite is_nan_spec, FloatAxioms.eqb_spec, abs_spec.
  change (Prim2SF infinity) with (S754_infinity false).
  by destruct (Prim2SF x) as [[]|[]| |[] m e].
Qed.

(** A quotient is NaN only for 0/0, inf/inf or a NaN operand. *)
Lemma SFdiv_not_nan (x y : spec_float) :
  valid_binary x = true ->
  match x with S754_zero _ | S754_finite _ _ _ => true | _ => false end = true ->
  match y with S754_finite _ _ _ | S754_infinity _ => true | _ => false end = true ->
  SF64div x y <> S754_nan.
Proof.
  intros Hv Hx Hy.
  destruct x as [sx| | |sx mx ex]; try done; destruct y as [| sy| |sy my ey]; try done.
  apply valid_finite in Hv as [_ Hd].
  destruct (div_core mx my ex ey Hd) as (q & e' & l & Hcore & Hs & Hq & Hk).
  unfold SF64div, SFdiv. rewrite Hcore.
  assert (Hq0 : (0 <= q)%Z).
  { rewrite Hq. apply Z.div_pos; [|lia].
    assert (0 < 2 ^ (ex - ey - e'))%Z by (apply Z.pow_pos_nonneg; lia). lia. }
  destruct (round_aux_shift (xorb sx sy) q e' l Hq0 Hk) as (m1 & _ & _ & ->).
  apply pack_not_nan.
Qed.

Lemma div_not_nan (c t : float) :
  PrimFloat.is_finite c = true -> PrimFloat.is_nan t = false ->
  PrimFloat.is_zero t = false -> PrimFloat.is_nan (c / t) = false.
Proof.
  rewrite is_finite_spec, !is_nan_spec, is_zero_spec, div_spec.
  intros Hc Hn Hz.
  pose proof (SFdiv_not_nan (Prim2SF c) (Prim2SF t) (Prim2SF_valid c) Hc) as H.
  destruct (SF64div (Prim2SF c) (Prim2SF t)); try done.
  exfalso. apply H; [|done]. by destruct (Prim2SF t).
Qed.

Lemma div_of_zero (c t : float) :
  PrimFloat.is_zero c = true -> PrimFloat.is_nan t = false ->
  PrimFloat.is_zero t = false -> PrimFloat.is_zero (c / t) = true.
Proof.
  rewrite !is_zero_spec, is_nan_spec, div_spec.
  by destruct (Prim2SF c) as [[]|[]| |[] ? ?], (Prim2SF t) as [[]|[]| |[] ? ?].
Qed.

Lemma div_by_zero (c t : float) :
  PrimFloat.is_zero t = true -> PrimFloat.is_finite (c / t) = false.
Proof.
  rewrite is_zero_spec, is_finite_spec, div_spec.
  by destruct (Prim2SF c) as [[]|[]| |[] ? ?], (Prim2SF t) as [[]|[]| |[] ? ?].
Qed.

End Binary64Facts.

(* ===================================================================== *)
(** * Properties *)
(* ===================================================================== *)

(** Closed equalities between scores are decided by computation. *)
Ltac by_computation := apply (bool_decide_unpack _); vm_compute; exact I.

(* ===================================================================== *)
(** ** The ensemble weights *)
(* ===================================================================== *)

Module PipelineFacts.
Import Double Pipeline Binary64Facts.

Section Dictionaries.
Context {V : Type}.
Implicit Types (d : PyDict.dict V) (k : string) (v : V).

Lemma dict_set_fresh k v d :
  k ∉ PyDict.keys d -> PyDict.set k v d = d ++ [(k, v)].
Proof.
  induction d as [|[k' v'] d IH]; simpl; [done|].
  intros Hk. apply not_elem_of_cons in Hk as [Hne Hk].
  case_decide; [congruence|]. by rewrite IH.
Qed.

Lemma dict_get_elem k v d :
  NoDup (PyDict.keys d) -> (k, v) ∈ d -> PyDict.get k d = Some v.
Proof.
  induction d as [|[k' v'] d IH]; simpl; [by intros _ ?%elem_of_nil|].
  intros [Hk' Hnd]%NoDup_cons [Heq|Hin]%elem_of_cons.
  - simplify_eq. by rewrite decide_True.
  - case_decide as Hd; [|by apply IH].
    subst k'. exfalso. apply Hk'.
    apply list_elem_of_fmap. by exists (k, v).
Qed.

End Dictionaries.

(** The stores of the loop, one after the other, into a dictionary that has
    none of the names yet. *)
Lemma fold_set_fresh (f : Performance -> float)
    (l : PyDict.dict Performance) (w : PyDict.dict float) :
  NoDup (PyDict.keys l) ->
  (forall k, k ∈ PyDict.keys l -> k ∉ PyDict.keys w) ->
  fold_left (fun w '(name, perf) => PyDict.set name (f perf) w) l w
  = w ++ map (fun '(name, perf) => (name, f perf)) l.
Proof.
  revert w. induction l as [|[k v] l IH]; intros w Hnd Hdisj; simpl.
  - by rewrite app_nil_r.
  - apply NoDup_cons in Hnd as [Hk Hnd].
    rewrite dict_set_fresh by (apply Hdisj; simpl; left).
    rewrite IH; [by rewrite <- app_assoc|done|].
    intros k' Hk'. unfold PyDict.keys. rewrite fmap_app. simpl.
    intros [Hin|Hin%list_elem_of_singleton]%elem_of_app.
    + revert Hin. apply Hdisj. simpl. by right.
    + by subst k'.
Qed.

Section Weights.
Variable p : AdvancedModelPipeline.
Hypothesis distinct_names : NoDup (PyDict.keys (model_performance p)).
Hypothesis no_weights_yet : ensemble_weights p = [].

Lemma ensemble_weights_eq :
  ensemble_weights (create_ensemble_model p)
  = map (fun '(name, perf) => (name, (cv_mean perf / total_cv_score p)%float))
      (model_performance p).
Proof.
  unfold create_ensemble_model. simpl. rewrite no_weights_yet.
  rewrite fold_set_fresh; [done|done|].
  intros k _ Hk. by apply elem_of_nil in Hk.
Qed.

Lemma ensemble_weights_keys :
  PyDict.keys (ensemble_weights (create_ensemble_model p))
  = PyDict.keys (model_performance p).
Proof.
  rewrite ensemble_weights_eq. unfold PyDict.keys.
  generalize (model_performance p). clear distinct_names no_weights_yet.
  intros l. induction l as [|[k v] l IH]; simpl; [done|].
  f_equal. exact IH.
Qed.

Lemma ensemble_weights_values :
  PyDict.values (ensemble_weights (create_ensemble_model p))
  = map (fun c => (c / total_cv_score p)%float)
      (map cv_mean (PyDict.values (model_performance p))).
Proof.
  rewrite ensemble_weights_eq. unfold PyDict.values.
  generalize (model_performance p). clear distinct_names no_weights_yet.
  intros l. induction l as [|[k v] l IH]; simpl; [done|].
  f_equal. exact IH.
Qed.

Lemma ensemble_weight_of (name : string) (perf : Performance) :
  (name, perf) ∈ model_performance p ->
  PyDict.get name (ensemble_weights (create_ensemble_model p))
  = Some (cv_mean perf / total_cv_score p)%float.
Proof.
  intros Hin. apply dict_get_elem.
  - by rewrite ensemble_weights_keys.
  - rewrite ensemble_weights_eq.
    apply list_elem_of_fmap. by exists (name, perf).
Qed.

End Weights.

(** C3, as amended. With distinct candidate names and no weights stored
    before, [create_ensemble_model] gives every candidate the weight
    [cv_mean_i / total], one division of doubles, where [total] is the sum of
    the means of all candidates whatever their sign, added as doubles one
    after the other: no candidate is excluded and there is no uniform
    fall-back. The weight of a finite mean is not NaN when the total is
    neither zero nor NaN, and the weight of a zero mean is then zero; when
    the total is zero no weight is finite. *)
Theorem ensemble_weight_is_share_of_total
    (p : AdvancedModelPipeline) (name : string) (perf : Performance) :
  NoDup (PyDict.keys (model_performance p)) ->
  ensemble_weights p = [] ->
  (name, perf) ∈ model_performance p ->
  let total := total_cv_score p in
  let weight := (cv_mean perf / total)%float in
  PyDict.get name (ensemble_weights (create_ensemble_model p)) = Some weight
  /\ (PrimFloat.is_finite (cv_mean perf) = true ->
      PrimFloat.is_nan total = false -> PrimFloat.is_zero total = false ->
      PrimFloat.is_nan weight = false)
  /\ (PrimFloat.is_zero (cv_mean perf) = true ->
      PrimFloat.is_nan total = false -> PrimFloat.is_zero total = false ->
      PrimFloat.is_zero weight = true)
  /\ (PrimFloat.is_zero total = true -> PrimFloat.is_finite weight = false).
Proof.
  intros Hnd Hfresh Hin total weight.
  split; [by apply ensemble_weight_of|].
  split; [apply div_not_nan|]. split; [apply div_of_zero|apply div_by_zero].
Qed.

Lemma ensemble_weight_is_share_of_total_witness :
  PyDict.get "xgboost" (ensemble_weights (create_ensemble_model three_candidates))
  = Some (0.7 / total_cv_score three_candidates)%float
  /\ PrimFloat.is_nan (0.7 / total_cv_score three_candidates) = false.
Proof.
  destruct (ensemble_weight_is_share_of_total three_candidates "xgboost"
              (mkPerformance (Finite 0) (Finite 0) 0.7%float (Finite 0)))
    as (Hweight & Hnan & _).
  - by_computation.
  - reflexivity.
  - repeat constructor.
  - split; [exact Hweight|]. apply Hnan; reflexivity.
Defined.

(** C3 fails as stated. With cross-validated means 0.5 and -0.25 the
    candidate with the negative mean gets weight -1 (not 0) and the other
    one 2 (not 1); with means -0.25 and -0.75 the weights are 0.25 and 0.75
    (not 1/2 each); with means 0 and 0 both weights are NaN. (With means 1,
    -1 and the smallest positive double the total is not zero and two
    weights are infinite.) *)
Lemma ensemble_weights_counterexample :
  ensemble_weights
    (create_ensemble_model
       (scored [("random_forest", 0.5%float); ("linear_regression", (-0.25)%float)]))
  = [("random_forest", 2%float); ("linear_regression", (-1)%float)]
  /\ ensemble_weights
       (create_ensemble_model
          (scored [("random_forest", (-0.25)%float); ("linear_regression", (-0.75)%float)]))
     = [("random_forest", 0.25%float); ("linear_regression", 0.75%float)]
  /\ ensemble_weights
       (create_ensemble_model
          (scored [("random_forest", 0%float); ("linear_regression", 0%float)]))
     = [("random_forest", nan); ("linear_regression", nan)]
  /\ ensemble_weights
       (create_ensemble_model
          (scored [("random_forest", 1%float); ("xgboost", (-1)%float);
                   ("linear_regression", 0x1p-1074%float)]))
     = [("random_forest", infinity); ("xgboost", neg_infinity);
        ("linear_regression", 1%float)].
Proof. repeat split; vm_compute; reflexivity. Qed.

Lemma tolerance_ulps (cs : list float) :
  (tolerance (length cs) == 8 * (Qlength cs * u52))%Q.
Proof. unfold tolerance, Qlength, u52. ring. Qed.

(** C4, as amended. With distinct candidate names and no weights stored
    before, when no cross-validated mean is negative, every mean is finite,
    at least one is strictly positive and their total has not overflowed,
    the weights are finite and not negative, and they add up to 1 within
    [n * 2^-49] for [n] candidates (at most [2^48] of them): both the sum
    of the weights as numbers and their sum as doubles,
    [sum(self.ensemble_weights.values())]. *)
Theorem ensemble_weights_sum_to_one (p : AdvancedModelPipeline) :
  NoDup (PyDict.keys (model_performance p)) ->
  ensemble_weights p = [] ->
  Forall (fun x => nonneg_finite (cv_mean x) = true)
    (PyDict.values (model_performance p)) ->
  Exists (fun x => (0 <? cv_mean x)%float = true)
    (PyDict.values (model_performance p)) ->
  (total_cv_score p <? infinity)%float = true ->
  (Z.of_nat (length (model_performance p)) <= 2 ^ 48)%Z ->
  let n := length (model_performance p) in
  let weights := PyDict.values (ensemble_weights (create_ensemble_model p)) in
  let s := weight_sum (create_ensemble_model p) in
  Forall (fun w => nonneg_finite w = true) weights
  /\ (1 - tolerance n <= exact_sum weights /\ exact_sum weights <= 1 + tolerance n)%Q
  /\ nonneg_finite s = true
  /\ (1 - tolerance n <= to_Q s /\ to_Q s <= 1 + tolerance n)%Q.
Proof.
  intros Hnd Hfresh Hnonneg Hpos Hfin Hn n weights s.
  set (cs := map cv_mean (PyDict.values (model_performance p))).
  assert (Hlen : length cs = n) by (unfold cs, PyDict.values; by rewrite !length_map, ?length_fmap).
  assert (Hweights : weights = map (fun c => (c / fsum cs)%float) cs)
    by (by apply ensemble_weights_values).
  unfold s, weight_sum. fold weights. rewrite Hweights, <- Hlen, tolerance_ulps.
  apply normalised_weights.
  - unfold cs. by apply Forall_fmap.
  - unfold cs. by apply Exists_fmap.
  - exact Hfin.
  - unfold Qlength, u52. rewrite Hlen.
    assert (inject_Z (Z.of_nat n) <= inject_Z (2 ^ 48))%Q by (by rewrite <- Zle_Qle).
    change (inject_Z (2 ^ 48)) with 281474976710656%Q in H. lra.
Qed.

Lemma ensemble_weights_sum_to_one_witness :
  let s := weight_sum (create_ensemble_model four_candidates) in
  nonneg_finite s = true
  /\ (1 - tolerance 4 <= to_Q s /\ to_Q s <= 1 + tolerance 4)%Q.
Proof.
  refine (proj2 (proj2 (ensemble_weights_sum_to_one four_candidates _ _ _ _ _ _))).
  - by_computation.
  - reflexivity.
  - repeat constructor.
  - constructor. reflexivity.
  - reflexivity.
  - vm_compute. discriminate.
Defined.

(** C4 fails as stated. With cross-validated means -0.99, 0.91 and 0.08
    two candidates have a strictly positive mean, the total as a double is
    positive (about 4.2e-17) and the weights add up to -0.25; with means
    0.5 and -0.5 the total is 0, the weights are +inf and -inf and their
    sum is NaN. *)
Lemma ensemble_weights_sum_counterexample :
  (0 <? 0.91)%float = true
  /\ (0 <? total_cv_score cancelling_candidates)%float = true
  /\ weight_sum (create_ensemble_model cancelling_candidates) = (-0.25)%float
  /\ let p := scored [("random_forest", 0.5%float); ("linear_regression", (-0.5)%float)] in
     ensemble_weights (create_ensemble_model p)
     = [("random_forest", infinity); ("linear_regression", neg_infinity)]
     /\ weight_sum (create_ensemble_model p) = nan.
Proof. repeat split; vm_compute; reflexivity. Qed.

End PipelineFacts.

(* ===================================================================== *)
(** ** The retrainer: rules for reading runs *)
(* ===================================================================== *)

Module RetrainFacts.
Import Retrain.

(** *** File names *)

(** Two names that differ within their fixed prefixes. *)
Ltac distinct_names :=
  let H := fresh in
  intros H;
  unfold retrained_filename, backup_name, report_filename, PRODUCTION_MODEL,
    TRAINING_LOG, TEMP_EVAL_DATA, RETRAINING_DATA in H;
  cbn [String.append] in H; discriminate H.

Lemma production_not_working : ~ working_file PRODUCTION_MODEL.
Proof.
  intros [H|[H|[H|[[t H]|[t H]]]]]; revert H; distinct_names.
Qed.

Lemma backup_not_working (t : datetime) : ~ working_file (backup_name t).
Proof.
  intros [H|[H|[H|[[t' H]|[t' H]]]]]; revert H; distinct_names.
Qed.

Lemma backup_not_production (t : datetime) : backup_name t <> PRODUCTION_MODEL.
Proof. distinct_names. Qed.

Lemma retrained_not_production (t : datetime) :
  retrained_filename t <> PRODUCTION_MODEL.
Proof. distinct_names. Qed.

Lemma retrained_not_backup (t t' : datetime) :
  retrained_filename t <> backup_name t'.
Proof. distinct_names. Qed.

Lemma retrained_not_temp (t : datetime) : retrained_filename t <> TEMP_EVAL_DATA.
Proof. distinct_names. Qed.

Lemma report_not_retraining_data (t : datetime) :
  report_filename t <> RETRAINING_DATA.
Proof. distinct_names. Qed.

Lemma report_not_training_log (t : datetime) : report_filename t <> TRAINING_LOG.
Proof. distinct_names. Qed.

(** *** [unchanged_outside] is a preorder *)

Lemma unchanged_refl (P : string -> Prop) (w : World) : unchanged_outside P w w.
Proof. by intros p _. Qed.

Lemma unchanged_trans (P : string -> Prop) (w1 w2 w3 : World) :
  unchanged_outside P w1 w2 -> unchanged_outside P w2 w3 ->
  unchanged_outside P w1 w3.
Proof. intros H12 H23 p Hp. by rewrite H23, H12. Qed.

Lemma unchanged_weaken (P P' : string -> Prop) (w w' : World) :
  (forall p, P p -> P' p) -> unchanged_outside P w w' -> unchanged_outside P' w w'.
Proof. intros HP H p Hp. apply H. intros HPp. by apply Hp, HP. Qed.

Lemma unchanged_same_fs (P : string -> Prop) (w w' : World) :
  fs w' = fs w -> unchanged_outside P w w'.
Proof. intros Heq p _. by rewrite Heq. Qed.

(** *** Rules for [confined] *)

Section Confined.
Context (env : Env) (P : string -> Prop) (Q : Msg -> Prop).

Lemma confined_weaken {A} (P' : string -> Prop) (Q' : Msg -> Prop) (m : M A) :
  (forall p, P' p -> P p) -> (forall x, Q' x -> Q x) ->
  confined P' Q' m -> confined P Q m.
Proof.
  intros HP HQ Hm w. destruct (Hm w) as [Hfs Hlog]. split.
  - by eapply unchanged_weaken.
  - by eapply Forall_impl.
Qed.

Lemma confined_ret {A} (a : A) : confined P Q (ret a).
Proof. intros w. split; [apply unchanged_refl|constructor]. Qed.

Lemma confined_raise {A} (e : Exn) : confined P Q (@raise A e).
Proof. intros w. split; [apply unchanged_refl|constructor]. Qed.

Lemma confined_bind {A B} (m : M A) (k : A -> M B) :
  confined P Q m -> (forall a, confined P Q (k a)) -> confined P Q (bind m k).
Proof.
  intros Hm Hk w. unfold bind. destruct (Hm w) as [Hfs Hlog].
  destruct (result (m w)) as [a|e]; [|done].
  destruct (Hk a (final (m w))) as [Hfs' Hlog']. simpl. split.
  - by eapply unchanged_trans.
  - by apply Forall_app.
Qed.

Lemma confined_try_except {A} (m : M A) (h : Exn -> M A) :
  confined P Q m -> (forall e, confined P Q (h e)) ->
  confined P Q (try_except m h).
Proof.
  intros Hm Hh w. unfold try_except. destruct (Hm w) as [Hfs Hlog].
  destruct (result (m w)) as [a|e]; [done|].
  destruct (Hh e (final (m w))) as [Hfs' Hlog']. simpl. split.
  - by eapply unchanged_trans.
  - by apply Forall_app.
Qed.

Lemma confined_try_bind {A B} (m : M A) (h : Exn -> M B) (k : A -> M B) :
  confined P Q m -> (forall e, confined P Q (h e)) ->
  (forall a, confined P Q (k a)) -> confined P Q (try_bind m h k).
Proof.
  intros Hm Hh Hk w. unfold try_bind. destruct (Hm w) as [Hfs Hlog].
  destruct (result (m w)) as [a|e].
  - destruct (Hk a (final (m w))) as [Hfs' Hlog']. simpl. split.
    + by eapply unchanged_trans.
    + by apply Forall_app.
  - destruct (Hh e (final (m w))) as [Hfs' Hlog']. simpl. split.
    + by eapply unchanged_trans.
    + by apply Forall_app.
Qed.

Lemma confined_logging (msg : Msg) : Q msg -> confined P Q (logging msg).
Proof. intros HQ w. split; [apply unchanged_refl|by repeat constructor]. Qed.

Lemma confined_get_fs : confined P Q get_fs.
Proof. intros w. split; [apply unchanged_refl|constructor]. Qed.

Lemma confined_get_db : confined P Q get_db.
Proof. intros w. split; [apply unchanged_refl|constructor]. Qed.

Lemma confined_now : confined P Q (now env).
Proof. intros w. split; [by apply unchanged_same_fs|constructor]. Qed.

Lemma confined_attempt (s : Step) : confined P Q (attempt env s).
Proof. intros w. split; [by apply unchanged_same_fs|constructor]. Qed.

Lemma confined_import (csv_file : string) :
  confined P Q (import_csv_data env csv_file).
Proof. intros w. split; [by apply unchanged_same_fs|constructor]. Qed.

Lemma confined_exists (path : string) : confined P Q (os_path_exists path).
Proof. intros w. split; [apply unchanged_refl|constructor]. Qed.

Lemma confined_read_file (path : string) : confined P Q (read_file env path).
Proof.
  intros w. unfold read_file, bind, attempt, get_fs. simpl.
  destruct (fails env _ _); simpl; [split; [by apply unchanged_same_fs|constructor]|].
  destruct (fs w !! path); simpl; (split; [by apply unchanged_same_fs|constructor]).
Qed.

Lemma confined_write_file (path : string) (content : File) :
  P path -> confined P Q (write_file env path content).
Proof.
  intros HP w. unfold write_file, bind, attempt, get_fs, put_fs. simpl.
  destruct (fails env (OpenWrite path) _); simpl;
    [split; [by apply unchanged_same_fs|constructor]|].
  destruct (fails env (Dump path) _); simpl; (split; [|constructor]);
    intros p Hp; simpl; rewrite ?lookup_insert_ne; try done; by intros ->.
Qed.

Lemma confined_remove (path : string) :
  P path -> confined P Q (os_remove env path).
Proof.
  intros HP w. unfold os_remove, bind, attempt, get_fs, put_fs. simpl.
  destruct (fails env _ _); simpl; [split; [by apply unchanged_same_fs|constructor]|].
  destruct (fs w !! path); simpl; (split; [|constructor]).
  - intros p Hp. simpl. apply lookup_delete_ne. by intros ->.
  - by apply unchanged_same_fs.
Qed.

Lemma confined_rename (src dst : string) :
  P src -> P dst -> confined P Q (os_rename env src dst).
Proof.
  intros Hsrc Hdst w. unfold os_rename, bind, attempt, get_fs, put_fs. simpl.
  destruct (fails env _ _); simpl; [split; [by apply unchanged_same_fs|constructor]|].
  destruct (fs w !! src); simpl; (split; [|constructor]).
  - intros p Hp. simpl.
    rewrite lookup_insert_ne by (by intros ->).
    apply lookup_delete_ne. by intros ->.
  - by apply unchanged_same_fs.
Qed.

End Confined.

(** *** Rules for [never_raises] *)

Lemma never_raises_ret {A} (a : A) : never_raises (ret a).
Proof. intros w. by exists a. Qed.

Lemma never_raises_logging (msg : Msg) : never_raises (logging msg).
Proof. intros w. by exists tt. Qed.

Lemma never_raises_bind {A B} (m : M A) (k : A -> M B) :
  never_raises m -> (forall a, never_raises (k a)) -> never_raises (bind m k).
Proof.
  intros Hm Hk w. unfold bind. destruct (Hm w) as [a ->].
  destruct (Hk a (final (m w))) as [b Hb]. exists b. exact Hb.
Qed.

Lemma never_raises_try_except {A} (m : M A) (h : Exn -> M A) :
  (forall e, never_raises (h e)) -> never_raises (try_except m h).
Proof.
  intros Hh w. unfold try_except. destruct (result (m w)) as [a|e] eqn:E.
  - by exists a.
  - destruct (Hh e (final (m w))) as [a Ha]. exists a. exact Ha.
Qed.

Lemma never_raises_try_bind {A B} (m : M A) (h : Exn -> M B) (k : A -> M B) :
  (forall e, never_raises (h e)) -> (forall a, never_raises (k a)) ->
  never_raises (try_bind m h k).
Proof.
  intros Hh Hk w. unfold try_bind. destruct (result (m w)) as [a|e] eqn:E.
  - destruct (Hk a (final (m w))) as [b Hb]. exists b. exact Hb.
  - destruct (Hh e (final (m w))) as [b Hb]. exists b. exact Hb.
Qed.

(** *** Automation *)

(** One step through a program whose parts are [confined]. The side
    conditions on paths and messages are left to [confined_side]. *)
Ltac confined_side :=
  first
    [ exact I
    | assumption
    | solve [unfold working_file; eauto 10]
    | solve [simpl; tauto]
    | solve [auto]
    | match goal with
      | H : forall p, working_file p -> _ |- _ =>
          apply H; unfold working_file; solve [eauto 10]
      | H : forall msg, ~ verdict msg -> _ |- _ => apply H; solve [intros []]
      end ].

Ltac confined_step :=
  lazymatch goal with
  | |- confined _ _ (bind _ _) => apply confined_bind; [|intros ?]
  | |- confined _ _ (try_except _ _) => apply confined_try_except; [|intros ?]
  | |- confined _ _ (try_bind _ _ _) =>
      apply confined_try_bind; [|intros ?|intros ?]
  | |- confined _ _ (ret _) => apply confined_ret
  | |- confined _ _ (raise _) => apply confined_raise
  | |- confined _ _ (logging _) => apply confined_logging; confined_side
  | |- confined _ _ get_fs => apply confined_get_fs
  | |- confined _ _ get_db => apply confined_get_db
  | |- confined _ _ (now _) => apply confined_now
  | |- confined _ _ (attempt _ _) => apply confined_attempt
  | |- confined _ _ (os_path_exists _) => apply confined_exists
  | |- confined _ _ (import_csv_data _ _) => apply confined_import
  | |- confined _ _ (read_file _ _) => apply confined_read_file
  | |- confined _ _ (write_file _ _ _) =>
      apply confined_write_file; confined_side
  | |- confined _ _ (os_remove _ _) => apply confined_remove; confined_side
  | |- confined _ _ (os_rename _ _ _) =>
      apply confined_rename; confined_side
  | |- confined _ _ (match ?x with _ => _ end) => destruct x
  end.

Ltac confined_auto := repeat confined_step.

Section Routine.
Context (env : Env) (P : string -> Prop) (Q : Msg -> Prop).
Hypothesis routine : forall msg, ~ verdict msg -> Q msg.

Lemma pickle_load_confined (path : string) :
  confined P Q (pickle_load env path).
Proof. unfold pickle_load. confined_auto. Qed.

Lemma json_load_log_confined (path : string) :
  confined P Q (json_load_log env path).
Proof. unfold json_load_log. confined_auto. Qed.

Lemma read_csv_confined (path : string) : confined P Q (read_csv env path).
Proof. unfold read_csv. confined_auto. Qed.

Lemma get_equipment_data_confined : confined P Q (get_equipment_data env).
Proof. unfold get_equipment_data. confined_auto. Qed.

Lemma export_confined (output_file : string) :
  P output_file -> confined P Q (export_data_for_ml env output_file).
Proof.
  intros HP. unfold export_data_for_ml. confined_auto.
Qed.

Lemma get_last_training_date_confined :
  confined P Q (_get_last_training_date env).
Proof.
  unfold _get_last_training_date. confined_auto.
  apply json_load_log_confined.
Qed.

Lemma count_new_data_points_confined (since_date : option datetime) :
  confined P Q (_count_new_data_points env since_date).
Proof.
  unfold _count_new_data_points. confined_auto.
  apply get_equipment_data_confined.
Qed.

Lemma evaluate_confined :
  P TEMP_EVAL_DATA -> confined P Q (_evaluate_current_model env).
Proof.
  intros HP. unfold _evaluate_current_model.
  apply confined_try_except.
  - apply confined_bind; [apply confined_exists|intros present].
    destruct (negb present); [apply confined_ret|].
    apply confined_bind; [apply pickle_load_confined|intros model_system].
    apply confined_bind; [by apply export_confined|intros ml_data].
    destruct (_ || _); [apply confined_ret|].
    confined_auto.
  - intros e. confined_auto.
Qed.

Lemma check_retraining_criteria_confined :
  P TEMP_EVAL_DATA -> (forall e, Q (ErrCriteria e)) ->
  confined P Q (check_retraining_criteria env).
Proof.
  intros HP HQ. unfold check_retraining_criteria, criteria_check_failed.
  apply confined_try_bind.
  - apply get_last_training_date_confined.
  - intros e. confined_auto.
  - intros last_training_date. apply confined_try_bind.
    + confined_auto.
    + intros e. confined_auto.
    + intros criteria. apply confined_try_bind.
      * apply count_new_data_points_confined.
      * intros e. confined_auto.
      * intros n. apply confined_try_bind.
        -- by apply evaluate_confined.
        -- intros e. confined_auto.
        -- intros cur. apply confined_ret.
Qed.

End Routine.

Section Blocks.
Context (env : Env) (P : string -> Prop) (Q : Msg -> Prop).
Hypothesis routine : forall msg, ~ verdict msg -> Q msg.

Lemma ensure_confined : confined P Q (_ensure_database_has_data env).
Proof.
  unfold _ensure_database_has_data. apply confined_try_except.
  - apply confined_bind; [by apply get_equipment_data_confined|intros df].
    confined_auto.
  - intros e. confined_auto.
Qed.

Lemma load_first_suitable_confined (csv_files : list string) :
  confined P Q (load_first_suitable env csv_files).
Proof.
  induction csv_files as [|csv_file rest IH]; simpl; [confined_auto|].
  apply confined_bind; [apply confined_exists|intros present].
  destruct present; [|exact IH].
  apply confined_bind; [confined_auto|intros _].
  apply confined_bind; [by apply read_csv_confined|intros df].
  destruct (_ || _).
  - confined_auto.
  - apply confined_bind; [confined_auto|intros _]. exact IH.
Qed.

Lemma load_training_data_confined :
  confined P Q (_load_training_data_from_csv env).
Proof.
  unfold _load_training_data_from_csv. apply confined_try_except.
  - apply load_first_suitable_confined.
  - intros e. confined_auto.
Qed.

Lemma update_training_log_confined (performance : pyfloat) (n : nat) :
  P TRAINING_LOG -> confined P Q (_update_training_log env performance n).
Proof. intros HP. unfold _update_training_log. confined_auto. Qed.

Lemma generate_report_confined (ms : ModelSystem) (n : nat) (r : pyfloat) :
  (forall t, P (report_filename t)) -> (forall f, Q (ReportSaved f)) ->
  confined P Q (_generate_retraining_report env ms n r).
Proof. intros HP HQ. unfold _generate_retraining_report. confined_auto. Qed.

Lemma record_cycle_confined (c : Candidate) :
  P TRAINING_LOG -> (forall t, P (report_filename t)) -> P RETRAINING_DATA ->
  (forall f, Q (ReportSaved f)) -> confined P Q (record_cycle env c).
Proof.
  intros HP1 HP2 HP3 HQ. unfold record_cycle.
  apply confined_bind; [by apply update_training_log_confined|intros _].
  apply confined_bind; [by apply generate_report_confined|intros _].
  confined_auto.
Qed.

Lemma train_candidate_confined :
  P RETRAINING_DATA -> (forall t, P (retrained_filename t)) ->
  Q NoTrainingData -> Q TargetMissing -> confined P Q (train_candidate env).
Proof.
  intros HP1 HP2 HQ1 HQ2. unfold train_candidate.
  apply confined_bind; [confined_auto|intros _].
  apply confined_bind; [apply ensure_confined|intros _].
  apply confined_bind; [by apply export_confined|intros df].
  apply confined_bind.
  { destruct (df_empty df); [|apply confined_ret].
    apply confined_bind; [confined_auto|intros _].
    apply load_training_data_confined. }
  intros training_data.
  destruct (df_empty training_data); [confined_auto|].
  apply confined_bind; [confined_auto|intros _].
  destruct (negb _); [confined_auto|].
  confined_auto.
Qed.

Lemma promote_confined (retrained : string) (r2 : pyfloat) :
  P TEMP_EVAL_DATA -> P retrained -> P PRODUCTION_MODEL ->
  (forall t, P (backup_name t)) ->
  (forall b, Q (BackedUp b)) -> Q Promoted -> Q KeptCurrent ->
  confined P Q (promote_if_better env retrained r2).
Proof.
  intros HP0 HP1 HP2 HP3 HQ1 HQ2 HQ3. unfold promote_if_better.
  apply confined_bind; [by apply evaluate_confined|intros cur].
  destruct (match cur with Some _ => _ | None => _ end); confined_auto.
Qed.

End Blocks.


(** *** Functions that return whatever happens *)

Lemma get_last_training_date_returns (env : Env) :
  never_raises (_get_last_training_date env).
Proof.
  apply never_raises_try_except. intros _. apply never_raises_ret.
Qed.

Lemma evaluate_returns (env : Env) : never_raises (_evaluate_current_model env).
Proof.
  apply never_raises_try_except. intros e.
  apply never_raises_bind; [apply never_raises_logging|intros _].
  apply never_raises_ret.
Qed.

Lemma ensure_returns (env : Env) : never_raises (_ensure_database_has_data env).
Proof. apply never_raises_try_except. intros e. apply never_raises_logging. Qed.

Lemma load_training_data_returns (env : Env) :
  never_raises (_load_training_data_from_csv env).
Proof.
  apply never_raises_try_except. intros e.
  apply never_raises_bind; [apply never_raises_logging|intros _].
  apply never_raises_ret.
Qed.

Lemma criteria_check_failed_returns (c : Criteria) (e : Exn) :
  never_raises (criteria_check_failed c e).
Proof.
  apply never_raises_bind; [apply never_raises_logging|intros _].
  apply never_raises_ret.
Qed.

Lemma check_retraining_criteria_returns (env : Env) :
  never_raises (check_retraining_criteria env).
Proof.
  unfold check_retraining_criteria.
  repeat (apply never_raises_try_bind;
          [intros e; apply criteria_check_failed_returns|intros ?]).
  apply never_raises_ret.
Qed.

Lemma retrain_model_returns (env : Env) : never_raises (retrain_model env).
Proof.
  apply never_raises_try_except. intros e.
  apply never_raises_bind; [apply never_raises_logging|intros _].
  apply never_raises_ret.
Qed.




(** *** The log of lines 214-294 *)

Lemma candidate_bind {A} (P : string -> Prop) (m : M A)
    (k : A -> M (option Candidate)) :
  confined P (fun msg => ~ verdict msg) m ->
  (forall a w, candidate_outcome (k a w)) ->
  forall w, candidate_outcome (bind m k w).
Proof.
  intros Hm Hk w. unfold bind. destruct (Hm w) as [_ Hq].
  destruct (result (m w)) as [a|e]; [|exact Hq].
  specialize (Hk a (final (m w))). revert Hk.
  unfold candidate_outcome, and_then. simpl.
  destruct (result (k a (final (m w)))) as [[c|]|e].
  - intros [Hq' Ht]. split; [by apply Forall_app|done].
  - intros [H|H]; [left|right]; apply elem_of_app; by right.
  - intros Hq'. by apply Forall_app.
Qed.

Ltac candidate_step x :=
  apply (candidate_bind (fun _ => True)); [|intros x].

Lemma train_candidate_outcome (env : Env) (w : World) :
  candidate_outcome (train_candidate env w).
Proof.
  revert w. unfold train_candidate.
  candidate_step u; [confined_auto|].
  candidate_step u'; [by apply ensure_confined|].
  candidate_step exported; [by apply export_confined|].
  candidate_step training_data.
  { destruct (df_empty exported); [|apply confined_ret].
    apply confined_bind; [confined_auto|intros _].
    by apply load_training_data_confined. }
  destruct (df_empty training_data).
  { intros w. unfold candidate_outcome. simpl. left. set_solver. }
  candidate_step u''; [confined_auto|].
  destruct (negb _).
  { intros w. unfold candidate_outcome. simpl. right. set_solver. }
  do 2 (candidate_step ipattern:(_); [confined_auto|]).
  candidate_step fitted; [confined_auto|].
  candidate_step ipattern:(_); [confined_auto|].
  candidate_step t; [confined_auto|].
  candidate_step t'; [confined_auto|].
  do 2 (candidate_step ipattern:(_); [confined_auto|]).
  intros w. unfold candidate_outcome. simpl. split; [constructor|eauto].
Qed.

(** *** Following a run step by step *)

Section Ends.
Context (env : Env).

Lemma ends_ret {A} (a : A) w Φ : Φ (Ok a) w [] -> ends (ret a) w Φ.
Proof. done. Qed.

Lemma ends_raise {A} (e : Exn) w (Φ : Res A -> _) :
  Φ (Raise e) w [] -> ends (raise e) w Φ.
Proof. done. Qed.

Lemma ends_logging (msg : Msg) w Φ : Φ (Ok tt) w [msg] -> ends (logging msg) w Φ.
Proof. done. Qed.

Lemma ends_now w Φ :
  Φ (Ok (clock env (ticks w))) (tick w) [] -> ends (now env) w Φ.
Proof. done. Qed.

Lemma ends_exists (path : string) w Φ :
  Φ (Ok (bool_decide (is_Some (fs w !! path)))) w [] ->
  ends (os_path_exists path) w Φ.
Proof. done. Qed.

Lemma ends_get_db w Φ : Φ (Ok (db w)) w [] -> ends get_db w Φ.
Proof. done. Qed.

Lemma ends_attempt (s : Step) w Φ :
  (fails env s (ticks w) = true -> Φ (Raise (IOFailure s)) (tick w) []) ->
  (fails env s (ticks w) = false -> Φ (Ok tt) (tick w) []) ->
  ends (attempt env s) w Φ.
Proof.
  intros Hfail Hok. unfold ends, attempt. simpl.
  destruct (fails env s (ticks w)); auto.
Qed.

Lemma ends_bind {A B} (m : M A) (k : A -> M B) w Φ :
  ends m w (fun r w1 l1 =>
    match r with
    | Ok a => ends (k a) w1 (fun r' w2 l2 => Φ r' w2 (l1 ++ l2))
    | Raise e => Φ (Raise e) w1 l1
    end) ->
  ends (bind m k) w Φ.
Proof.
  unfold ends, bind. destruct (result (m w)) as [a|e]; simpl; auto.
Qed.

Lemma ends_try_except {A} (m : M A) (h : Exn -> M A) w Φ :
  ends m w (fun r w1 l1 =>
    match r with
    | Ok a => Φ (Ok a) w1 l1
    | Raise e => ends (h e) w1 (fun r' w2 l2 => Φ r' w2 (l1 ++ l2))
    end) ->
  ends (try_except m h) w Φ.
Proof.
  unfold ends, try_except. destruct (result (m w)) as [a|e] eqn:E; simpl; auto.
  by rewrite E.
Qed.

Lemma ends_try_bind {A B} (m : M A) (h : Exn -> M B) (k : A -> M B) w Φ :
  ends m w (fun r w1 l1 =>
    match r with
    | Ok a => ends (k a) w1 (fun r' w2 l2 => Φ r' w2 (l1 ++ l2))
    | Raise e => ends (h e) w1 (fun r' w2 l2 => Φ r' w2 (l1 ++ l2))
    end) ->
  ends (try_bind m h k) w Φ.
Proof.
  unfold ends, try_bind. destruct (result (m w)) as [a|e]; simpl; auto.
Qed.

Lemma ends_rename (src dst : string) w Φ :
  (fails env (Rename src dst) (ticks w) = true ->
   Φ (Raise (IOFailure (Rename src dst))) (tick w) []) ->
  (fs w !! src = None -> Φ (Raise (FileNotFound src)) (tick w) []) ->
  (forall content, fs w !! src = Some content ->
     fails env (Rename src dst) (ticks w) = false ->
     Φ (Ok tt) (with_fs (<[dst := content]> (delete src (fs w))) (tick w)) []) ->
  ends (os_rename env src dst) w Φ.
Proof.
  intros Hfail Hnone Hok. unfold ends, os_rename, bind, attempt, get_fs, put_fs.
  simpl. destruct (fails env _ _) eqn:E; simpl; [by apply Hfail|].
  destruct (fs w !! src) eqn:E'; simpl; [by apply Hok|by apply Hnone].
Qed.

Lemma ends_remove (path : string) w Φ :
  (fails env (Remove path) (ticks w) = true ->
   Φ (Raise (IOFailure (Remove path))) (tick w) []) ->
  (fs w !! path = None -> Φ (Raise (FileNotFound path)) (tick w) []) ->
  (is_Some (fs w !! path) ->
     Φ (Ok tt) (with_fs (delete path (fs w)) (tick w)) []) ->
  ends (os_remove env path) w Φ.
Proof.
  intros Hfail Hnone Hok. unfold ends, os_remove, bind, attempt, get_fs, put_fs.
  simpl. destruct (fails env _ _) eqn:E; simpl; [by apply Hfail|].
  destruct (fs w !! path) eqn:E'; simpl; [by apply Hok|by apply Hnone].
Qed.

Lemma ends_write_file (path : string) (content : File) w Φ :
  (Φ (Raise (IOFailure (OpenWrite path))) (tick w) []) ->
  (Φ (Raise (IOFailure (Dump path)))
     (tick (with_fs (<[path := Unreadable ""]> (fs w)) (tick w))) []) ->
  (Φ (Ok tt)
     (with_fs (<[path := content]> (<[path := Unreadable ""]> (fs w)))
        (tick (tick w))) []) ->
  ends (write_file env path content) w Φ.
Proof.
  intros Hopen Hdump Hok. unfold ends, write_file, bind, attempt, get_fs, put_fs.
  simpl. destruct (fails env (OpenWrite path) _); simpl; [done|].
  destruct (fails env (Dump path) _); simpl; done.
Qed.

Lemma ends_read_file (path : string) w Φ :
  (fails env (OpenRead path) (ticks w) = true ->
   Φ (Raise (IOFailure (OpenRead path))) (tick w) []) ->
  (fs w !! path = None -> Φ (Raise (FileNotFound path)) (tick w) []) ->
  (forall content, fs w !! path = Some content ->
     fails env (OpenRead path) (ticks w) = false ->
     Φ (Ok content) (tick w) []) ->
  ends (read_file env path) w Φ.
Proof.
  intros Hfail Hnone Hok. unfold ends, read_file, bind, attempt, get_fs.
  simpl. destruct (fails env _ _) eqn:E; simpl; [by apply Hfail|].
  destruct (fs w !! path) eqn:E'; simpl; [by apply Hok|by apply Hnone].
Qed.

(** A part of which only a summary is known. *)
Lemma ends_confined {A} (P : string -> Prop) (Q : Msg -> Prop) (m : M A) w Φ :
  confined P Q m ->
  (forall r w1 l1, unchanged_outside P w w1 -> Forall Q l1 -> Φ r w1 l1) ->
  ends m w Φ.
Proof. intros Hm HΦ. destruct (Hm w). by apply HΦ. Qed.

Lemma ends_returns {A} (P : string -> Prop) (Q : Msg -> Prop) (m : M A) w Φ :
  never_raises m -> confined P Q m ->
  (forall a w1 l1, unchanged_outside P w w1 -> Forall Q l1 -> Φ (Ok a) w1 l1) ->
  ends m w Φ.
Proof.
  intros Hr Hm HΦ. destruct (Hm w). destruct (Hr w) as [a Ha].
  unfold ends. rewrite Ha. by apply HΦ.
Qed.

Lemma ends_evaluate w Φ :
  (forall cur w1 l1,
     result (_evaluate_current_model env w) = Ok cur ->
     unchanged_outside (fun p => p = TEMP_EVAL_DATA) w w1 -> quiet l1 ->
     Φ (Ok cur) w1 l1) ->
  ends (_evaluate_current_model env) w Φ.
Proof.
  intros HΦ. destruct (evaluate_returns env w) as [cur Hcur].
  unfold ends. rewrite Hcur. apply HΦ; [done| |].
  - by apply (evaluate_confined env _ (fun msg => ~ verdict msg)).
  - by apply (evaluate_confined env (fun p => p = TEMP_EVAL_DATA)
                (fun msg => ~ verdict msg)).
Qed.

(** What is known of a run can be used for what is asked of it. *)
Lemma ends_known {A} (m : M A) w (Ψ Φ : Res A -> World -> list Msg -> Prop) :
  ends m w Ψ -> (forall r w1 l1, Ψ r w1 l1 -> Φ r w1 l1) -> ends m w Φ.
Proof. intros HΨ H. by apply H. Qed.

End Ends.

(** Unfolds a sequence of primitive operations, leaving one goal per way
    the run can go. *)
Ltac ends_step :=
  lazymatch goal with
  | |- ends (bind _ _) _ _ => apply ends_bind
  | |- ends (try_except _ _) _ _ => apply ends_try_except
  | |- ends (try_bind _ _ _) _ _ => apply ends_try_bind
  | |- ends (ret _) _ _ => apply ends_ret
  | |- ends (raise _) _ _ => apply ends_raise
  | |- ends (logging _) _ _ => apply ends_logging
  | |- ends (now _) _ _ => apply ends_now
  | |- ends (os_path_exists _) _ _ => apply ends_exists
  | |- ends get_db _ _ => apply ends_get_db
  | |- ends (attempt _ _) _ _ => apply ends_attempt; intros ?
  | |- ends (os_rename _ _ _) _ _ =>
      apply ends_rename; [intros ?|intros ?|intros ? ? ?]
  | |- ends (os_remove _ _) _ _ =>
      apply ends_remove; [intros ?|intros ?|intros ?]
  | |- ends (write_file _ _ _) _ _ => apply ends_write_file
  | |- ends (read_file _ _) _ _ =>
      apply ends_read_file; [intros ?|intros ?|intros ? ? ?]
  | |- ends (_evaluate_current_model _) _ _ =>
      apply ends_evaluate; intros ? ? ? ? ? ?
  | |- ends (match ?x with _ => _ end) _ _ => destruct x eqn:?
  end; cbv beta iota.

Lemma quiet_no_verdict (l : list Msg) (msg : Msg) :
  quiet l -> msg ∈ l -> ~ verdict msg.
Proof. intros Hq Hin. unfold quiet in Hq. rewrite Forall_forall in Hq. auto. Qed.

Lemma Forall_elem (Q : Msg -> Prop) (l : list Msg) (msg : Msg) :
  Forall Q l -> msg ∈ l -> Q msg.
Proof. intros Hq Hin. rewrite Forall_forall in Hq. auto. Qed.

(** Splits a hypothesis [msg ∈ l1 ++ [..] ++ ..] into its cases and drops
    those that name another message or contradict what is known of a
    log. *)
Ltac log_cases H :=
  repeat first
    [ apply elem_of_app in H as [H|H]
    | apply elem_of_cons in H as [H|H]
    | apply elem_of_nil in H; destruct H ];
  try discriminate H;
  try (exfalso;
       match type of H with
       | _ ∈ ?l =>
           match goal with
           | Hq : quiet l |- _ => exact (quiet_no_verdict _ _ Hq H I)
           | Hq : Forall _ l |- _ => exact (Forall_elem _ _ _ Hq H)
           end
       end).

(** *** The promotion, lines 296-309 *)

Lemma lookup_unchanged (P : string -> Prop) (w w' : World) (p : string) :
  unchanged_outside P w w' -> ~ P p -> fs w' !! p = fs w !! p.
Proof. intros H Hp. by apply H. Qed.

Lemma promote_kept (env : Env) (f : string) (r2 : pyfloat) (w : World) :
  ends (promote_if_better env f r2) w (fun r w' l =>
    KeptCurrent ∈ l ->
    r = Ok tt /\ unchanged_outside (fun p => p = TEMP_EVAL_DATA) w w'
    /\ (Promoted ∉ l) /\ (forall b, BackedUp b ∉ l)).
Proof.
  unfold promote_if_better.
  repeat ends_step; intros Hin; log_cases Hin.
  repeat split; [done|..].
  - intros Hin'. log_cases Hin'.
  - intros b Hin'. log_cases Hin'.
Qed.

Lemma promote_completed (env : Env) (f : string) (r2 : pyfloat) (w : World) :
  ends (promote_if_better env f r2) w (fun r w' l =>
    r = Ok tt -> Promoted ∈ l \/ KeptCurrent ∈ l).
Proof.
  unfold promote_if_better.
  repeat ends_step; intros Hr; try discriminate Hr; set_solver.
Qed.

Lemma promote_half_done (env : Env) (f : string) (r2 : pyfloat) (w : World) :
  ends (promote_if_better env f r2) w (fun r w' l =>
    forall b, BackedUp b ∈ l -> Promoted ∉ l ->
    (exists e, r = Raise e)
    /\ fs w' !! PRODUCTION_MODEL = None
    /\ is_Some (fs w !! PRODUCTION_MODEL)
    /\ fs w' !! b = fs w !! PRODUCTION_MODEL).
Proof.
  unfold promote_if_better.
  repeat ends_step; intros b Hin Hnot; log_cases Hin.
  all: try (exfalso; apply Hnot; set_solver).
  all: injection Hin as ->; simpl in *.
  all: assert (Hprod : fs w1 !! PRODUCTION_MODEL = fs w !! PRODUCTION_MODEL)
         by (apply (lookup_unchanged _ _ _ _ H0); distinct_names).
  all: rewrite <- Hprod, H2.
  all: rewrite lookup_insert_ne by apply backup_not_production.
  all: rewrite lookup_delete_eq, lookup_insert_eq; eauto.
Qed.

(** *** Training log, report and clean-up, lines 311-321 *)

Lemma record_cycle_report (env : Env) (c : Candidate) (w : World) :
  ends (record_cycle env c) w (fun r w' l =>
    r = Ok tt ->
    exists t report,
      fs w' !! report_filename t = Some (ReportJson report)
      /\ status report = "completed_successfully"
      /\ ReportSaved (report_filename t) ∈ l).
Proof.
  unfold record_cycle, _update_training_log, _generate_retraining_report.
  repeat ends_step; intros Hr; try discriminate Hr.
  all: eexists _, _; split.
  - simpl.
    rewrite lookup_delete_ne by (apply not_eq_sym, report_not_retraining_data).
    apply lookup_insert_eq.
  - split; [reflexivity|set_solver].
  - simpl. apply lookup_insert_eq.
  - split; [reflexivity|set_solver].
Qed.

(** *** The blocks of [retrain_model], summarised *)

Lemma train_candidate_summary (env : Env) (w : World) :
  ends (train_candidate env) w (fun r w' l =>
    unchanged_outside candidate_file w w'
    /\ Forall candidate_only l
    /\ candidate_outcome (mkOutcome r w' l)).
Proof.
  assert (Hc : confined candidate_file candidate_only (train_candidate env)).
  { apply train_candidate_confined; unfold candidate_file; eauto; try done.
    intros msg Hv. by destruct msg; try done; destruct Hv. }
  split; [apply Hc|]. split; [apply Hc|]. apply train_candidate_outcome.
Qed.

(** *** The three blocks of a run, summarised *)


Ltac log_in := rewrite ?elem_of_app, ?elem_of_cons, ?elem_of_nil in *; tauto.

Lemma promote_summary (env : Env) (f : string) (r2 : pyfloat) (w : World) :
  ends (promote_if_better env f r2) w (fun r w' l =>
    Forall promotion_only l
    /\ (KeptCurrent ∈ l ->
        r = Ok tt /\ unchanged_outside (fun p => p = TEMP_EVAL_DATA) w w'
        /\ (Promoted ∉ l) /\ (forall b, BackedUp b ∉ l))
    /\ (r = Ok tt -> Promoted ∈ l \/ KeptCurrent ∈ l)
    /\ (forall b, BackedUp b ∈ l -> Promoted ∉ l ->
        (exists e, r = Raise e)
        /\ fs w' !! PRODUCTION_MODEL = None
        /\ is_Some (fs w !! PRODUCTION_MODEL)
        /\ fs w' !! b = fs w !! PRODUCTION_MODEL)).
Proof.
  split; [|split; [apply promote_kept|split;
                   [apply promote_completed|apply promote_half_done]]].
  apply (promote_confined env (fun _ => True) promotion_only); try done.
  intros msg Hv. by destruct msg; try done; destruct Hv.
Qed.

Lemma record_cycle_summary (env : Env) (c : Candidate) (w : World) :
  ends (record_cycle env c) w (fun r w' l =>
    unchanged_outside working_file w w'
    /\ Forall report_only l
    /\ (r = Ok tt ->
        exists t report,
          fs w' !! report_filename t = Some (ReportJson report)
          /\ status report = "completed_successfully"
          /\ ReportSaved (report_filename t) ∈ l)).
Proof.
  assert (Hc : confined working_file report_only (record_cycle env c)).
  { apply record_cycle_confined; unfold working_file; eauto 10; done. }
  split; [apply Hc|]. split; [apply Hc|]. apply record_cycle_report.
Qed.

(** The five ways a run of [retrain_model] can go: the three blocks end
    well; the last one raises; the promotion raises; lines 214-294 return
    early; they raise. *)
Ltac retrain_cases :=
  unfold retrain_model;
  apply ends_try_except, ends_bind;
  eapply ends_known; [apply train_candidate_summary|];
  intros [[c|]|e1] w1 l1 (Hfs1 & Hlog1 & Hout1); cbv beta iota;
  unfold candidate_outcome in Hout1; simpl in Hout1;
  [ destruct Hout1 as [Hq1 [t Hfile]];
    apply ends_bind;
    eapply ends_known; [apply promote_summary|];
    intros [[]|e2] w2 l2 (Hlog2 & Hkept & Hdone & Hhalf); cbv beta iota;
    [ apply ends_bind;
      eapply ends_known; [apply record_cycle_summary|];
      intros [[]|e3] w3 l3 (Hfs3 & Hlog3 & Hreport); cbv beta iota;
      repeat ends_step
    | repeat ends_step ]
  | repeat ends_step
  | repeat ends_step ].

(** *** The criteria check, path by path *)

Lemma get_last_training_date_ends (env : Env) (w : World) Φ :
  (forall last w1 l1,
     unchanged_outside (fun _ => False) w w1 -> Φ (Ok last) w1 l1) ->
  ends (_get_last_training_date env) w Φ.
Proof.
  intros HΦ.
  eapply (ends_returns (fun _ => False) (fun _ => True));
    [apply get_last_training_date_returns| |by eauto].
  by apply get_last_training_date_confined.
Qed.

Lemma count_new_data_points_ends (env : Env) since (w : World) Φ :
  (forall r w1 l1, unchanged_outside (fun _ => False) w w1 -> Φ r w1 l1) ->
  ends (_count_new_data_points env since) w Φ.
Proof.
  intros HΦ. eapply (ends_confined (fun _ => False) (fun _ => True)); [|by eauto].
  by apply count_new_data_points_confined.
Qed.

Lemma check_flags_low_score (env : Env) (w : World) :
  ends (check_retraining_criteria env) w (fun r w' l =>
    forall c, r = Ok c ->
      (forall r2, current_performance c = Some r2 ->
         truthy r2 = true -> flt r2 performance_threshold = true ->
         needs_retraining c = true /\ PerformanceDegraded r2 ∈ reasons c)
      /\ (current_performance c = None ->
          forall r2, PerformanceDegraded r2 ∉ reasons c)).
Proof.
  unfold check_retraining_criteria, criteria_check_failed.
  apply ends_try_bind, get_last_training_date_ends.
  intros last w1 l1 _. apply ends_try_bind.
  destruct last as [last|]; repeat ends_step.
  all: apply count_new_data_points_ends.
  all: intros [n|e] w2 l2 _; repeat ends_step.
  all: intros c [= <-].
  all: repeat match goal with
       | |- context [match ?x with Some _ => _ | None => _ end] => destruct x eqn:?
       | |- context [if ?b then _ else _] => destruct b eqn:?
       end.
  all: cbn.
  all: split; [intros r2' Hcur Ht Hf|intros Hnone r2' Hin].
  all: try discriminate.
  all: try (log_cases Hin).
  all: injection Hcur as <-.
  all: try (split; [reflexivity|log_in]).
  all: match goal with
       | Hb : truthy _ && flt _ _ = false |- _ =>
           rewrite Ht, Hf in Hb; discriminate Hb
       end.
Qed.

Lemma evaluate_failure_is_none (env : Env) (w : World) :
  (forall ms, fs w !! PRODUCTION_MODEL <> Some (Pickled ms))
  \/ (forall m f d, predict_r2 env m f d = None) ->
  result (_evaluate_current_model env w) = Ok None.
Proof.
  intros Hfail.
  change (ends (_evaluate_current_model env) w (fun r _ _ => r = Ok None)).
  unfold _evaluate_current_model, pickle_load, export_data_for_ml.
  repeat ends_step; try reflexivity.
  all: destruct Hfail as [Hfail|Hfail];
    [ exfalso; eapply Hfail; eassumption
    | match goal with
      | Hp : predict_r2 _ _ _ _ = Some _ |- _ => rewrite Hfail in Hp; discriminate Hp
      end ].
Qed.

Lemma check_without_score (env : Env) (w : World) :
  (forall ms, fs w !! PRODUCTION_MODEL <> Some (Pickled ms))
  \/ (forall m f d, predict_r2 env m f d = None) ->
  ends (check_retraining_criteria env) w (fun r w' l =>
    forall c, r = Ok c -> current_performance c = None).
Proof.
  intros Hfail.
  unfold check_retraining_criteria, criteria_check_failed.
  apply ends_try_bind, get_last_training_date_ends.
  intros last w1 l1 Hfs1. apply ends_try_bind.
  destruct last as [last|]; repeat ends_step.
  all: apply count_new_data_points_ends.
  all: intros [n|e] w2 l2 Hfs2; repeat ends_step.
  all: intros c [= <-].
  all: try match goal with
       | Hcur : result (_evaluate_current_model _ ?w2) = Ok ?cur |- _ =>
           rewrite evaluate_failure_is_none in Hcur;
           [ injection Hcur as <-
           | destruct Hfail as [Hfail|Hfail]; [left|by right];
             intros ms; rewrite (Hfs2 PRODUCTION_MODEL) by tauto;
             simpl; rewrite (Hfs1 PRODUCTION_MODEL) by tauto; apply Hfail ]
       end.
  all: repeat match goal with
       | |- context [if ?b then _ else _] => destruct b eqn:?
       end.
  all: reflexivity.
Qed.

Lemma check_contains_errors (env : Env) (w : World) :
  ends (check_retraining_criteria env) w (fun r w' l =>
    forall c, r = Ok c ->
      ((fails env (OpenRead TRAINING_LOG) (ticks w) = true
        \/ forall entry, fs w !! TRAINING_LOG <> Some (TrainingLogJson entry)) ->
       needs_retraining c = true /\ NoPreviousTraining ∈ reasons c)
      /\ ((forall n, fails env (Sql GetEquipmentData) n = true) ->
          (forall entry, fs w !! TRAINING_LOG <> Some (TrainingLogJson entry)) ->
          needs_retraining c = true
          /\ CriteriaError (IOFailure (Sql GetEquipmentData)) ∈ reasons c)
      /\ ((forall n, fails env (Sql CountNewReadings) n = true) ->
          forall entry, fs w !! TRAINING_LOG = Some (TrainingLogJson entry) ->
          fails env (OpenRead TRAINING_LOG) (ticks w) = false ->
          new_data_points c = 0%nat
          /\ (forall n, SufficientNewData n ∉ reasons c)
          /\ (forall e, CriteriaError e ∉ reasons c))).
Proof.
  unfold check_retraining_criteria, criteria_check_failed,
    _get_last_training_date, json_load_log, _count_new_data_points,
    get_equipment_data.
  repeat ends_step.
  all: intros c [= <-].
  all: repeat match goal with
       | |- context [match ?x with Some _ => _ | None => _ end] => destruct x eqn:?
       | |- context [if ?b then _ else _] => destruct b eqn:?
       end.
  all: cbn [needs_retraining reasons new_data_points flag set_new_data_points
            set_current_performance set_days_since_last_training app].
  all: cbn [fs tick with_fs ticks] in *.
  all: split; [intros Hread|split; [intros Hq Hno|intros Hq entry' Hlog Hok]].
  (* the faults assumed did not happen on this path *)
  all: try match goal with
       | Hq : forall n, fails _ ?s n = true, H : fails _ ?s _ = false |- _ =>
           rewrite Hq in H; discriminate H
       end.
  all: try match goal with
       | Hno : forall entry, _ !! TRAINING_LOG <> Some (TrainingLogJson entry),
         H : _ !! TRAINING_LOG = Some (TrainingLogJson _) |- _ =>
           exfalso; exact (Hno _ H)
       end.
  all: try (destruct Hread as [Hread|Hread]; [congruence|];
            match goal with
            | H : _ !! TRAINING_LOG = Some (TrainingLogJson _) |- _ =>
                exfalso; exact (Hread _ H)
            end).
  all: try congruence.
  all: try match goal with
       | Hb : bool_decide (is_Some (_ !! TRAINING_LOG)) = false,
         H : _ !! TRAINING_LOG = Some _ |- _ =>
           apply bool_decide_eq_false in Hb; rewrite H in Hb;
           exfalso; apply Hb; eauto
       end.
  all: try (split; [reflexivity|log_in]).
  all: split; [reflexivity|split; intros ? Hin; log_cases Hin].
Qed.

(* ===================================================================== *)
(** ** The properties of the design document *)
(* ===================================================================== *)

Import Scenarios.

(** *** Promotion *)

(** C1 (as amended). Nothing restores the backup. When a run of
    [retrain_model] has renamed the production model to its backup and the
    promotion is not logged (the rename of the candidate onto the production
    path failed), the error is caught by the method, which returns [False];
    the production path is left with no file, and the model that was in
    production is found under the backup name. *)
Theorem failed_final_rename_leaves_no_production
    (env : Env) (w : World) (b : string) :
  let o := retrain_model env w in
  BackedUp b ∈ log o -> Promoted ∉ log o ->
  result o = Ok false
  /\ fs (final o) !! PRODUCTION_MODEL = None
  /\ is_Some (fs w !! PRODUCTION_MODEL)
  /\ fs (final o) !! b = fs w !! PRODUCTION_MODEL.
Proof.
  change (ends (retrain_model env) w (fun r w' l =>
    BackedUp b ∈ l -> Promoted ∉ l ->
    r = Ok false /\ fs w' !! PRODUCTION_MODEL = None
    /\ is_Some (fs w !! PRODUCTION_MODEL)
    /\ fs w' !! b = fs w !! PRODUCTION_MODEL)).
  retrain_cases; intros Hin Hnot; log_cases Hin.
  - destruct (Hdone eq_refl) as [Hp|Hk]; [exfalso; apply Hnot; log_in|].
    destruct (Hkept Hk) as (_ & _ & _ & Hnb). exfalso. by apply (Hnb b).
  - destruct (Hdone eq_refl) as [Hp|Hk]; [exfalso; apply Hnot; log_in|].
    destruct (Hkept Hk) as (_ & _ & _ & Hnb). exfalso. by apply (Hnb b).
  - assert (Hnot2 : Promoted ∉ l2) by (intros ?; apply Hnot; log_in).
    destruct (Hhalf b Hin Hnot2) as (_ & Hgone & Hwas & Hbackup).
    assert (Hprod : fs w1 !! PRODUCTION_MODEL = fs w !! PRODUCTION_MODEL).
    { apply (lookup_unchanged _ _ _ _ Hfs1).
      intros [H|[t' H]]; revert H; distinct_names. }
    rewrite <- Hprod. done.
Qed.

Lemma failed_final_rename_leaves_no_production_witness :
  result interrupted_run = Ok false
  /\ fs (final interrupted_run) !! PRODUCTION_MODEL = None
  /\ is_Some (fs serving !! PRODUCTION_MODEL)
  /\ fs (final interrupted_run) !! "model_backup_20231114_221333.pkl"
     = fs serving !! PRODUCTION_MODEL.
Proof.
  apply (failed_final_rename_leaves_no_production
           (production_at_78 final_rename_fails (82 # 100)) serving
           "model_backup_20231114_221333.pkl"); by_computation.
Defined.

(** C1 as stated fails: the production model is in service, the candidate
    is better, the rename of the candidate onto the production path fails
    after the backup was made; the run ends with no file at the production
    path. *)
Lemma production_path_left_empty :
  fs serving !! PRODUCTION_MODEL = Some (Pickled in_service)
  /\ BackedUp "model_backup_20231114_221333.pkl" ∈ log interrupted_run
  /\ ErrRetraining
       (IOFailure
          (Rename "retrained_model_20231114_221325.pkl" PRODUCTION_MODEL))
     ∈ log interrupted_run
  /\ result interrupted_run = Ok false
  /\ fs (final interrupted_run) !! PRODUCTION_MODEL = None
  /\ fs (final interrupted_run) !! "model_backup_20231114_221333.pkl"
     = Some (Pickled in_service).
Proof. repeat split; by_computation. Qed.



(** C6. The production path changes only on promotion. In a run of
    [retrain_model] that rejects the candidate, and in a run that stops
    because no source has data, the file at the production path is what it
    was, no backup file appears, and no file changes other than the working
    files of the run (the two exports, the training log, the candidate, the
    report). *)
Theorem production_untouched_without_promotion (env : Env) (w : World) :
  let o := retrain_model env w in
  KeptCurrent ∈ log o \/ NoTrainingData ∈ log o ->
  fs (final o) !! PRODUCTION_MODEL = fs w !! PRODUCTION_MODEL
  /\ (forall t, fs (final o) !! backup_name t = fs w !! backup_name t)
  /\ unchanged_outside working_file w (final o).
Proof.
  intros o Hrun.
  cut (unchanged_outside working_file w (final o)).
  { intros H. split; [|split; [|done]].
    - apply H, production_not_working.
    - intros t. apply H, backup_not_working. }
  revert Hrun. subst o.
  change (ends (retrain_model env) w (fun r w' l =>
    KeptCurrent ∈ l \/ NoTrainingData ∈ l -> unchanged_outside working_file w w')).
  assert (Hweak : forall w1 w2, unchanged_outside candidate_file w1 w2 ->
                                unchanged_outside working_file w1 w2).
  { intros w1 w2. apply unchanged_weaken. unfold candidate_file, working_file.
    intros p [H|H]; eauto 10. }
  assert (Hweak' : forall w1 w2,
             unchanged_outside (fun p => p = TEMP_EVAL_DATA) w1 w2 ->
             unchanged_outside working_file w1 w2).
  { intros w1 w2. apply unchanged_weaken. unfold working_file. eauto 10. }
  retrain_cases; intros [Hin|Hin]; log_cases Hin; eauto.
  all: destruct (Hkept Hin) as (Hok & Hfs2 & _); try discriminate Hok.
  all: eapply unchanged_trans; [eapply unchanged_trans|]; eauto.
Qed.

Lemma production_untouched_without_promotion_witness :
  (fs (final rejected_run) !! PRODUCTION_MODEL = fs serving !! PRODUCTION_MODEL
   /\ (forall t, fs (final rejected_run) !! backup_name t
                 = fs serving !! backup_name t)
   /\ unchanged_outside working_file serving (final rejected_run))
  /\ (fs (final no_data_run) !! PRODUCTION_MODEL = fs no_data !! PRODUCTION_MODEL
      /\ (forall t, fs (final no_data_run) !! backup_name t
                    = fs no_data !! backup_name t)
      /\ unchanged_outside working_file no_data (final no_data_run)).
Proof.
  split.
  - apply (production_untouched_without_promotion
             (production_at_78 no_fault (70 # 100)) serving).
    left. by_computation.
  - apply (production_untouched_without_promotion
             (production_at_78 no_fault (82 # 100)) no_data).
    right. by_computation.
Defined.

(** *** The report and the result *)

(** C9 (as amended). A report is written exactly by the runs that reach the
    end of [retrain_model], and its status is always
    [completed_successfully]. A run that returns [True] (the candidate was
    promoted or it was rejected) has written a report file
    [retraining_report_<timestamp>.json] whose status is
    [completed_successfully]; a run that stops because no source has data
    returns [False], saves no report and leaves every report path as it
    was. *)
Theorem report_written_iff_run_completes (env : Env) (w : World) :
  let o := retrain_model env w in
  (result o = Ok true ->
   exists t report,
     fs (final o) !! report_filename t = Some (ReportJson report)
     /\ status report = "completed_successfully"
     /\ ReportSaved (report_filename t) ∈ log o)
  /\ (NoTrainingData ∈ log o ->
      result o = Ok false
      /\ (forall f, ReportSaved f ∉ log o)
      /\ (forall t, fs (final o) !! report_filename t = fs w !! report_filename t)).
Proof.
  intros o.
  cut (ends (retrain_model env) w
    (fun r w' l =>
       (r = Ok true ->
        exists t report,
          fs w' !! report_filename t = Some (ReportJson report)
          /\ status report = "completed_successfully"
          /\ ReportSaved (report_filename t) ∈ l)
       /\ (NoTrainingData ∈ l ->
           r = Ok false /\ (forall f, ReportSaved f ∉ l)
           /\ unchanged_outside candidate_file w w'))).
  { unfold ends. fold o. intros [H1 H2]. split; [done|]. intros Hin.
    destruct (H2 Hin) as (Hr & Hno & Hfs). repeat split; [done..|].
    intros t. apply Hfs. intros [H|[t' H]]; revert H; distinct_names. }
  retrain_cases; (split; [intros Hr; try discriminate Hr|intros Hin; log_cases Hin]).
  - destruct (Hreport eq_refl) as (t0 & report & Hfile0 & Hstatus & Hsaved).
    exists t0, report. repeat split; [done..|]. log_in.
  - repeat split; [|done]. intros f Hin'. log_cases Hin'.
Qed.

Lemma report_written_iff_run_completes_witness :
  (exists t report,
     fs (final promoted_run) !! report_filename t = Some (ReportJson report)
     /\ status report = "completed_successfully"
     /\ ReportSaved (report_filename t) ∈ log promoted_run)
  /\ (result no_data_run = Ok false
      /\ (forall f, ReportSaved f ∉ log no_data_run)
      /\ (forall t, fs (final no_data_run) !! report_filename t
                    = fs no_data !! report_filename t)).
Proof.
  split.
  - destruct (report_written_iff_run_completes
                (production_at_78 no_fault (82 # 100)) serving) as [Hdone _].
    apply Hdone. by_computation.
  - destruct (report_written_iff_run_completes
                (production_at_78 no_fault (82 # 100)) no_data) as [_ Hstop].
    apply Hstop. by_computation.
Defined.

(** C9 as stated fails twice: the report of a run that rejected its
    candidate says [completed_successfully], not [rejected]; a run with no
    data leaves only its (empty) export behind, and no report. *)
Lemma report_status_counterexample :
  (KeptCurrent ∈ log rejected_run
   /\ (Promoted ∉ log rejected_run)
   /\ ReportSaved "retraining_report_20231114_221337.json" ∈ log rejected_run
   /\ report_status
        (fs (final rejected_run) !! "retraining_report_20231114_221337.json")
      = Some "completed_successfully")
  /\ (NoTrainingData ∈ log no_data_run
      /\ fs (final no_data_run)
         = {[ PRODUCTION_MODEL := Pickled in_service;
              RETRAINING_DATA := Csv (sensor_table 0) ]}).
Proof. repeat split; by_computation. Qed.


(** *** The criteria *)

(** C8 (as amended). [check_retraining_criteria] creates, changes and
    deletes no file other than its evaluation export [temp_eval_data.csv]:
    every other path holds after the call what it held before. *)
Theorem criteria_check_touches_only_its_export
    (env : Env) (w : World) (p : string) :
  p <> TEMP_EVAL_DATA ->
  fs (final (check_retraining_criteria env w)) !! p = fs w !! p.
Proof.
  intros Hp.
  by apply (check_retraining_criteria_confined env
              (fun p => p = TEMP_EVAL_DATA) (fun _ => True)).
Qed.

Lemma criteria_check_touches_only_its_export_witness :
  fs (final (check_retraining_criteria (scoring (Some (85 # 100)) no_fault)
               stale_export)) !! PRODUCTION_MODEL
  = fs stale_export !! PRODUCTION_MODEL.
Proof.
  apply (criteria_check_touches_only_its_export
           (scoring (Some (85 # 100)) no_fault) stale_export PRODUCTION_MODEL).
  by_computation.
Defined.

(** C8 as stated fails: a file [temp_eval_data.csv] that was on disk before
    the check is overwritten by the export and deleted. *)
Lemma criteria_check_deletes_a_file :
  let o := check_retraining_criteria (scoring (Some (85 # 100)) no_fault)
             stale_export in
  fs stale_export !! TEMP_EVAL_DATA = Some (Csv (sensor_table 7))
  /\ Exported TEMP_EVAL_DATA ∈ log o
  /\ fs (final o) !! TEMP_EVAL_DATA = None
  /\ fs (final o) <> fs stale_export.
Proof. repeat split; by_computation. Qed.

(** C2 (as amended). [check_retraining_criteria] always returns its
    criteria. When the evaluation of the production model gives a score
    that is not zero and is strictly below the threshold (0.80),
    [needs_retraining] is set and the reason names the degraded score. When
    the evaluation gives no score, no such reason is given; and the
    evaluation gives no score when it fails: when the production model is
    missing or is not a loadable model, or when scoring raises. *)
Theorem performance_flag_follows_a_nonzero_score (env : Env) (w : World) :
  exists c,
    result (check_retraining_criteria env w) = Ok c
    /\ (forall r2, current_performance c = Some r2 ->
          truthy r2 = true -> flt r2 performance_threshold = true ->
          needs_retraining c = true /\ PerformanceDegraded r2 ∈ reasons c)
    /\ (current_performance c = None ->
        forall r2, PerformanceDegraded r2 ∉ reasons c)
    /\ ((forall ms, fs w !! PRODUCTION_MODEL <> Some (Pickled ms))
        \/ (forall m f d, predict_r2 env m f d = None) ->
        current_performance c = None).
Proof.
  destruct (check_retraining_criteria_returns env w) as [c Hc].
  exists c. split; [exact Hc|].
  destruct (check_flags_low_score env w c Hc) as [Hlow Hnone].
  split; [exact Hlow|split; [exact Hnone|]].
  intros Hfail. exact (check_without_score env w Hfail c Hc).
Qed.

Lemma performance_flag_follows_a_nonzero_score_witness :
  exists c,
    result (check_retraining_criteria (scoring (Some (78 # 100)) no_fault)
              trained_recently) = Ok c
    /\ needs_retraining c = true
    /\ PerformanceDegraded (of_Q (78 # 100)) ∈ reasons c.
Proof.
  destruct (performance_flag_follows_a_nonzero_score
              (scoring (Some (78 # 100)) no_fault) trained_recently)
    as (c & Hc & Hlow & _).
  exists c. split; [exact Hc|].
  assert (Hrun : result (check_retraining_criteria
                           (scoring (Some (78 # 100)) no_fault) trained_recently)
                 = Ok (mkCriteria true [PerformanceDegraded (of_Q (78 # 100))]
                         0 3 (Some (of_Q (78 # 100))))) by by_computation.
  rewrite Hrun in Hc. injection Hc as <-.
  apply Hlow; by_computation.
Defined.

(** C2 as stated fails: three days after the last training, with no new
    readings, the production model is missing, or scoring it raises; the
    check returns with [needs_retraining] false and no reason. *)
Lemma failed_evaluation_is_not_degradation :
  result (check_retraining_criteria (scoring (Some (85 # 100)) no_fault)
            model_missing)
  = Ok (mkCriteria false [] 0 3 None)
  /\ result (check_retraining_criteria (scoring None no_fault) trained_recently)
     = Ok (mkCriteria false [] 0 3 None)
  /\ ErrEvaluate SklearnError
     ∈ log (check_retraining_criteria (scoring None no_fault) trained_recently).
Proof. repeat split; by_computation. Qed.

(** C7 (as amended). No error met while reading the training log or
    counting the new rows reaches the caller: [check_retraining_criteria]
    always returns its criteria. A training log that cannot be read counts
    as no previous training, which sets [needs_retraining] with that reason.
    With no training date known, a failure of the query for the rows sets
    [needs_retraining] with the error as reason. With a training date known,
    a failure of the query that counts the new readings is swallowed: the
    count is 0, and neither a reason for new data nor one for an error is
    given. *)
Theorem criteria_errors_never_propagate (env : Env) (w : World) :
  exists c,
    result (check_retraining_criteria env w) = Ok c
    /\ ((fails env (OpenRead TRAINING_LOG) (ticks w) = true
         \/ forall entry, fs w !! TRAINING_LOG <> Some (TrainingLogJson entry)) ->
        needs_retraining c = true /\ NoPreviousTraining ∈ reasons c)
    /\ ((forall n, fails env (Sql GetEquipmentData) n = true) ->
        (forall entry, fs w !! TRAINING_LOG <> Some (TrainingLogJson entry)) ->
        needs_retraining c = true
        /\ CriteriaError (IOFailure (Sql GetEquipmentData)) ∈ reasons c)
    /\ ((forall n, fails env (Sql CountNewReadings) n = true) ->
        forall entry, fs w !! TRAINING_LOG = Some (TrainingLogJson entry) ->
        fails env (OpenRead TRAINING_LOG) (ticks w) = false ->
        new_data_points c = 0%nat
        /\ (forall n, SufficientNewData n ∉ reasons c)
        /\ (forall e, CriteriaError e ∉ reasons c)).
Proof.
  destruct (check_retraining_criteria_returns env w) as [c Hc].
  exists c. split; [exact Hc|].
  exact (check_contains_errors env w c Hc).
Qed.

Lemma criteria_errors_never_propagate_witness :
  exists c,
    result (check_retraining_criteria (scoring (Some (85 # 100)) log_unreadable)
              trained_recently) = Ok c
    /\ needs_retraining c = true /\ NoPreviousTraining ∈ reasons c.
Proof.
  destruct (criteria_errors_never_propagate
              (scoring (Some (85 # 100)) log_unreadable) trained_recently)
    as (c & Hc & Hlog & _).
  exists c. split; [exact Hc|].
  apply Hlog. left. by_computation.
Defined.

(** C7 as stated fails: three days after the last training, the query that
    counts the new readings fails; the check returns with [needs_retraining]
    false and no reason. *)
Lemma failed_count_does_not_retrain :
  result (check_retraining_criteria (scoring (Some (85 # 100)) count_fails)
            trained_recently)
  = Ok (mkCriteria false [] 0 3 (Some (of_Q (85 # 100)))).
Proof. by_computation. Qed.

(* ===================================================================== *)
(** ** More of the retrainer *)
(* ===================================================================== *)

(** *** The criteria and the training log *)

Lemma check_reasons_justified (env : Env) (w : World) :
  ends (check_retraining_criteria env) w (fun r w' l =>
    forall c, r = Ok c ->
      (needs_retraining c = true <-> reasons c <> [])
      /\ (forall d, ScheduledRetraining d ∈ reasons c <->
                    d = days_since_last_training c /\ retraining_schedule_days <= d)
      /\ (forall n, SufficientNewData n ∈ reasons c <->
                    n = new_data_points c /\ (min_new_data_points <= n)%nat)
      /\ (forall r2, PerformanceDegraded r2 ∈ reasons c <->
                     current_performance c = Some r2 /\ truthy r2 = true
                     /\ flt r2 performance_threshold = true)).
Proof.
  unfold check_retraining_criteria, criteria_check_failed.
  remember (Nat.leb min_new_data_points) as enough eqn:Henough.
  apply ends_try_bind, get_last_training_date_ends.
  intros last w1 l1 _. apply ends_try_bind.
  destruct last as [last|]; repeat ends_step.
  all: apply count_new_data_points_ends.
  all: intros [n|e] w2 l2 _; repeat ends_step.
  all: intros c [= <-].
  all: repeat match goal with
       | |- context [match ?x with Some _ => _ | None => _ end] => destruct x eqn:?
       | |- context [if ?b then _ else _] => destruct b eqn:?
       end.
  all: cbn [needs_retraining reasons new_data_points days_since_last_training
            current_performance flag set_new_data_points
            set_current_performance set_days_since_last_training app].
  all: subst enough.
  all: repeat match goal with
       | H : (_ <=? _) = true |- _ => apply Z.leb_le in H
       | H : (_ <=? _) = false |- _ => apply Z.leb_gt in H
       | H : (_ <=? _)%nat = true |- _ => apply Nat.leb_le in H
       | H : (_ <=? _)%nat = false |- _ => apply Nat.leb_gt in H
       | H : _ && _ = true |- _ => apply andb_true_iff in H as [? ?]
       | H : _ && _ = false |- _ => apply andb_false_iff in H
       end.
  all: (split; [split; [intros; (discriminate || done)|intros; (congruence || done)]|]).
  all: split; [intros d|split; [intros n'|intros r2']].
  all: rewrite ?elem_of_cons, ?elem_of_nil.
  all: unfold retraining_schedule_days, min_new_data_points in *.
  all: intuition (simplify_eq; eauto 6; try lia; try congruence).
Qed.

Lemma check_reads_the_log (env : Env) (w : World) (entry : TrainingLogEntry) :
  fs w !! TRAINING_LOG = Some (TrainingLogJson entry) ->
  fails env (OpenRead TRAINING_LOG) (ticks w) = false ->
  ends (check_retraining_criteria env) w (fun r w' l =>
    forall c, r = Ok c ->
      days_since_last_training c
      = days_between (clock env (S (ticks w))) (last_training_date entry)
      /\ (NoPreviousTraining ∉ reasons c)
      /\ (fails env (Sql CountNewReadings) (S (S (ticks w))) = false ->
          new_data_points c
          = length (filter (fun t => last_training_date entry < t)
                      (reading_timestamps (db w))))).
Proof.
  intros Hlog Hread.
  unfold check_retraining_criteria, criteria_check_failed,
    _get_last_training_date, json_load_log, _count_new_data_points,
    get_equipment_data.
  remember (Nat.leb min_new_data_points) as enough eqn:Henough.
  repeat ends_step.
  all: intros c [= <-].
  all: repeat match goal with
       | |- context [match ?x with Some _ => _ | None => _ end] => destruct x eqn:?
       | |- context [if ?b then _ else _] => destruct b eqn:?
       end.
  all: cbn [needs_retraining reasons new_data_points days_since_last_training
            flag set_new_data_points
            set_current_performance set_days_since_last_training app].
  all: cbn [fs db tick with_fs ticks] in *.
  all: try congruence.
  all: try match goal with
       | Hb : bool_decide (is_Some (_ !! TRAINING_LOG)) = false |- _ =>
           apply bool_decide_eq_false in Hb; rewrite Hlog in Hb;
           exfalso; apply Hb; eauto
       end.
  all: match goal with
       | H : _ !! TRAINING_LOG = Some (TrainingLogJson ?e),
         H' : _ !! TRAINING_LOG = Some (TrainingLogJson ?e') |- _ =>
           assert (e' = e) as -> by congruence
       end.
  all: split; [reflexivity|split].
  all: try (rewrite ?elem_of_cons, ?elem_of_nil; naive_solver).
  all: try (intros; congruence).
Qed.

Lemma get_last_training_date_reads (env : Env) (w : World)
    (entry : TrainingLogEntry) :
  fs w !! TRAINING_LOG = Some (TrainingLogJson entry) ->
  fails env (OpenRead TRAINING_LOG) (ticks w) = false ->
  result (_get_last_training_date env w) = Ok (Some (last_training_date entry)).
Proof.
  intros Hlog Hread.
  change (ends (_get_last_training_date env) w
            (fun r _ _ => r = Ok (Some (last_training_date entry)))).
  unfold _get_last_training_date, json_load_log.
  repeat ends_step; try congruence.
  match goal with
  | Hb : bool_decide _ = false |- _ =>
      apply bool_decide_eq_false in Hb; rewrite Hlog in Hb;
      exfalso; apply Hb; eauto
  end.
Qed.

(** *** The data a run trains on *)

Lemma has_column_assigned (name : string) (numeric : bool) (df : DataFrame) :
  has_column name (assign_column name numeric df) = true.
Proof.
  unfold assign_column.
  destruct (has_column name df) eqn:E; unfold has_column in *; simpl;
    apply bool_decide_eq_true.
  - apply bool_decide_eq_true in E.
    apply list_elem_of_fmap in E as (c & -> & Hc).
    apply list_elem_of_fmap. exists (mkColumn (col_name c) numeric).
    split; [reflexivity|].
    apply list_elem_of_fmap. exists c. split; [|done].
    by destruct (decide _).
  - rewrite map_app. apply elem_of_app. right. simpl. apply elem_of_cons. by left.
Qed.

Lemma load_first_suitable_result (env : Env) (csv_files : list string) :
  forall w,
  ends (load_first_suitable env csv_files) w (fun r w' l =>
    fs w' = fs w /\ db w' = db w
    /\ forall df, r = Ok df ->
         (df = empty_frame /\ NoSuitableCsv ∈ l)
         \/ (has_column target_col df = true
             /\ exists csv_file, csv_file ∈ csv_files
                  /\ LoadedCsv (nrows df) csv_file ∈ l)).
Proof.
  induction csv_files as [|csv_file rest IH]; intros w; simpl.
  - repeat ends_step. repeat split. intros df [= <-]. left. split; [done|log_in].
  - unfold read_csv. repeat ends_step.
    all: try (repeat split; intros d Hd; discriminate Hd).
    + repeat split. intros d [= <-]. right. split.
      * match goal with
        | |- context [if ?b then _ else _] => destruct b eqn:E
        end.
        -- apply has_column_assigned.
        -- match goal with
           | Ho : _ || _ = true |- _ =>
               apply orb_true_iff in Ho as [Ho|Ho]; [exact Ho|]
           end.
           apply andb_false_iff in E as [E|E]; [congruence|].
           by apply negb_false_iff in E.
      * exists csv_file. split; [apply elem_of_cons; by left|log_in].
    + eapply ends_known; [apply IH|]. cbv beta.
      intros r w1 l1 (Hfs & Hdb & Hr). repeat split; [done..|].
      intros d Hd. destruct (Hr d Hd) as [[-> Hin]|[Hcol (f & Hf & Hin)]].
      * left. split; [done|log_in].
      * right. split; [done|]. exists f. split; [apply elem_of_cons; by right|log_in].
    + eapply ends_known; [apply IH|]. cbv beta.
      intros r w1 l1 (Hfs & Hdb & Hr). repeat split; [done..|].
      intros d Hd. destruct (Hr d Hd) as [[-> Hin]|[Hcol (f & Hf & Hin)]].
      * left. split; [done|log_in].
      * right. split; [done|]. exists f. split; [apply elem_of_cons; by right|log_in].
Qed.

Lemma ends_import (env : Env) (csv_file : string) w Φ :
  Φ (Ok tt)
    (tick (with_db (csv_import env (fs w !! csv_file) (clock env (ticks w))
                      (db w)) w)) [] ->
  ends (import_csv_data env csv_file) w Φ.
Proof. done. Qed.

(** *** The files of a run, block by block *)

(** Steps over a call of which nothing needs to be known. *)
Ltac ends_skip H :=
  eapply (ends_confined (fun _ => True) (fun _ => True));
  [apply H; done|intros [?|?] ? ? _ _; cbv beta iota].

Lemma train_candidate_result (env : Env) (w : World) :
  ends (train_candidate env) w (fun r w' l =>
    forall c, r = Ok (Some c) ->
      fs w' !! retrained_file c = Some (Pickled (model_system c))
      /\ (exists t, retrained_file c = retrained_filename t)
      /\ RetrainedSaved (retrained_file c) ∈ l
      /\ (exists train, ModelPerformance train (test_r2 c) ∈ l)
      /\ TrainingSamples (training_rows c) ∈ l
      /\ (0 < training_rows c)%nat
      /\ (target_col ∉ features (model_info (model_system c)))
      /\ Retrain.feature_count (training_info (model_system c))
         = length (features (model_info (model_system c)))
      /\ r2_score (performance_metrics (model_info (model_system c)))
         = test_r2 c).
Proof.
  unfold train_candidate, export_data_for_ml.
  repeat ends_step.
  ends_skip ensure_confined.
  2: { intros c Hc; discriminate Hc. }
  repeat ends_step.
  all: try (intros c Hc; discriminate Hc).
  1: ends_skip load_training_data_confined;
       [|intros c Hc; discriminate Hc]; repeat ends_step.
  all: try (intros c Hc; discriminate Hc).
  all: intros c [= <-]; cbn [retrained_file model_system test_r2 training_rows
                             model_info training_info features
                             Retrain.feature_count performance_metrics r2_score fs with_fs].
  all: cbn [ticks tick] in *.
  all: split; [apply lookup_insert_eq|].
  all: split; [eexists; reflexivity|].
  all: split; [log_in|].
  all: split; [eexists; log_in|].
  all: split; [log_in|].
  all: unfold df_empty in *.
  all: split;
    [ match goal with
      | Hne : _ || _ = false |- _ =>
          apply orb_false_iff in Hne as [Hne _];
          apply Nat.eqb_neq in Hne; simpl in Hne; lia
      end|].
  all: split; [|split; reflexivity].
  all: intros Hin; apply list_elem_of_filter in Hin as [Hne _]; by apply Hne.
Qed.

Lemma ends_both {A} (m : M A) w (Ψ1 Ψ2 : Res A -> World -> list Msg -> Prop) :
  ends m w Ψ1 -> ends m w Ψ2 -> ends m w (fun r w' l => Ψ1 r w' l /\ Ψ2 r w' l).
Proof. by split. Qed.

(** Lookups in a file system after renames, writes and removals. *)
Ltac other_path :=
  solve [ assumption | apply not_eq_sym; assumption
        | match goal with H : forall t, _ <> _ |- _ => apply H end
        | match goal with H : forall t, _ <> _ |- _ => apply not_eq_sym, H end
        | apply backup_not_production | apply not_eq_sym, backup_not_production
        | distinct_names | apply not_eq_sym; distinct_names ].

Ltac lookup_files :=
  repeat first
    [ rewrite lookup_insert_eq | rewrite lookup_delete_eq
    | rewrite lookup_insert_ne by other_path
    | rewrite lookup_delete_ne by other_path ].

Ltac lookup_files_in H :=
  repeat first
    [ rewrite lookup_insert_eq in H | rewrite lookup_delete_eq in H
    | rewrite lookup_insert_ne in H by other_path
    | rewrite lookup_delete_ne in H by other_path ].

Lemma promote_files (env : Env) (f : string) (r2 : pyfloat) (w : World) :
  f <> PRODUCTION_MODEL -> f <> TEMP_EVAL_DATA ->
  (forall t, f <> backup_name t) ->
  ends (promote_if_better env f r2) w (fun r w' l =>
    (Promoted ∈ l ->
     fs w' !! f = None /\ fs w' !! PRODUCTION_MODEL = fs w !! f
     /\ is_Some (fs w !! f))
    /\ (Promoted ∉ l -> fs w' !! f = fs w !! f)
    /\ (fs w' !! PRODUCTION_MODEL = fs w !! PRODUCTION_MODEL
        \/ fs w' !! PRODUCTION_MODEL = None
        \/ (fs w' !! PRODUCTION_MODEL = fs w !! f /\ is_Some (fs w !! f)
            /\ fs w' !! f = None))).
Proof.
  intros Hprod Htemp Hbackup.
  unfold promote_if_better.
  ends_step. ends_step.
  match goal with
  | Hfs : unchanged_outside _ w ?w1 |- _ =>
      assert (Hp : fs w1 !! PRODUCTION_MODEL = fs w !! PRODUCTION_MODEL)
        by (apply (lookup_unchanged _ _ _ _ Hfs); distinct_names);
      assert (Hf : fs w1 !! f = fs w !! f)
        by (by apply (lookup_unchanged _ _ _ _ Hfs))
  end.
  repeat ends_step.
  all: cbn [fs with_fs tick] in *.
  all: repeat match goal with
       | H : _ !! _ = Some _ |- _ => progress lookup_files_in H
       end.
  all: split; [intros Hin; log_cases Hin|split; [intros Hnot|]].
  all: lookup_files.
  all: try (exfalso; apply Hnot; log_in).
  all: try done.
  all: try (left; congruence).
  all: try (right; left; reflexivity).
  all: match goal with
       | Hsame : fs ?w1 !! ?p = fs _ !! ?p, Hc : fs ?w1 !! ?p = Some ?c |- _ =>
           rewrite Hsame in Hc; rewrite Hc;
           solve [try (right; right); repeat split; eauto]
       end.
Qed.

Lemma training_log_not_report (t : datetime) : TRAINING_LOG <> report_filename t.
Proof. distinct_names. Qed.

Lemma record_cycle_files (env : Env) (c : Candidate) (w : World) :
  ends (record_cycle env c) w (fun r w' l =>
    unchanged_outside record_file w w'
    /\ (r = Ok tt ->
        fs w' !! TRAINING_LOG
        = Some (TrainingLogJson
                  (mkLogEntry (clock env (ticks w)) (test_r2 c)
                     (training_rows c) "automated_retraining"))
        /\ fs w' !! RETRAINING_DATA = None)).
Proof.
  split.
  - apply (record_cycle_confined env record_file (fun _ => True));
      unfold record_file; eauto.
  - revert w.
    change (forall w, ends (record_cycle env c) w (fun r w' l =>
      r = Ok tt ->
      fs w' !! TRAINING_LOG
      = Some (TrainingLogJson
                (mkLogEntry (clock env (ticks w)) (test_r2 c)
                   (training_rows c) "automated_retraining"))
      /\ fs w' !! RETRAINING_DATA = None)).
    intros w.
    unfold record_cycle, _update_training_log, _generate_retraining_report.
    repeat ends_step; intros Hr; try discriminate Hr.
    all: cbn [fs with_fs tick] in *.
    all: repeat match goal with
         | H : bool_decide _ = false |- _ => apply bool_decide_eq_false in H
         end.
    all: split.
    all: lookup_files; try reflexivity.
    match goal with
    | Hb : ~ is_Some _ |- _ =>
        lookup_files_in Hb;
        destruct (fs w !! RETRAINING_DATA); [exfalso; apply Hb; eauto|done]
    end.
Qed.

Lemma retrained_not_recorded (t : datetime) : ~ record_file (retrained_filename t).
Proof. intros [H|[[t' H]|H]]; revert H; distinct_names. Qed.

Lemma production_not_recorded : ~ record_file PRODUCTION_MODEL.
Proof. intros [H|[[t' H]|H]]; revert H; distinct_names. Qed.

(** The ways a run of [retrain_model] can go, with what each block has done
    to the files. *)
Ltac retrain_walk :=
  unfold retrain_model;
  apply ends_try_except, ends_bind;
  eapply ends_known;
    [apply ends_both; [apply train_candidate_summary|apply train_candidate_result]|];
  intros [[c|]|e1] w1 l1 [(Hfs1 & Hlog1 & Hout1) Hcand]; cbv beta iota;
  unfold candidate_outcome in Hout1; simpl in Hout1;
  [ destruct Hout1 as [Hq1 [t Hfile]];
    specialize (Hcand c eq_refl);
    apply ends_bind;
    eapply ends_known;
      [ apply ends_both;
        [ apply promote_summary
        | apply promote_files; rewrite Hfile;
          [ apply retrained_not_production | apply retrained_not_temp
          | intros t'; apply retrained_not_backup ] ] |];
    intros [[]|e2] w2 l2
      [(Hlog2 & Hkept & Hdone & Hhalf) (Hprom & Hstay & Hprod)];
    cbv beta iota;
    [ apply ends_bind;
      eapply ends_known;
        [apply ends_both; [apply record_cycle_summary|apply record_cycle_files]|];
      intros [[]|e3] w3 l3 [(Hfs3 & Hlog3 & Hreport) (Hrec & Hlogfile)];
      cbv beta iota; repeat ends_step
    | repeat ends_step ]
  | clear Hcand; repeat ends_step
  | clear Hcand; repeat ends_step ].

Lemma ends_self {A} (m : M A) (w : World) :
  ends m w (fun r w' l => r = result (m w) /\ w' = final (m w) /\ l = log (m w)).
Proof. done. Qed.

Lemma log_bind_prefix {A B} (m : M A) (k : A -> M B) (w : World) :
  exists l, log (bind m k w) = log (m w) ++ l.
Proof.
  unfold bind. destruct (result (m w)); simpl; eauto.
  exists []. by rewrite app_nil_r.
Qed.

Lemma log_try_except_prefix {A} (m : M A) (h : Exn -> M A) (w : World) :
  exists l, log (try_except m h w) = log (m w) ++ l.
Proof.
  unfold try_except. destruct (result (m w)); simpl; eauto.
  exists []. by rewrite app_nil_r.
Qed.

Lemma retrain_model_starts (env : Env) (w : World) :
  ends (retrain_model env) w (fun r _ l =>
    (r = Ok true \/ r = Ok false) /\ StartRetraining ∈ l).
Proof.
  split.
  - destruct (retrain_model_returns env w) as [[] ->]; auto.
  - unfold retrain_model.
    destruct (log_try_except_prefix
                (bind (train_candidate env)
                   (fun candidate =>
                      match candidate with
                      | None => ret false
                      | Some c =>
                          bind (promote_if_better env (retrained_file c) (test_r2 c))
                            (fun _ => bind (record_cycle env c) (fun _ => ret true))
                      end))
                (fun e => bind (logging (ErrRetraining e)) (fun _ => ret false)) w)
      as [l ->].
    match goal with
    | |- _ ∈ log (bind ?m ?k w) ++ _ =>
        destruct (log_bind_prefix m k w) as [l' ->]
    end.
    unfold train_candidate at 1.
    match goal with
    | |- _ ∈ (log (bind ?m ?k w) ++ _) ++ _ =>
        destruct (log_bind_prefix m k w) as [l'' ->]
    end.
    simpl. apply elem_of_cons. by left.
Qed.

(** *** Properties of the criteria check *)

(** X1. The training log round trip: when [_update_training_log] returns,
    the log file holds the date of the call, the score and the sample count
    it was given, and [_get_last_training_date] reads that date back
    (provided the file can be opened). *)
Theorem training_log_round_trip
    (env : Env) (w : World) (score : pyfloat) (n : nat) :
  let o := _update_training_log env score n w in
  result o = Ok tt ->
  fails env (OpenRead TRAINING_LOG) (ticks (final o)) = false ->
  fs (final o) !! TRAINING_LOG
  = Some (TrainingLogJson
            (mkLogEntry (clock env (ticks w)) score n "automated_retraining"))
  /\ result (_get_last_training_date env (final o))
     = Ok (Some (clock env (ticks w))).
Proof.
  intros o Hok Hread.
  assert (Hfile : fs (final o) !! TRAINING_LOG
                  = Some (TrainingLogJson
                            (mkLogEntry (clock env (ticks w)) score n
                               "automated_retraining"))).
  { revert Hok. subst o.
    change (ends (_update_training_log env score n) w (fun r w' _ =>
      r = Ok tt ->
      fs w' !! TRAINING_LOG
      = Some (TrainingLogJson
                (mkLogEntry (clock env (ticks w)) score n
                   "automated_retraining")))).
    unfold _update_training_log.
    repeat ends_step; intros Hr; try discriminate Hr.
    apply lookup_insert_eq. }
  split; [exact Hfile|].
  exact (get_last_training_date_reads env _ _ Hfile Hread).
Qed.

Lemma training_log_round_trip_witness :
  let o := _update_training_log (scoring (Some (85 # 100)) no_fault)
             (of_Q (82 # 100)) 120 serving in
  fs (final o) !! TRAINING_LOG
  = Some (TrainingLogJson
            (mkLogEntry 1700000000 (of_Q (82 # 100)) 120 "automated_retraining"))
  /\ result (_get_last_training_date (scoring (Some (85 # 100)) no_fault)
               (final o))
     = Ok (Some 1700000000).
Proof.
  apply (training_log_round_trip (scoring (Some (85 # 100)) no_fault) serving
           (of_Q (82 # 100)) 120); by_computation.
Defined.

(** X2. [needs_retraining] is set exactly when a reason is given: in the
    dictionary [check_retraining_criteria] returns, the flag is true if and
    only if the list of reasons is not empty. *)
Theorem criteria_flag_iff_reason (env : Env) (w : World) :
  exists c,
    result (check_retraining_criteria env w) = Ok c
    /\ (needs_retraining c = true <-> reasons c <> []).
Proof.
  destruct (check_retraining_criteria_returns env w) as [c Hc].
  exists c. split; [exact Hc|].
  exact (proj1 (check_reasons_justified env w c Hc)).
Qed.

(** X3. Each threshold reason is given exactly when the figure recorded in
    the same dictionary crosses its threshold: the schedule reason when
    [days_since_last_training] is at least 7, the new-data reason when
    [new_data_points] is at least 100, the degradation reason when
    [current_performance] is a score that is not zero and is below 0.80. *)
Theorem threshold_reasons_follow_the_figures (env : Env) (w : World) :
  exists c,
    result (check_retraining_criteria env w) = Ok c
    /\ (forall d, ScheduledRetraining d ∈ reasons c <->
                  d = days_since_last_training c /\ retraining_schedule_days <= d)
    /\ (forall n, SufficientNewData n ∈ reasons c <->
                  n = new_data_points c /\ (min_new_data_points <= n)%nat)
    /\ (forall r2, PerformanceDegraded r2 ∈ reasons c <->
                   current_performance c = Some r2 /\ truthy r2 = true
                   /\ flt r2 performance_threshold = true).
Proof.
  destruct (check_retraining_criteria_returns env w) as [c Hc].
  exists c. split; [exact Hc|].
  exact (proj2 (check_reasons_justified env w c Hc)).
Qed.

(** X4. With a readable training log, the criteria are computed from it:
    [days_since_last_training] is the number of whole days between the
    clock and the logged date, the reason for a missing training record is
    not given, and, unless the counting query fails, [new_data_points] is
    the number of readings stamped after the logged date. *)
Theorem criteria_follow_the_training_log
    (env : Env) (w : World) (entry : TrainingLogEntry) :
  fs w !! TRAINING_LOG = Some (TrainingLogJson entry) ->
  fails env (OpenRead TRAINING_LOG) (ticks w) = false ->
  exists c,
    result (check_retraining_criteria env w) = Ok c
    /\ days_since_last_training c
       = days_between (clock env (S (ticks w))) (last_training_date entry)
    /\ (NoPreviousTraining ∉ reasons c)
    /\ (fails env (Sql CountNewReadings) (S (S (ticks w))) = false ->
        new_data_points c
        = length (filter (fun t => last_training_date entry < t)
                    (reading_timestamps (db w)))).
Proof.
  intros Hlog Hread.
  destruct (check_retraining_criteria_returns env w) as [c Hc].
  exists c. split; [exact Hc|].
  exact (check_reads_the_log env w entry Hlog Hread c Hc).
Qed.

Lemma criteria_follow_the_training_log_witness :
  exists c,
    result (check_retraining_criteria (scoring (Some (85 # 100)) no_fault)
              trained_recently) = Ok c
    /\ days_since_last_training c = 3
    /\ (NoPreviousTraining ∉ reasons c)
    /\ new_data_points c = 0%nat.
Proof.
  destruct (criteria_follow_the_training_log
              (scoring (Some (85 # 100)) no_fault) trained_recently
              (mkLogEntry three_days_before (of_Q (85 # 100)) 120
                 "automated_retraining"))
    as (c & Hc & Hdays & Hno & Hnew); [by_computation|by_computation|].
  exists c. split; [exact Hc|]. split; [rewrite Hdays; by_computation|].
  split; [exact Hno|]. rewrite Hnew; by_computation.
Defined.

(** *** Properties of the helpers *)

(** X5. [_evaluate_current_model]: with no production model it returns
    [None] at once, touching and logging nothing. When it returns a score,
    the score is what the production model gives on the exported data, the
    export [temp_eval_data.csv] has been removed again, no other file has
    changed, and the export is all that was logged. *)
Theorem evaluation_cleans_up_after_scoring (env : Env) (w : World) :
  let o := _evaluate_current_model env w in
  (fs w !! PRODUCTION_MODEL = None -> o = mkOutcome (Ok None) w [])
  /\ (forall r2, result o = Ok (Some r2) ->
      fs (final o) !! TEMP_EVAL_DATA = None
      /\ (forall p, p <> TEMP_EVAL_DATA -> fs (final o) !! p = fs w !! p)
      /\ log o = [Exported TEMP_EVAL_DATA]
      /\ exists model_system data,
           fs w !! PRODUCTION_MODEL = Some (Pickled model_system)
           /\ predict_r2 env (model_object (model_info model_system))
                (features (model_info model_system)) data = Some r2).
Proof.
  intros o. split.
  - intros Hnone. subst o.
    unfold _evaluate_current_model, try_except, bind, os_path_exists, get_fs,
      ret, and_then. simpl. rewrite Hnone. simpl.
    destruct w; reflexivity.
  - subst o.
    change (ends (_evaluate_current_model env) w (fun r w' l =>
      forall r2, r = Ok (Some r2) ->
        fs w' !! TEMP_EVAL_DATA = None
        /\ (forall p, p <> TEMP_EVAL_DATA -> fs w' !! p = fs w !! p)
        /\ l = [Exported TEMP_EVAL_DATA]
        /\ exists model_system data,
             fs w !! PRODUCTION_MODEL = Some (Pickled model_system)
             /\ predict_r2 env (model_object (model_info model_system))
                  (features (model_info model_system)) data = Some r2)).
    unfold _evaluate_current_model, pickle_load, export_data_for_ml.
    repeat ends_step.
    all: intros r2 Hr; try discriminate Hr.
    all: injection Hr as <-.
    all: cbn [fs with_fs tick] in *.
    + split; [apply lookup_delete_eq|].
      split; [|split; [reflexivity|eauto]].
      intros p' Hp.
      rewrite lookup_delete_ne by done. by rewrite !lookup_insert_ne.
    + exfalso.
      match goal with
      | Hb : bool_decide _ = false |- _ =>
          apply bool_decide_eq_false in Hb; apply Hb;
          rewrite lookup_insert_eq; eauto
      end.
Qed.

(** X6. [_load_training_data_from_csv] never raises and changes neither a
    file nor the database. It returns either the empty table, having logged
    why, or a table that has the column [failure_probability], loaded from
    one of the three CSV files it knows. *)
Theorem csv_fallback_gives_target_or_nothing (env : Env) (w : World) :
  let o := _load_training_data_from_csv env w in
  exists df,
    result o = Ok df
    /\ fs (final o) = fs w /\ db (final o) = db w
    /\ ((df = empty_frame
         /\ (NoSuitableCsv ∈ log o \/ exists e, ErrLoadCsv e ∈ log o))
        \/ (has_column target_col df = true
            /\ exists csv_file,
                 csv_file ∈ [KNUST_DATASET; CLEANED_DATA; CLEAN_DATA]
                 /\ LoadedCsv (nrows df) csv_file ∈ log o)).
Proof.
  intros o. subst o.
  change (ends (_load_training_data_from_csv env) w (fun r w' l =>
    exists df,
      r = Ok df /\ fs w' = fs w /\ db w' = db w
      /\ ((df = empty_frame
           /\ (NoSuitableCsv ∈ l \/ exists e, ErrLoadCsv e ∈ l))
          \/ (has_column target_col df = true
              /\ exists csv_file,
                   csv_file ∈ [KNUST_DATASET; CLEANED_DATA; CLEAN_DATA]
                   /\ LoadedCsv (nrows df) csv_file ∈ l)))).
  unfold _load_training_data_from_csv.
  apply ends_try_except.
  eapply ends_known; [apply load_first_suitable_result|]. cbv beta.
  intros [df|e] w1 l1 (Hfs & Hdb & Hr).
  - exists df. repeat split; [done..|].
    destruct (Hr df eq_refl) as [[-> Hin]|[Hcol Hfile]]; [left|right]; auto.
  - repeat ends_step. exists empty_frame. repeat split; [done..|].
    left. split; [done|]. right. exists e. log_in.
Qed.

(** X7. [_ensure_database_has_data] never raises and changes no file. When
    the database has equipment rows it changes and logs nothing; when it is
    empty and neither CSV file exists it only logs so; when the query fails
    the error is logged and the database is left alone. *)
Theorem ensure_database_never_fails (env : Env) (w : World) :
  let o := _ensure_database_has_data env w in
  result o = Ok tt
  /\ fs (final o) = fs w
  /\ (fails env (Sql GetEquipmentData) (ticks w) = false ->
      nrows (equipment_data (db w)) <> 0%nat ->
      db (final o) = db w /\ log o = [])
  /\ (fails env (Sql GetEquipmentData) (ticks w) = false ->
      nrows (equipment_data (db w)) = 0%nat ->
      fs w !! KNUST_DATASET = None -> fs w !! CLEANED_DATA = None ->
      db (final o) = db w /\ log o = [DatabaseEmpty; NoCsvToImport])
  /\ (fails env (Sql GetEquipmentData) (ticks w) = true ->
      db (final o) = db w
      /\ log o = [ErrEnsure (IOFailure (Sql GetEquipmentData))]).
Proof.
  intros o. subst o.
  change (ends (_ensure_database_has_data env) w (fun r w' l =>
    r = Ok tt /\ fs w' = fs w
    /\ (fails env (Sql GetEquipmentData) (ticks w) = false ->
        nrows (equipment_data (db w)) <> 0%nat -> db w' = db w /\ l = [])
    /\ (fails env (Sql GetEquipmentData) (ticks w) = false ->
        nrows (equipment_data (db w)) = 0%nat ->
        fs w !! KNUST_DATASET = None -> fs w !! CLEANED_DATA = None ->
        db w' = db w /\ l = [DatabaseEmpty; NoCsvToImport])
    /\ (fails env (Sql GetEquipmentData) (ticks w) = true ->
        db w' = db w /\ l = [ErrEnsure (IOFailure (Sql GetEquipmentData))]))).
  unfold _ensure_database_has_data, get_equipment_data.
  repeat (repeat ends_step; try apply ends_import).
  all: cbn [fs db tick with_fs with_db] in *.
  all: repeat match goal with
       | H : bool_decide _ = true |- _ => apply bool_decide_eq_true in H
       | H : (_ =? _)%nat = true |- _ => apply Nat.eqb_eq in H
       | H : (_ =? _)%nat = false |- _ => apply Nat.eqb_neq in H
       end.
  all: repeat split; try done; try congruence.
  all: intros; try congruence.
  all: try match goal with
       | Hs : is_Some ?x, Hn : ?x = None |- _ =>
           rewrite Hn in Hs; by destruct Hs
       end.
Qed.

(** *** Properties of a whole run *)

(** X8. A run of [retrain_model] that returns [True] has rewritten the
    training log with the candidate of this run, promoted or not: the entry
    carries the test score and the number of samples the run logged, that
    number is positive, and the export [retraining_data.csv] is gone. *)
Theorem completed_run_records_its_candidate (env : Env) (w : World) :
  let o := retrain_model env w in
  result o = Ok true ->
  exists entry train,
    fs (final o) !! TRAINING_LOG = Some (TrainingLogJson entry)
    /\ training_type entry = "automated_retraining"
    /\ ModelPerformance train (performance entry) ∈ log o
    /\ TrainingSamples (sample_count entry) ∈ log o
    /\ (0 < sample_count entry)%nat
    /\ fs (final o) !! RETRAINING_DATA = None.
Proof.
  change (ends (retrain_model env) w (fun r w' l =>
    r = Ok true ->
    exists entry train,
      fs w' !! TRAINING_LOG = Some (TrainingLogJson entry)
      /\ training_type entry = "automated_retraining"
      /\ ModelPerformance train (performance entry) ∈ l
      /\ TrainingSamples (sample_count entry) ∈ l
      /\ (0 < sample_count entry)%nat
      /\ fs w' !! RETRAINING_DATA = None)).
  retrain_walk; intros Hr; try discriminate Hr.
  destruct (Hlogfile eq_refl) as [Hentry Hgone].
  destruct Hcand as (_ & _ & _ & [train Hperf] & Hrows & Hpos & _).
  eexists _, train. split; [exact Hentry|]. cbn.
  repeat split; [log_in|log_in|done|done].
Qed.

Lemma completed_run_records_its_candidate_witness :
  exists entry train,
    fs (final rejected_run) !! TRAINING_LOG = Some (TrainingLogJson entry)
    /\ training_type entry = "automated_retraining"
    /\ ModelPerformance train (performance entry) ∈ log rejected_run
    /\ TrainingSamples (sample_count entry) ∈ log rejected_run
    /\ (0 < sample_count entry)%nat
    /\ fs (final rejected_run) !! RETRAINING_DATA = None.
Proof.
  apply (completed_run_records_its_candidate
           (production_at_78 no_fault (70 # 100)) serving).
  by_computation.
Defined.

(** X9. What becomes of the candidate file. In a run that rejects its
    candidate, the file [retrained_model_<timestamp>.pkl] it saved is still
    on disk at the end, holding the fitted model. In a run that promotes
    it, that name is gone and the production path holds the fitted model,
    whose score is the test score the run logged. The features of the
    fitted model never include the target column. *)
Theorem candidate_file_after_the_run (env : Env) (w : World) :
  let o := retrain_model env w in
  (KeptCurrent ∈ log o ->
   exists f model_system,
     RetrainedSaved f ∈ log o
     /\ fs (final o) !! f = Some (Pickled model_system)
     /\ (target_col ∉ features (model_info model_system)))
  /\ (Promoted ∈ log o ->
      exists f model_system,
        RetrainedSaved f ∈ log o
        /\ fs (final o) !! f = None
        /\ fs (final o) !! PRODUCTION_MODEL = Some (Pickled model_system)
        /\ (target_col ∉ features (model_info model_system))
        /\ exists train,
             ModelPerformance train
               (r2_score (performance_metrics (model_info model_system)))
             ∈ log o).
Proof.
  change (ends (retrain_model env) w (fun r w' l =>
    (KeptCurrent ∈ l ->
     exists f model_system,
       RetrainedSaved f ∈ l
       /\ fs w' !! f = Some (Pickled model_system)
       /\ (target_col ∉ features (model_info model_system)))
    /\ (Promoted ∈ l ->
        exists f model_system,
          RetrainedSaved f ∈ l
          /\ fs w' !! f = None
          /\ fs w' !! PRODUCTION_MODEL = Some (Pickled model_system)
          /\ (target_col ∉ features (model_info model_system))
          /\ exists train,
               ModelPerformance train
                 (r2_score (performance_metrics (model_info model_system)))
               ∈ l))).
  retrain_walk; (split; intros Hin; log_cases Hin).
  all: destruct Hcand as (Hsaved & _ & Hmsg & [train Hperf] & _ & _ & Hfeat & _ & Hr2).
  all: exists (retrained_file c), (model_system c).
  all: assert (Hnr : ~ record_file (retrained_file c))
         by (rewrite Hfile; apply retrained_not_recorded).
  all: try (destruct (Hkept Hin) as (Hok & _ & Hnot & _);
            try discriminate Hok; specialize (Hstay Hnot)).
  all: try (destruct (Hprom Hin) as (Hgone & Hnew & _)).
  all: try rewrite (Hrec _ Hnr).
  all: try rewrite (Hrec _ production_not_recorded).
  all: repeat split; try log_in; try congruence.
  all: exists train; rewrite Hr2; log_in.
Qed.

(** X10. After a run of [retrain_model] the production path holds what it
    held before, or nothing, or the model the run saved as its candidate
    (and then the candidate's own name is gone): the run never writes into
    the production path, it only renames whole files. *)
Theorem production_path_untouched_empty_or_candidate (env : Env) (w : World) :
  let o := retrain_model env w in
  fs (final o) !! PRODUCTION_MODEL = fs w !! PRODUCTION_MODEL
  \/ fs (final o) !! PRODUCTION_MODEL = None
  \/ exists f model_system,
       RetrainedSaved f ∈ log o
       /\ fs (final o) !! PRODUCTION_MODEL = Some (Pickled model_system)
       /\ fs (final o) !! f = None.
Proof.
  change (ends (retrain_model env) w (fun r w' l =>
    fs w' !! PRODUCTION_MODEL = fs w !! PRODUCTION_MODEL
    \/ fs w' !! PRODUCTION_MODEL = None
    \/ exists f model_system,
         RetrainedSaved f ∈ l
         /\ fs w' !! PRODUCTION_MODEL = Some (Pickled model_system)
         /\ fs w' !! f = None)).
  assert (Hcf : ~ candidate_file PRODUCTION_MODEL).
  { intros [H|[t' H]]; revert H; distinct_names. }
  retrain_walk.
  all: try (left; apply Hfs1, Hcf).
  all: try rewrite (Hrec _ production_not_recorded).
  all: destruct Hprod as [Hsame|[Hnone|(Hnew & _ & Hgone)]];
    [ left; rewrite Hsame; apply Hfs1, Hcf
    | right; left; exact Hnone
    | right; right ].
  all: destruct Hcand as (Hsaved & _ & Hmsg & _).
  all: exists (retrained_file c), (model_system c).
  all: assert (Hnr : ~ record_file (retrained_file c))
         by (rewrite Hfile; apply retrained_not_recorded).
  all: try rewrite (Hrec _ Hnr).
  all: repeat split; try log_in; congruence.
Qed.

(** X11. [run_automated_check] returns what its last log line says. When
    the criteria do not ask for retraining it returns [True], ends with the
    line that nothing is needed, and has changed no file other than the
    evaluation export. When they do, [retrain_model] is started, and the
    check returns [True] and ends with the success line, or returns [False]
    and ends with the failure line. *)
Theorem automated_check_reports_what_it_did (env : Env) (w : World) :
  let o := run_automated_check env w in
  exists c,
    result (check_retraining_criteria env w) = Ok c
    /\ (needs_retraining c = false ->
        result o = Ok true /\ last (log o) = Some NothingToDo
        /\ forall p, p <> TEMP_EVAL_DATA -> fs (final o) !! p = fs w !! p)
    /\ (needs_retraining c = true ->
        StartRetraining ∈ log o
        /\ ((result o = Ok true /\ last (log o) = Some AutomatedSucceeded)
            \/ (result o = Ok false /\ last (log o) = Some AutomatedFailed))).
Proof.
  intros o. subst o.
  destruct (check_retraining_criteria_returns env w) as [c Hc].
  exists c. split; [exact Hc|].
  change (ends (run_automated_check env) w (fun r w' l =>
    (needs_retraining c = false ->
     r = Ok true /\ last l = Some NothingToDo
     /\ forall p, p <> TEMP_EVAL_DATA -> fs w' !! p = fs w !! p)
    /\ (needs_retraining c = true ->
        StartRetraining ∈ l
        /\ ((r = Ok true /\ last l = Some AutomatedSucceeded)
            \/ (r = Ok false /\ last l = Some AutomatedFailed))))).
  unfold run_automated_check.
  ends_step. ends_step. ends_step.
  eapply ends_known;
    [apply ends_both;
     [apply ends_self
     |apply (ends_confined (fun p => p = TEMP_EVAL_DATA)
               (fun _ => True));
      [apply check_retraining_criteria_confined; done|intros r w1 l1 Hfs Hl; exact (conj Hfs Hl)]]|].
  cbv beta. intros r w1 l1 [(-> & -> & ->) [Hfs Hl]]. rewrite Hc.
  repeat ends_step.
  all: try (eapply ends_known; [apply retrain_model_starts|];
            intros [[]|e] w1 l1 [[Hr|Hr] Hstart]; try discriminate Hr;
            repeat ends_step).
  all: (split; intros Hneed; try discriminate Hneed).
  all: repeat match goal with
       | |- _ /\ _ => split
       | |- _ ∈ _ => log_in
       | |- Ok ?b = Ok ?b => reflexivity
       | |- (Ok true = Ok true /\ _) \/ _ => left
       | |- _ \/ (Ok false = Ok false /\ _) => right
       | |- last _ = _ => rewrite ?app_nil_r, !app_assoc; apply last_snoc
       | |- forall p, _ => intros p Hp; apply Hfs; exact Hp
       end.
Qed.

End RetrainFacts.

(* ===================================================================== *)
(** ** The model report *)
(* ===================================================================== *)

Module EnsembleFacts.
Import Pipeline PipelineFacts.
Local Open Scope Qc_scope.

Section Largest.
Context {A : Type} (key : A -> pyfloat) (kq : A -> Qc).

Let step (best y : A) : A := if fgt (key y) (key best) then y else best.

Lemma fold_keeps_first_largest (rest pre mid : list A) (b : A) :
  (forall x, x ∈ pre ++ b :: mid ++ rest -> key x = Finite (kq x)) ->
  (forall x, x ∈ pre -> kq x < kq b) ->
  (forall x, x ∈ mid -> kq x <= kq b) ->
  exists pre' post',
    pre ++ b :: mid ++ rest = pre' ++ fold_left step rest b :: post'
    /\ (forall x, x ∈ pre' -> kq x < kq (fold_left step rest b))
    /\ (forall x, x ∈ post' -> kq x <= kq (fold_left step rest b)).
Proof.
  revert pre mid b. induction rest as [|y rest IH]; intros pre mid b Hkey Hpre Hmid.
  - exists pre, mid. simpl. rewrite app_nil_r. auto.
  - simpl.
    assert (Hy : key y = Finite (kq y)) by (apply Hkey; set_solver).
    assert (Hb : key b = Finite (kq b)) by (apply Hkey; set_solver).
    assert (Hstep : (kq b < kq y /\ step b y = y)
                    \/ (~ kq b < kq y /\ step b y = b)).
    { unfold step. rewrite Hy, Hb. unfold fgt, flt, Qc_ltb.
      case_bool_decide; auto. }
    destruct Hstep as [[Hlt ->]|[Hlt ->]].
    + destruct (IH (pre ++ b :: mid) [] y) as (pre' & post' & Heq & H1 & H2).
      * intros x Hx. apply Hkey. rewrite <- app_assoc in Hx. simpl in Hx.
        revert Hx. rewrite !elem_of_app, !elem_of_cons, !elem_of_app, ?elem_of_cons.
        set_solver.
      * intros x [Hx|Hx]%elem_of_app.
        -- eapply Qclt_trans; [by apply Hpre|done].
        -- apply elem_of_cons in Hx as [->|Hx]; [done|].
           eapply Qcle_lt_trans; [by apply Hmid|done].
      * intros x Hx. by apply elem_of_nil in Hx.
      * exists pre', post'. split; [|done].
        rewrite <- Heq, <- app_assoc. reflexivity.
    + destruct (IH pre (mid ++ [y]) b) as (pre' & post' & Heq & H1 & H2).
      * intros x Hx. apply Hkey. revert Hx.
        rewrite <- !app_assoc. simpl. done.
      * done.
      * intros x [Hx|Hx]%elem_of_app; [by apply Hmid|].
        apply list_elem_of_singleton in Hx as ->. by apply Qcnot_lt_le.
      * exists pre', post'. split; [|done].
        rewrite <- Heq, <- app_assoc. reflexivity.
Qed.

Lemma py_max_first_largest (xs : list A) :
  (forall x, x ∈ xs -> key x = Finite (kq x)) -> xs <> [] ->
  exists pre best post,
    xs = pre ++ best :: post /\ py_max key xs = Some best
    /\ (forall x, x ∈ pre -> kq x < kq best)
    /\ (forall x, x ∈ post -> kq x <= kq best).
Proof.
  intros Hkey Hne. destruct xs as [|b rest]; [done|].
  destruct (fold_keeps_first_largest rest [] [] b) as (pre & post & Heq & H1 & H2).
  - done.
  - intros x Hx. by apply elem_of_nil in Hx.
  - intros x Hx. by apply elem_of_nil in Hx.
  - exists pre, (fold_left step rest b), post. done.
Qed.

End Largest.

(** X15. The entry [best_individual_model] of the model report: with no
    model scored, evaluating it raises (and no report is written); with
    finite test scores it names the first model, in the order the models
    were scored, whose R² no other model exceeds. *)
Theorem best_individual_model_is_first_of_the_best (p : AdvancedModelPipeline) :
  NoDup (PyDict.keys (model_performance p)) ->
  Forall (fun x => is_finite (r2 x) = true)
    (PyDict.values (model_performance p)) ->
  (model_performance p = [] -> best_individual_model p = None)
  /\ (model_performance p <> [] ->
      exists pre best perf post,
        model_performance p = pre ++ (best, perf) :: post
        /\ best_individual_model p = Some best
        /\ Forall (fun entry => flt (r2 entry.2) (r2 perf) = true) pre
        /\ Forall (fun entry => flt (r2 perf) (r2 entry.2) = false) post).
Proof.
  intros Hnd Hfin. split.
  { intros Hempty. unfold best_individual_model. by rewrite Hempty. }
  intros Hne.
  set (key := fun x => match PyDict.get x (model_performance p) with
                       | Some perf => r2 perf
                       | None => NaN
                       end).
  assert (Hget : forall name x, (name, x) ∈ model_performance p ->
                 key name = Finite (rational (r2 x))).
  { intros name x Hin. unfold key. rewrite (dict_get_elem _ _ _ Hnd Hin).
    rewrite Forall_forall in Hfin.
    assert (Hx : is_finite (r2 x) = true).
    { apply Hfin. apply list_elem_of_fmap. by exists (name, x). }
    by destruct (r2 x). }
  destruct (py_max_first_largest key (fun name => rational (key name))
              (PyDict.keys (model_performance p)))
    as (pre & best & post & Heq & Hmax & Hpre & Hpost).
  { intros name Hin. apply list_elem_of_fmap in Hin as ([n x] & -> & Hin).
    simpl. by rewrite (Hget n x Hin). }
  { unfold PyDict.keys. by destruct (model_performance p). }
  unfold PyDict.keys in Heq.
  apply fmap_app_inv in Heq as (mp1 & rest & -> & Hrest & Hmp).
  symmetry in Hrest.
  apply fmap_cons_inv in Hrest as ([best' perf] & mp2 & Hb & -> & ->).
  simpl in Hb. subst best'.
  exists mp1, best, perf, mp2. split; [exact Hmp|]. split; [exact Hmax|].
  assert (Hbest : key best = Finite (rational (r2 perf))).
  { apply Hget. rewrite Hmp. set_solver. }
  assert (Hperf : r2 perf = Finite (rational (r2 perf))).
  { rewrite <- Hbest. unfold key.
    rewrite (dict_get_elem best perf _ Hnd); [done|]. rewrite Hmp. set_solver. }
  split; apply Forall_forall; intros [n x] Hin; simpl.
  - assert (Hk : key n = Finite (rational (r2 x))).
    { apply Hget. rewrite Hmp. set_solver. }
    assert (Hx : r2 x = Finite (rational (r2 x))).
    { rewrite <- Hk. unfold key.
      rewrite (dict_get_elem n x _ Hnd); [done|]. rewrite Hmp. set_solver. }
    specialize (Hpre n). rewrite Hk, Hbest in Hpre. simpl in Hpre.
    rewrite Hx, Hperf. simpl. unfold Qc_ltb. apply bool_decide_eq_true.
    apply Hpre. apply list_elem_of_fmap. by exists (n, x).
  - assert (Hk : key n = Finite (rational (r2 x))).
    { apply Hget. rewrite Hmp. set_solver. }
    assert (Hx : r2 x = Finite (rational (r2 x))).
    { rewrite <- Hk. unfold key.
      rewrite (dict_get_elem n x _ Hnd); [done|]. rewrite Hmp. set_solver. }
    specialize (Hpost n). rewrite Hk, Hbest in Hpost. simpl in Hpost.
    rewrite Hx, Hperf. simpl. unfold Qc_ltb. apply bool_decide_eq_false.
    apply Qcle_not_lt. apply Hpost. apply list_elem_of_fmap. by exists (n, x).
Qed.

Lemma best_individual_model_is_first_of_the_best_witness :
  best_individual_model (trained []) = None
  /\ exists pre best perf post,
       model_performance five_models = pre ++ (best, perf) :: post
       /\ best_individual_model five_models = Some best
       /\ Forall (fun entry => flt (r2 entry.2) (r2 perf) = true) pre
       /\ Forall (fun entry => flt (r2 perf) (r2 entry.2) = false) post.
Proof.
  split.
  - apply (best_individual_model_is_first_of_the_best (trained []));
      [constructor|constructor|reflexivity].
  - apply (best_individual_model_is_first_of_the_best five_models);
      [by_computation|repeat constructor|discriminate].
Defined.

End EnsembleFacts.

(* ===================================================================== *)
(** ** Risk levels and alerts *)
(* ===================================================================== *)

Module RiskFacts.
Import Retrain RetrainFacts Risk.

Lemma thresholds :
  threshold "critical" = of_Q (7 # 10) /\ threshold "high" = of_Q (5 # 10)
  /\ threshold "medium" = of_Q (3 # 10).
Proof. repeat split; by_computation. Qed.

Lemma fge_trans (x y z : pyfloat) :
  fge x y = true -> fge y z = true -> fge x z = true.
Proof.
  destruct x as [a| | |], y as [b| | |], z as [c| | |]; simpl; try done.
  unfold Qc_ltb. rewrite !negb_true_iff, !bool_decide_eq_false.
  intros Hab Hbc Hac. apply Qcnot_lt_le in Hab, Hbc.
  apply (Qclt_not_le _ _ Hac). by etrans.
Qed.

Lemma fge_thresholds :
  fge (of_Q (7 # 10)) (of_Q (5 # 10)) = true
  /\ fge (of_Q (5 # 10)) (of_Q (3 # 10)) = true.
Proof. split; by_computation. Qed.

(** X16. The monitor and the importer grade a failure probability alike:
    [check_alerts] calls for a critical, high or medium alert exactly when
    the importer's [risk_level] is Critical, High or Medium, and for no
    alert exactly when it is Low, which is when the probability is not at
    least 0.3 (NaN included). *)
Theorem alert_levels_match_risk_levels (x : pyfloat) :
  (alert_level_for x = Some "critical" <-> risk_level x = "Critical")
  /\ (alert_level_for x = Some "high" <-> risk_level x = "High")
  /\ (alert_level_for x = Some "medium" <-> risk_level x = "Medium")
  /\ (alert_level_for x = None <-> risk_level x = "Low")
  /\ (fge x (of_Q (3 # 10)) = false <-> alert_level_for x = None).
Proof.
  unfold alert_level_for, risk_level.
  destruct thresholds as (-> & -> & ->).
  destruct (fge x (of_Q (7 # 10))) eqn:H7.
  { assert (fge x (of_Q (3 # 10)) = true) as ->.
    { eapply fge_trans; [exact H7|]. eapply fge_trans; apply fge_thresholds. }
    repeat split; intros; congruence. }
  destruct (fge x (of_Q (5 # 10))) eqn:H5.
  { assert (fge x (of_Q (3 # 10)) = true) as ->.
    { eapply fge_trans; [exact H5|]. apply fge_thresholds. }
    repeat split; intros; congruence. }
  destruct (fge x (of_Q (3 # 10))) eqn:H3; repeat split; intros; congruence.
Qed.

(** X17. [risk_level] never grades a higher probability lower: when
    [x >= y], [x] is Critical if [y] is, Critical or High if [y] is High,
    not Low if [y] is Medium, and [y] is Low if [x] is. *)
Theorem risk_level_is_monotone (x y : pyfloat) :
  fge x y = true ->
  (risk_level y = "Critical" -> risk_level x = "Critical")
  /\ (risk_level y = "High" ->
      risk_level x = "Critical" \/ risk_level x = "High")
  /\ (risk_level y = "Medium" -> risk_level x <> "Low")
  /\ (risk_level x = "Low" -> risk_level y = "Low").
Proof.
  intros Hxy. unfold risk_level.
  destruct (fge y (of_Q (7 # 10))) eqn:Hy7.
  { rewrite (fge_trans _ _ _ Hxy Hy7). repeat split; intros; congruence. }
  destruct (fge y (of_Q (5 # 10))) eqn:Hy5.
  { rewrite (fge_trans _ _ _ Hxy Hy5).
    destruct (fge x (of_Q (7 # 10))); repeat split; intros; auto; congruence. }
  destruct (fge y (of_Q (3 # 10))) eqn:Hy3.
  { rewrite (fge_trans _ _ _ Hxy Hy3).
    destruct (fge x (of_Q (7 # 10))), (fge x (of_Q (5 # 10)));
      repeat split; intros; auto; congruence. }
  destruct (fge x (of_Q (7 # 10))), (fge x (of_Q (5 # 10))),
    (fge x (of_Q (3 # 10))); repeat split; intros; auto; congruence.
Qed.

Lemma fge_or_flt (x y : pyfloat) :
  is_nan x = false -> is_nan y = false -> fge x y = negb (flt x y).
Proof.
  destruct x, y; simpl; try done.
Qed.

Lemma risk_level_is_monotone_witness :
  risk_level (of_Q (60 # 100)) = "Critical"
  \/ risk_level (of_Q (60 # 100)) = "High".
Proof.
  destruct (risk_level_is_monotone (of_Q (60 # 100)) (of_Q (55 # 100)))
    as (_ & Hhigh & _); [by_computation|].
  apply Hhigh. by_computation.
Defined.

(** X18. The counts [equipment_by_risk] of the monitoring report are
    cumulative, not a partition: critical is counted again in high and high
    in medium; medium and low together count every row whose probability
    is a number. *)
Theorem risk_counts_are_cumulative (column : list pyfloat) :
  let counts := equipment_by_risk column in
  (critical counts <= high counts)%nat
  /\ (high counts <= medium counts)%nat
  /\ (medium counts + low counts + count_where is_nan column
      = length column)%nat.
Proof.
  unfold equipment_by_risk, count_where. simpl.
  induction column as [|x column (IH1 & IH2 & IH3)]; [done|].
  rewrite !filter_cons.
  assert (H75 : fge x (of_Q (7 # 10)) = true -> fge x (of_Q (5 # 10)) = true).
  { intros H. eapply fge_trans; [exact H|apply fge_thresholds]. }
  assert (H53 : fge x (of_Q (5 # 10)) = true -> fge x (of_Q (3 # 10)) = true).
  { intros H. eapply fge_trans; [exact H|apply fge_thresholds]. }
  assert (Hpart : (fge x (of_Q (3 # 10)) = true /\ flt x (of_Q (3 # 10)) = false
                   /\ is_nan x = false)
                  \/ (fge x (of_Q (3 # 10)) = false /\ flt x (of_Q (3 # 10)) = true
                      /\ is_nan x = false)
                  \/ (fge x (of_Q (3 # 10)) = false /\ flt x (of_Q (3 # 10)) = false
                      /\ is_nan x = true)).
  { destruct x as [q| | |]; simpl; auto.
    unfold Qc_ltb. case_bool_decide; simpl; auto. }
  repeat case_decide; simpl; try lia.
  all: destruct Hpart as [(?&?&?)|[(?&?&?)|(?&?&?)]]; try congruence.
  all: try (exfalso; auto; congruence).
  all: try lia.
  all: try (match goal with H : fge _ _ <> true |- _ => exfalso; apply H; auto end).
Qed.

Lemma alert_level_cases (x : pyfloat) (level : string) :
  alert_level_for x = Some level ->
  fge x (of_Q (3 # 10)) = true
  /\ (level = "critical" \/ level = "high" \/ level = "medium").
Proof.
  unfold alert_level_for. destruct thresholds as (-> & -> & ->).
  destruct (fge x (of_Q (7 # 10))) eqn:H7.
  { intros [= <-]. split; [|auto].
    eapply fge_trans; [exact H7|]. eapply fge_trans; apply fge_thresholds. }
  destruct (fge x (of_Q (5 # 10))) eqn:H5.
  { intros [= <-]. split; [|auto].
    eapply fge_trans; [exact H5|]. apply fge_thresholds. }
  destruct (fge x (of_Q (3 # 10))) eqn:H3; [|done].
  intros [= <-]. auto.
Qed.

Lemma omap_at_risk_cons (idx : nat) (row : Row) (rows : list Row) :
  omap at_risk (zip (seq idx (length (row :: rows))) (row :: rows))
  = match at_risk (idx, row) with
    | Some found => found :: omap at_risk (zip (seq (S idx) (length rows)) rows)
    | None => omap at_risk (zip (seq (S idx) (length rows)) rows)
    end.
Proof. reflexivity. Qed.

Lemma check_alerts_from_spec (env : Env) (rows : list Row) :
  forall idx w,
  ends (check_alerts_from env idx rows) w (fun r w' l =>
    exists alerts,
      r = Ok alerts /\ fs w' = fs w /\ db w' = db w /\ l = []
      /\ map (fun a => (alert_equipment_id a, alert_failure_probability a,
                        alert_level a)) alerts
         = omap at_risk (zip (seq idx (length rows)) rows)
      /\ Forall (fun a =>
                   fge (alert_failure_probability a) (of_Q (3 # 10)) = true
                   /\ alert_recommended_action a
                      = _get_recommended_action (alert_level a)
                          (alert_failure_probability a)
                   /\ alert_recommended_action a <> "Continue normal operation")
           alerts).
Proof.
  induction rows as [|row rows IH]; intros idx w;
    rewrite ?omap_at_risk_cons; cbn [check_alerts_from].
  - apply ends_ret. exists []. repeat split; constructor.
  - destruct (alert_level_for (row_failure_probability row)) as [level|] eqn:E.
    + repeat ends_step.
      eapply ends_known; [apply IH|]. cbv beta.
      intros r w1 l1 (alerts & -> & Hfs & Hdb & -> & Hmap & Hall).
      repeat ends_step. eexists. split; [reflexivity|].
      split; [exact Hfs|]. split; [exact Hdb|]. split; [reflexivity|].
      unfold at_risk at 1. rewrite E. cbn [mbind option_bind map
        alert_equipment_id alert_failure_probability alert_level].
      split; [by rewrite Hmap|].
      constructor; [|exact Hall]. simpl.
      destruct (alert_level_cases _ _ E) as [Hge Hlevel].
      split; [exact Hge|]. split; [reflexivity|].
      destruct Hlevel as [-> | [-> | ->]]; by_computation.
    + eapply ends_known; [apply IH|]. cbv beta.
      intros r w1 l1 (alerts & -> & Hfs & Hdb & -> & Hmap & Hall).
      exists alerts. repeat split; try done.
      unfold at_risk at 1. by rewrite E.
Qed.

Lemma pretty_N_go_length (x : N) (s : string) :
  (String.length s <= String.length (pretty_N_go x s))%nat.
Proof.
  revert s. induction (N.lt_wf_0 x) as [x _ IH]; intros s.
  assert (x = 0 \/ 0 < x)%N as [->|Hx] by lia; [by rewrite pretty_N_go_0|].
  rewrite pretty_N_go_step by done.
  etrans; [|apply IH; by apply N.div_lt]. simpl. lia.
Qed.

Lemma pretty_long (idx : nat) :
  (1000 <= idx)%nat -> (4 <= String.length (pretty idx))%nat.
Proof.
  intros Hidx. unfold pretty, pretty_nat, pretty, pretty_N.
  case_decide; [lia|].
  assert (H1 : (0 < N.of_nat idx)%N) by lia.
  assert (H2 : (0 < (N.of_nat idx `div` 10))%N)
    by (apply N.div_str_pos; lia).
  assert (H3 : (0 < (N.of_nat idx `div` 10) `div` 10)%N).
  { apply N.div_str_pos. split; [lia|].
    apply N.div_le_lower_bound; lia. }
  assert (H4 : (0 < ((N.of_nat idx `div` 10) `div` 10) `div` 10)%N).
  { apply N.div_str_pos. split; [lia|].
    apply N.div_le_lower_bound; [lia|].
    apply N.div_le_lower_bound; lia. }
  rewrite (pretty_N_go_step _ _ H1), (pretty_N_go_step _ _ H2),
    (pretty_N_go_step _ _ H3), (pretty_N_go_step _ _ H4).
  etrans; [|apply pretty_N_go_length]. simpl. lia.
Qed.

Lemma digit_app_inj (a b : Z) (s s' : string) :
  digit a +:+ s = digit b +:+ s' -> a mod 10 = b mod 10 /\ s = s'.
Proof.
  unfold digit. cbn [String.append]. intros H. injection H as Hc Hs.
  split; [|exact Hs].
  assert (Ha : 0 <= a mod 10 < 10) by (apply Z.mod_pos_bound; lia).
  assert (Hb : 0 <= b mod 10 < 10) by (apply Z.mod_pos_bound; lia).
  apply (f_equal Ascii.nat_of_ascii) in Hc.
  rewrite !Ascii.nat_ascii_embedding in Hc by lia. lia.
Qed.

Lemma zero_padded_3 (n : Z) :
  zero_padded 3 n = digit (n / 10 / 10) +:+ (digit (n / 10) +:+ (digit n +:+ "")).
Proof. reflexivity. Qed.

Lemma padded_inj (i j : nat) :
  (i < 1000)%nat -> (j < 1000)%nat ->
  zero_padded 3 (Z.of_nat i) = zero_padded 3 (Z.of_nat j) -> i = j.
Proof.
  intros Hi Hj. rewrite !zero_padded_3. intros H.
  apply digit_app_inj in H as [D2 H].
  apply digit_app_inj in H as [D1 H].
  apply digit_app_inj in H as [D0 _].
  apply Nat2Z.inj. apply Nat2Z.inj_lt in Hi, Hj.
  pose proof (Nat2Z.is_nonneg i) as Hi0. pose proof (Nat2Z.is_nonneg j) as Hj0.
  revert D2 D1 D0 Hi Hj Hi0 Hj0. generalize (Z.of_nat i) (Z.of_nat j).
  intros a b D2 D1 D0 Ha Hb Ha0 Hb0. simpl in Ha, Hb.
  Z.div_mod_to_equations. lia.
Qed.

Lemma padded_length (n : Z) : String.length (zero_padded 3 n) = 3%nat.
Proof. reflexivity. Qed.

Lemma format_03d_inj (i j : nat) : format_03d i = format_03d j -> i = j.
Proof.
  unfold format_03d.
  destruct (i <? 1000)%nat eqn:Hi, (j <? 1000)%nat eqn:Hj.
  - apply Nat.ltb_lt in Hi, Hj. by apply padded_inj.
  - apply Nat.ltb_ge in Hj. intros H. apply (f_equal String.length) in H.
    pose proof (pretty_long j Hj) as Hlong.
    rewrite <- H, padded_length in Hlong. lia.
  - apply Nat.ltb_ge in Hi. intros H. apply (f_equal String.length) in H.
    pose proof (pretty_long i Hi) as Hlong.
    rewrite H, padded_length in Hlong. lia.
  - apply (inj pretty).
Qed.

Lemma equipment_id_of_inj (i j : nat) :
  equipment_id_of i = equipment_id_of j -> i = j.
Proof.
  unfold equipment_id_of. cbn [String.append]. intros [= H].
  by apply format_03d_inj.
Qed.

Lemma at_risk_ids (rows : list Row) (idx : nat) :
  let ids := map (fun found => found.1.1)
               (omap at_risk (zip (seq idx (length rows)) rows)) in
  NoDup ids
  /\ forall id, id ∈ ids -> exists k, (idx <= k)%nat /\ id = equipment_id_of k.
Proof.
  revert idx. induction rows as [|row rows IH]; intros idx.
  - split; [constructor|]. intros id Hin. by apply elem_of_nil in Hin.
  - cbv zeta. rewrite omap_at_risk_cons.
    destruct (IH (S idx)) as [Hnd Hids].
    destruct (at_risk (idx, row)) as [found|] eqn:E; cbn [map].
    + assert (Hid : found.1.1 = equipment_id_of idx).
      { unfold at_risk in E.
        destruct (alert_level_for (row_failure_probability row));
          simpl in E; [|discriminate].
        by injection E as <-. }
      rewrite Hid. split.
      * constructor; [|exact Hnd].
        intros Hin. destruct (Hids _ Hin) as (k & Hk & Heq).
        apply equipment_id_of_inj in Heq. lia.
      * intros id [->|Hin]%elem_of_cons; [exists idx; split; [lia|done]|].
        destruct (Hids _ Hin) as (k & Hk & Heq). exists k. split; [lia|done].
    + split; [exact Hnd|].
      intros id Hin. destruct (Hids _ Hin) as (k & Hk & Heq).
      exists k. split; [lia|done].
Qed.

(** X19. [check_alerts] returns, in the order of the rows, one alert for
    each row whose failure probability is at least 0.3 and none for the
    others; the alert carries the identifier [EQ-<index>] of the row, its
    probability and the level the thresholds give; the identifiers are
    pairwise distinct; the recommended action is that of the level and is
    never the one for normal operation. It never raises, logs nothing and
    changes neither a file nor the database. *)
Theorem check_alerts_finds_the_rows_at_risk
    (env : Env) (w : World) (rows : list Row) :
  let o := check_alerts env rows w in
  exists alerts,
    result o = Ok alerts
    /\ fs (final o) = fs w /\ db (final o) = db w /\ log o = []
    /\ map (fun a => (alert_equipment_id a, alert_failure_probability a,
                      alert_level a)) alerts
       = omap at_risk (zip (seq 0 (length rows)) rows)
    /\ NoDup (map alert_equipment_id alerts)
    /\ Forall (fun a =>
                 fge (alert_failure_probability a) (of_Q (3 # 10)) = true
                 /\ alert_recommended_action a
                    = _get_recommended_action (alert_level a)
                        (alert_failure_probability a)
                 /\ alert_recommended_action a <> "Continue normal operation")
         alerts.
Proof.
  intros o.
  destruct (check_alerts_from_spec env rows 0 w)
    as (alerts & Hr & Hfs & Hdb & Hl & Hmap & Hall).
  exists alerts. repeat split; try done.
  destruct (at_risk_ids rows 0) as [Hnd _]. cbv zeta in Hnd.
  rewrite <- Hmap, map_map in Hnd. exact Hnd.
Qed.

(** X20. The equipment identifiers [EQ-000], [EQ-001], ... that
    [import_csv_data] generates for a table without the column are as many
    as the rows and pairwise distinct; the number has three digits up to
    999 and at least four from 1000 on. *)
Theorem generated_ids_are_distinct (n : nat) :
  let ids := generated_equipment_ids n in
  length ids = n /\ NoDup ids
  /\ (forall i, (i < 1000)%nat -> String.length (format_03d i) = 3%nat)
  /\ (forall i, (1000 <= i)%nat -> (4 <= String.length (format_03d i))%nat).
Proof.
  cbv zeta. unfold generated_equipment_ids.
  split; [by rewrite length_map, length_seq|]. split.
  - apply (NoDup_fmap_2_strong equipment_id_of).
    + intros i j _ _. apply equipment_id_of_inj.
    + apply NoDup_seq.
  - unfold format_03d. split; intros i Hi.
    + apply Nat.ltb_lt in Hi. rewrite Hi. apply padded_length.
    + pose proof (pretty_long i Hi) as Hlong.
      apply Nat.ltb_ge in Hi. by rewrite Hi.
Qed.

End RiskFacts.
